(** * ABCZed: the editing engine of [src/abczed.c]

    A shallow embedding of the line buffer, the cursor, the selection, the
    clipboard and the undo/redo operation log of the editor, followed by the
    properties of the specification that were checked against it.

    Conventions of the embedding.
    - C [int] values are [Z].  Signed overflow is undefined in C and is
      outside the model (it needs a row of 2^31 bytes or 2^31 edits).
    - A row ([erow]) whose [size] field counts the bytes before the
      terminating NUL is the list of those bytes; [numrows] is the number of
      rows of the array [E.row].
    - A linked stack of [operation] records is a list, head first.
    - The global [E] is threaded explicitly: a C function [void f(args)]
      becomes [f args : editor_config -> editor_config], or
      [editor_config -> option editor_config] when its body indexes rows or
      bytes without a bounds check.  [None] stands for an access outside
      the rows or outside the bytes of a row (undefined behaviour, or stale
      bytes that the byte lists do not describe).
    - Allocation succeeds, except in module [Alloc], which follows
      [editor_insert_row] with the outcome of each allocation explicit. *)

From Stdlib Require Import ZArith Ascii String.
From stdpp Require Import base tactics option list strings pretty.

#[local] Open Scope Z_scope.

(** ** Data model *)

Inductive editor_mode :=
| MODE_NORMAL
| MODE_INSERT
| MODE_COMMAND
| MODE_SELECTION.

Inductive operation_type :=
| OP_INSERT_CHAR
| OP_DELETE_CHAR
| OP_INSERT_LINE
| OP_DELETE_LINE
| OP_NEWLINE.

Record operation := Operation {
  op_type : operation_type;
  op_cx : Z;
  op_cy : Z;
  op_c : ascii;
  op_line : option (list ascii);   (* NULL is None *)
  op_line_size : Z
}.

Abbreviation erow := (list ascii).

Definition size (r : erow) : Z := Z.of_nat (length r).

Record editor_config := EditorConfig {
  cx : Z;
  cy : Z;
  rowoff : Z;
  coloff : Z;
  screenrows : Z;
  screencols : Z;
  row : list erow;
  dirty : Z;
  statusmsg : string;
  mode : editor_mode;
  clipboard : option (list (list ascii));
  clipboard_len : Z;
  sel_start_x : Z;
  sel_start_y : Z;
  sel_end_x : Z;
  sel_end_y : Z;
  selecting : Z;
  undo_stack : list operation;
  redo_stack : list operation
}.

Definition numrows (E : editor_config) : Z := Z.of_nat (length (row E)).

(** Assignments to one field of [E]. *)

Definition set_cx (v : Z) (E : editor_config) : editor_config :=
  EditorConfig v (cy E) (rowoff E) (coloff E) (screenrows E) (screencols E)
    (row E) (dirty E) (statusmsg E) (mode E) (clipboard E) (clipboard_len E)
    (sel_start_x E) (sel_start_y E) (sel_end_x E) (sel_end_y E) (selecting E)
    (undo_stack E) (redo_stack E).

Definition set_cy (v : Z) (E : editor_config) : editor_config :=
  EditorConfig (cx E) v (rowoff E) (coloff E) (screenrows E) (screencols E)
    (row E) (dirty E) (statusmsg E) (mode E) (clipboard E) (clipboard_len E)
    (sel_start_x E) (sel_start_y E) (sel_end_x E) (sel_end_y E) (selecting E)
    (undo_stack E) (redo_stack E).

Definition set_row (v : list erow) (E : editor_config) : editor_config :=
  EditorConfig (cx E) (cy E) (rowoff E) (coloff E) (screenrows E) (screencols E)
    v (dirty E) (statusmsg E) (mode E) (clipboard E) (clipboard_len E)
    (sel_start_x E) (sel_start_y E) (sel_end_x E) (sel_end_y E) (selecting E)
    (undo_stack E) (redo_stack E).

Definition set_dirty (v : Z) (E : editor_config) : editor_config :=
  EditorConfig (cx E) (cy E) (rowoff E) (coloff E) (screenrows E) (screencols E)
    (row E) v (statusmsg E) (mode E) (clipboard E) (clipboard_len E)
    (sel_start_x E) (sel_start_y E) (sel_end_x E) (sel_end_y E) (selecting E)
    (undo_stack E) (redo_stack E).

Definition set_statusmsg (v : string) (E : editor_config) : editor_config :=
  EditorConfig (cx E) (cy E) (rowoff E) (coloff E) (screenrows E) (screencols E)
    (row E) (dirty E) v (mode E) (clipboard E) (clipboard_len E)
    (sel_start_x E) (sel_start_y E) (sel_end_x E) (sel_end_y E) (selecting E)
    (undo_stack E) (redo_stack E).

Definition set_mode (v : editor_mode) (E : editor_config) : editor_config :=
  EditorConfig (cx E) (cy E) (rowoff E) (coloff E) (screenrows E) (screencols E)
    (row E) (dirty E) (statusmsg E) v (clipboard E) (clipboard_len E)
    (sel_start_x E) (sel_start_y E) (sel_end_x E) (sel_end_y E) (selecting E)
    (undo_stack E) (redo_stack E).

Definition set_clipboard (v : option (list (list ascii))) (E : editor_config)
  : editor_config :=
  EditorConfig (cx E) (cy E) (rowoff E) (coloff E) (screenrows E) (screencols E)
    (row E) (dirty E) (statusmsg E) (mode E) v (clipboard_len E)
    (sel_start_x E) (sel_start_y E) (sel_end_x E) (sel_end_y E) (selecting E)
    (undo_stack E) (redo_stack E).

Definition set_clipboard_len (v : Z) (E : editor_config) : editor_config :=
  EditorConfig (cx E) (cy E) (rowoff E) (coloff E) (screenrows E) (screencols E)
    (row E) (dirty E) (statusmsg E) (mode E) (clipboard E) v
    (sel_start_x E) (sel_start_y E) (sel_end_x E) (sel_end_y E) (selecting E)
    (undo_stack E) (redo_stack E).

Definition set_sel_start (x y : Z) (E : editor_config) : editor_config :=
  EditorConfig (cx E) (cy E) (rowoff E) (coloff E) (screenrows E) (screencols E)
    (row E) (dirty E) (statusmsg E) (mode E) (clipboard E) (clipboard_len E)
    x y (sel_end_x E) (sel_end_y E) (selecting E)
    (undo_stack E) (redo_stack E).

Definition set_sel_end (x y : Z) (E : editor_config) : editor_config :=
  EditorConfig (cx E) (cy E) (rowoff E) (coloff E) (screenrows E) (screencols E)
    (row E) (dirty E) (statusmsg E) (mode E) (clipboard E) (clipboard_len E)
    (sel_start_x E) (sel_start_y E) x y (selecting E)
    (undo_stack E) (redo_stack E).

Definition set_selecting (v : Z) (E : editor_config) : editor_config :=
  EditorConfig (cx E) (cy E) (rowoff E) (coloff E) (screenrows E) (screencols E)
    (row E) (dirty E) (statusmsg E) (mode E) (clipboard E) (clipboard_len E)
    (sel_start_x E) (sel_start_y E) (sel_end_x E) (sel_end_y E) v
    (undo_stack E) (redo_stack E).

Definition set_undo_stack (v : list operation) (E : editor_config)
  : editor_config :=
  EditorConfig (cx E) (cy E) (rowoff E) (coloff E) (screenrows E) (screencols E)
    (row E) (dirty E) (statusmsg E) (mode E) (clipboard E) (clipboard_len E)
    (sel_start_x E) (sel_start_y E) (sel_end_x E) (sel_end_y E) (selecting E)
    v (redo_stack E).

Definition set_redo_stack (v : list operation) (E : editor_config)
  : editor_config :=
  EditorConfig (cx E) (cy E) (rowoff E) (coloff E) (screenrows E) (screencols E)
    (row E) (dirty E) (statusmsg E) (mode E) (clipboard E) (clipboard_len E)
    (sel_start_x E) (sel_start_y E) (sel_end_x E) (sel_end_y E) (selecting E)
    (undo_stack E) v.

(** ** Arrays indexed by an [int] *)

(** [l[i]], defined inside the array only. *)
Definition at_index {A} (l : list A) (i : Z) : option A :=
  if decide (0 ≤ i) then l !! Z.to_nat i else None.

(** [l[i] = x] *)
Definition store_at {A} (i : Z) (x : A) (l : list A) : list A :=
  <[Z.to_nat i := x]> l.

(** The [memmove] up by one slot from [i] followed by a store at [i]. *)
Definition insert_at {A} (i : Z) (x : A) (l : list A) : list A :=
  take (Z.to_nat i) l ++ x :: drop (Z.to_nat i) l.

(** The [memmove] down by one slot onto [i]. *)
Definition delete_at {A} (i : Z) (l : list A) : list A :=
  take (Z.to_nat i) l ++ drop (S (Z.to_nat i)) l.

(** The bytes [s[0 .. len)] behind a pointer [s]. *)
Definition bytes (s : list ascii) (len : Z) : list ascii :=
  take (Z.to_nat len) s.

Definition NUL : ascii := "000"%char.

(** The bytes of a C string up to its first NUL: what [strlen], [strdup]
    and a loop [for (i = 0; s[i] != '\0'; i++)] see of a buffer. *)
Fixpoint c_str (s : list ascii) : list ascii :=
  match s with
  | [] => []
  | c :: s' => if decide (c = NUL) then [] else c :: c_str s'
  end.

(** ** The operation log *)

(** [push_operation(&stack, type, cx, cy, c, line, line_size)]: the line is
    copied only when the pointer is not NULL and [line_size > 0]. *)
Definition push_operation (stack : list operation) (type : operation_type)
    (cx cy : Z) (c : ascii) (line : option (list ascii)) (line_size : Z)
  : list operation :=
  Operation type cx cy c
    (match line with
     | Some l => if decide (line_size > 0) then Some (bytes l line_size) else None
     | None => None
     end)
    line_size
  :: stack.

(** ** The line store *)

(** [editor_insert_row(at, s, len)], with [s] readable over [len] bytes. *)
Definition editor_insert_row (at_ : Z) (s : list ascii) (len : Z)
    (E : editor_config) : editor_config :=
  if decide (at_ < 0 ∨ at_ > numrows E) then E
  else
    let E1 := set_row (insert_at at_ (bytes s len) (row E)) E in
    let E2 := set_dirty (dirty E1 + 1) E1 in
    let E3 := set_statusmsg ("Line inserted at position " +:+ pretty (at_ + 1)) E2 in
    let E4 := set_undo_stack
                (push_operation (undo_stack E3) OP_INSERT_LINE 0 at_ NUL (Some s) len) E3 in
    set_redo_stack [] E4.

(** [editor_del_row(at)] *)
Definition editor_del_row (at_ : Z) (E : editor_config) : editor_config :=
  if decide (at_ < 0 ∨ at_ >= numrows E) then E
  else
    match at_index (row E) at_ with
    | None => E
    | Some r =>
      let E1 := set_undo_stack
                  (push_operation (undo_stack E) OP_DELETE_LINE 0 at_ NUL (Some r) (size r)) E in
      let E2 := set_row (delete_at at_ (row E1)) E1 in
      let E3 := set_dirty (dirty E2 + 1) E2 in
      set_redo_stack [] E3
    end.

(** ** The edit engine *)

(** [editor_insert_char(c)], with [c] the byte that the [int] argument is
    stored as.  The [memmove] of [size - cx + 1] bytes from [chars + cx]
    stays inside the row for [0 <= cx <= size] only. *)
Definition editor_insert_char (c : ascii) (E : editor_config)
  : option editor_config :=
  let E1 := if decide (cy E = numrows E)
            then editor_insert_row (numrows E) [] 0 E else E in
  r ← at_index (row E1) (cy E1);
  let E2 := set_undo_stack
              (push_operation (undo_stack E1) OP_INSERT_CHAR (cx E1) (cy E1) c None 0) E1 in
  if decide (0 ≤ cx E2 ≤ size r) then
    let E3 := set_row (store_at (cy E2) (insert_at (cx E2) c r) (row E2)) E2 in
    let E4 := set_cx (cx E3 + 1) E3 in
    let E5 := set_dirty (dirty E4 + 1) E4 in
    Some (set_redo_stack [] E5)
  else None.

(** [editor_insert_newline()].  With rows present, the copy of the tail and
    the call [editor_insert_row(cy + 1, chars + cx, size - cx)] stay inside
    the row for [0 <= cx <= size] only. *)
Definition editor_insert_newline (E : editor_config) : option editor_config :=
  let E0 := set_redo_stack [] E in
  if decide (numrows E0 = 0) then
    let E1 := editor_insert_row 0 [] 0 E0 in
    let E2 := set_undo_stack
                (push_operation (undo_stack E1) OP_NEWLINE 0 0 "010"%char None 0) E1 in
    let E3 := set_cy 0 E2 in
    let E4 := set_cx 0 E3 in
    Some (set_dirty (dirty E4 + 1) E4)
  else
    r ← at_index (row E0) (cy E0);
    if decide (0 ≤ cx E0 ≤ size r) then
      let line_copy :=
        if decide (cx E0 < size r) then Some (drop (Z.to_nat (cx E0)) r) else None in
      let line_size :=
        if decide (cx E0 < size r) then size r - cx E0 else 0 in
      let E1 :=
        if decide (cx E0 = 0) then editor_insert_row (cy E0) [] 0 E0
        else
          let Ea := editor_insert_row (cy E0 + 1)
                      (drop (Z.to_nat (cx E0)) r) (size r - cx E0) E0 in
          set_row (store_at (cy Ea) (take (Z.to_nat (cx Ea)) r) (row Ea)) Ea in
      let E2 := set_undo_stack
                  (push_operation (undo_stack E1) OP_NEWLINE (cx E1) (cy E1)
                     "010"%char line_copy line_size) E1 in
      let E3 := set_cy (cy E2 + 1) E2 in
      let E4 := set_cx 0 E3 in
      Some (set_dirty (dirty E4 + 1) E4)
    else None.

(** [editor_del_char()].  With [cx = size + 1] the code reads the
    terminator as the deleted character and shortens the row without
    moving it, which leaves a row that no byte list describes: the model
    is defined for [cx <= size]. *)
Definition editor_del_char (E : editor_config) : option editor_config :=
  if decide (cy E = numrows E) then Some E
  else if decide (cx E = 0 ∧ cy E = 0) then Some E
  else if decide (cx E > 0) then
    r ← at_index (row E) (cy E);
    c ← at_index r (cx E - 1);
    let E1 := set_undo_stack
                (push_operation (undo_stack E) OP_DELETE_CHAR (cx E - 1) (cy E) c None 0) E in
    let E2 := set_row (store_at (cy E1) (delete_at (cx E1 - 1) r) (row E1)) E1 in
    let E3 := set_cx (cx E2 - 1) E2 in
    let E4 := set_dirty (dirty E3 + 1) E3 in
    Some (set_redo_stack [] E4)
  else
    prev ← at_index (row E) (cy E - 1);
    r ← at_index (row E) (cy E);
    let E1 := set_cx (size prev) E in
    let E2 := editor_insert_row (cy E1 - 1) r (size r) E1 in
    let E3 := editor_del_row (cy E2) E2 in
    let E4 := set_cy (cy E3 - 1) E3 in
    Some (set_redo_stack [] E4).

(** The bytes [op->line[0 .. op->line_size)] that [editor_insert_row] is
    handed by undo and redo: a NULL line can only be read over zero bytes,
    and a line over no more bytes than it holds.  (The check is made
    before the index check of [editor_insert_row], so the model is
    undefined on a malformed record even for an index out of range.) *)
Definition op_bytes (op : operation) : option (list ascii) :=
  match op_line op with
  | Some l =>
    if decide (0 ≤ op_line_size op ≤ size l) then Some l else None
  | None =>
    if decide (op_line_size op = 0) then Some [] else None
  end.

(** The [switch (op->type)] of [editor_undo], on the state with the entry
    already popped.  It returns the state and the record as the NEWLINE
    case leaves it ([op->line] replaced by its [strdup], [op->line_size] by
    the [strlen] of that). *)
Definition undo_switch (op : operation) (E0 : editor_config)
  : option (editor_config * operation) :=
  match op_type op with
  | OP_INSERT_CHAR =>
    let E1 := set_cx (op_cx op) E0 in
    let E2 := set_cy (op_cy op) E1 in
    if decide (cy E2 < numrows E2) then
      r ← at_index (row E2) (cy E2);
      if decide (cx E2 < size r) then
        if decide (0 ≤ cx E2) then
          let E3 := set_row (store_at (cy E2) (delete_at (cx E2) r) (row E2)) E2 in
          Some (set_dirty (dirty E3 + 1) E3, op)
        else None
      else Some (E2, op)
    else Some (E2, op)
  | OP_DELETE_CHAR =>
    let E1 := set_cx (op_cx op) E0 in
    let E2 := set_cy (op_cy op) E1 in
    if decide (cy E2 < numrows E2) then
      r ← at_index (row E2) (cy E2);
      if decide (0 ≤ cx E2 ≤ size r) then
        let E3 := set_row (store_at (cy E2) (insert_at (cx E2) (op_c op) r) (row E2)) E2 in
        Some (set_dirty (dirty E3 + 1) E3, op)
      else None
    else Some (E2, op)
  | OP_INSERT_LINE =>
    let E1 := editor_del_row (op_cy op) E0 in
    let E2 := set_cx 0 E1 in
    Some (set_cy (op_cy op) E2, op)
  | OP_DELETE_LINE =>
    s ← op_bytes op;
    let E1 := editor_insert_row (op_cy op) s (op_line_size op) E0 in
    let E2 := set_cx 0 E1 in
    Some (set_cy (op_cy op) E2, op)
  | OP_NEWLINE =>
    if decide (cy E0 > 0) then
      prev_row ← at_index (row E0) (cy E0 - 1);
      curr_row ← at_index (row E0) (cy E0);
      let line_copy := c_str <$> op_line op in
      let E1 := set_row (store_at (cy E0 - 1) (prev_row ++ curr_row) (row E0)) E0 in
      let E2 := editor_del_row (cy E1) E1 in
      let E3 := set_cy (cy E2 - 1) E2 in
      let E4 := set_cx (op_cx op) E3 in
      let E5 := set_dirty (dirty E4 + 1) E4 in
      Some (E5,
            Operation (op_type op) (op_cx op) (op_cy op) (op_c op) line_copy
              (match line_copy with Some l => size l | None => 0 end))
    else Some (E0, op)
  end.

(** [editor_undo()] *)
Definition editor_undo (E : editor_config) : option editor_config :=
  match undo_stack E with
  | [] => Some (set_statusmsg "Nothing to undo" E)
  | op :: next =>
    let E0 := set_undo_stack next E in
    '(E1, op') ← undo_switch op E0;
    Some (set_redo_stack
            (push_operation (redo_stack E1) (op_type op') (op_cx op') (op_cy op')
               (op_c op') (op_line op') (op_line_size op')) E1)
  end.

(** The [switch (op->type)] of [editor_redo], on the state with the entry
    already popped. *)
Definition redo_switch (op : operation) (E0 : editor_config)
  : option editor_config :=
  match op_type op with
  | OP_INSERT_CHAR =>
    let E1 := set_cx (op_cx op) E0 in
    let E2 := set_cy (op_cy op) E1 in
    editor_insert_char (op_c op) E2
  | OP_DELETE_CHAR =>
    let E1 := set_cx (op_cx op + 1) E0 in
    let E2 := set_cy (op_cy op) E1 in
    editor_del_char E2
  | OP_INSERT_LINE =>
    s ← op_bytes op;
    let E1 := editor_insert_row (op_cy op) s (op_line_size op) E0 in
    let E2 := set_cx 0 E1 in
    Some (set_cy (op_cy op) E2)
  | OP_DELETE_LINE =>
    let E1 := editor_del_row (op_cy op) E0 in
    let E2 := set_cx 0 E1 in
    Some (set_cy (op_cy op) E2)
  | OP_NEWLINE =>
    if decide (cy E0 < numrows E0) then
      let save_cx := cx E0 in
      let save_cy := cy E0 in
      let E1 := set_cx (op_cx op) E0 in
      let E2 := set_cy (op_cy op) E1 in
      E3 ← editor_insert_newline E2;
      E4 ← match op_line op with
           | Some l =>
             if decide (op_line_size op > 0) then
               _ ← at_index (row E3) (cy E3);
               s ← op_bytes op;
               Some (set_row (store_at (cy E3) (bytes s (op_line_size op)) (row E3)) E3)
             else Some E3
           | None => Some E3
           end;
      let E5 := set_cx save_cx E4 in
      Some (set_cy save_cy E5)
    else Some E0
  end.

(** [editor_redo()] *)
Definition editor_redo (E : editor_config) : option editor_config :=
  match redo_stack E with
  | [] => Some (set_statusmsg "Nothing to redo" E)
  | op :: next =>
    let E0 := set_redo_stack next E in
    E1 ← redo_switch op E0;
    Some (set_undo_stack
            (push_operation (undo_stack E1) (op_type op) (op_cx op) (op_cy op)
               (op_c op) (op_line op) (op_line_size op)) E1)
  end.

(** ** The selection model *)

(** [editor_selection_start()] *)
Definition editor_selection_start (E : editor_config) : editor_config :=
  let E1 := set_sel_start (cx E) (cy E) E in
  let E2 := set_sel_end (cx E1) (cy E1) E1 in
  set_selecting 1 E2.

(** [editor_selection_update()] *)
Definition editor_selection_update (E : editor_config) : editor_config :=
  if decide (selecting E ≠ 0) then set_sel_end (cx E) (cy E) E else E.

(** [editor_selection_clear()] *)
Definition editor_selection_clear (E : editor_config) : editor_config :=
  let E1 := set_sel_start (-1) (-1) E in
  let E2 := set_sel_end (-1) (-1) E1 in
  set_selecting 0 E2.

(** [editor_selection_normalize()] *)
Definition editor_selection_normalize (E : editor_config) : editor_config :=
  if decide (sel_end_y E < sel_start_y E ∨
             (sel_end_y E = sel_start_y E ∧ sel_end_x E < sel_start_x E)) then
    let temp_x := sel_start_x E in
    let temp_y := sel_start_y E in
    let E1 := set_sel_start (sel_end_x E) (sel_end_y E) E in
    set_sel_end temp_x temp_y E1
  else E.

(** [is_position_selected(x, y)] *)
Definition is_position_selected (x y : Z) (E : editor_config) : bool :=
  if decide (selecting E = 0 ∨ sel_start_x E = -1) then false
  else
    let '(start_x, start_y, end_x, end_y) :=
      if decide (sel_end_y E < sel_start_y E ∨
                 (sel_end_y E = sel_start_y E ∧ sel_end_x E < sel_start_x E))
      then (sel_end_x E, sel_end_y E, sel_start_x E, sel_start_y E)
      else (sel_start_x E, sel_start_y E, sel_end_x E, sel_end_y E) in
    if decide (y < start_y ∨ y > end_y) then false
    else if decide (y = start_y ∧ x < start_x) then false
    else if decide (y = end_y ∧ x >= end_x) then false
    else true.

(** ** Clipboard *)

(** The copy of [len = end - start] bytes from [chars + start]. *)
Definition copy_range (r : erow) (start end_ : Z) : option (list ascii) :=
  if decide (0 ≤ start ∧ start ≤ end_ ∧ end_ ≤ size r)
  then Some (bytes (drop (Z.to_nat start) r) (end_ - start))
  else None.

(** The loop [for (i = 0; i < num_lines; i++)] of the multi-line copy, with
    [n] iterations left.  Its [break] on a row past the end leaves the
    remaining clipboard slots uninitialised, which no list describes. *)
Fixpoint copy_lines (E : editor_config) (num_lines : Z) (n : nat) (i : Z)
  : option (list (list ascii)) :=
  match n with
  | O => Some []
  | S n' =>
    if decide (sel_start_y E + i >= numrows E) then None
    else
      r ← at_index (row E) (sel_start_y E + i);
      let start := if decide (i = 0) then sel_start_x E else 0 in
      let end_ := if decide (i = num_lines - 1) then sel_end_x E else size r in
      l ← copy_range r start end_;
      ls ← copy_lines E num_lines n' (i + 1);
      Some (l :: ls)
  end.

(** [editor_copy_selection()] *)
Definition editor_copy_selection (E : editor_config) : option editor_config :=
  if decide (sel_start_x E = -1 ∨ sel_start_y E = -1 ∨
             sel_end_x E = -1 ∨ sel_end_y E = -1) then
    Some (set_statusmsg "No selection to copy" E)
  else
    let E1 := editor_selection_normalize E in
    let E2 := set_clipboard None E1 in
    let num_lines := sel_end_y E2 - sel_start_y E2 + 1 in
    if decide (num_lines <= 0) then
      Some (set_clipboard_len 0 (set_clipboard None E2))
    else
      let E3 := set_clipboard_len num_lines E2 in
      lines ←
        (if decide (num_lines = 1) then
           r ← at_index (row E3) (sel_start_y E3);
           l ← copy_range r (sel_start_x E3) (sel_end_x E3);
           Some [l]
         else copy_lines E3 num_lines (Z.to_nat num_lines) 0);
      let E4 := set_clipboard (Some lines) E3 in
      Some (set_statusmsg ("Copied " +:+ pretty num_lines +:+ " lines") E4).

(** The loop [for (i = 0; line[i] != '\0'; i++) editor_insert_char(line[i])]
    over the bytes [c_str line]. *)
Fixpoint insert_chars (l : list ascii) (E : editor_config)
  : option editor_config :=
  match l with
  | [] => Some E
  | c :: l' => E1 ← editor_insert_char c E; insert_chars l' E1
  end.

(** The loop of the multi-line paste over the first [clipboard_len] lines:
    a newline follows every line but the last. *)
Fixpoint paste_lines (lines : list (list ascii)) (E : editor_config)
  : option editor_config :=
  match lines with
  | [] => Some E
  | line :: rest =>
    E1 ← insert_chars (c_str line) E;
    match rest with
    | [] => Some E1
    | _ :: _ => E2 ← editor_insert_newline E1; paste_lines rest E2
    end
  end.

(** [editor_paste()] *)
Definition editor_paste (E : editor_config) : option editor_config :=
  match clipboard E with
  | None => Some (set_statusmsg "Nothing to paste" E)
  | Some cb =>
    if decide (clipboard_len E = 0) then
      Some (set_statusmsg "Nothing to paste" E)
    else
      E1 ←
        (if decide (clipboard_len E = 1) then
           line ← at_index cb 0;
           insert_chars (c_str line) E
         else if decide (clipboard_len E ≤ Z.of_nat (length cb)) then
           paste_lines (take (Z.to_nat (clipboard_len E)) cb) E
         else None);
      Some (set_statusmsg ("Pasted " +:+ pretty (clipboard_len E1) +:+ " lines") E1)
  end.

(** [editor_select_all()] *)
Definition editor_select_all (E : editor_config) : editor_config :=
  if decide (numrows E > 0) then
    match at_index (row E) (numrows E - 1) with
    | Some r =>
      let E1 := set_sel_start 0 0 E in
      let E2 := set_sel_end (size r) (numrows E1 - 1) E1 in
      let E3 := set_selecting 1 E2 in
      set_statusmsg "Selected all text" E3
    | None => E
    end
  else E.

(** The loop [for (i = end_y; i > start_y; i--) editor_del_row(i)] with [n]
    iterations left. *)
Fixpoint del_rows_down (n : nat) (i : Z) (E : editor_config) : editor_config :=
  match n with
  | O => E
  | S n' => del_rows_down n' (i - 1) (editor_del_row i E)
  end.

(** The case ['d'] of [MODE_SELECTION] in [editor_process_keypress]:
    deleting the selection. *)
Definition selection_delete (E : editor_config) : option editor_config :=
  Ec ← editor_copy_selection E;
  let En := editor_selection_normalize Ec in
  Ed ←
    (if decide (sel_start_y En = sel_end_y En) then
       r ← at_index (row En) (sel_start_y En);
       if decide (0 ≤ sel_start_x En ∧ sel_start_x En ≤ sel_end_x En ∧
                  sel_end_x En ≤ size r) then
         let E1 := set_row
                     (store_at (sel_start_y En)
                        (take (Z.to_nat (sel_start_x En)) r ++
                         drop (Z.to_nat (sel_end_x En)) r) (row En)) En in
         let E2 := set_cx (sel_start_x E1) E1 in
         Some (set_cy (sel_start_y E2) E2)
       else None
     else
       first ← at_index (row En) (sel_start_y En);
       if decide (0 ≤ sel_start_x En ≤ size first) then
         let E1 := set_row
                     (store_at (sel_start_y En)
                        (take (Z.to_nat (sel_start_x En)) first) (row En)) En in
         last ← at_index (row E1) (sel_end_y E1);
         if decide (0 ≤ sel_end_x E1 ≤ size last) then
           let end_text := drop (Z.to_nat (sel_end_x E1)) last in
           let end_len := size last - sel_end_x E1 in
           let E2 := set_row
                       (store_at (sel_start_y E1)
                          (take (Z.to_nat (sel_start_x E1)) first ++
                           bytes end_text end_len) (row E1)) E1 in
           let E3 := del_rows_down (Z.to_nat (sel_end_y E2 - sel_start_y E2))
                       (sel_end_y E2) E2 in
           let E4 := set_cx (sel_start_x E3) E3 in
           Some (set_cy (sel_start_y E4) E4)
         else None
       else None);
  let E5 := set_dirty (dirty Ed + 1) Ed in
  let E6 := set_mode MODE_NORMAL E5 in
  Some (editor_selection_clear E6).

(** ** Cursor movement *)

(** The keys that [editor_move_cursor] has a case for.  The letters [h],
    [l], [k], [j], [0] and [$] share the cases of the arrow keys, Home and
    End. *)
Inductive cursor_key :=
| KEY_LEFT
| KEY_RIGHT
| KEY_UP
| KEY_DOWN
| KEY_HOME
| KEY_END
| KEY_PPAGE
| KEY_NPAGE.

(** The loop [while (times--) if (E.cy > 0) E.cy--;] with [n] iterations
    left, on the value of [E.cy]. *)
Fixpoint page_up (n : nat) (y : Z) : Z :=
  match n with
  | O => y
  | S n' => page_up n' (if decide (y > 0) then y - 1 else y)
  end.

(** The loop [while (times--) if (E.cy < E.numrows - 1) E.cy++;]. *)
Fixpoint page_down (n : nat) (rows : Z) (y : Z) : Z :=
  match n with
  | O => y
  | S n' => page_down n' rows (if decide (y < rows - 1) then y + 1 else y)
  end.

(** [if (E.cx > E.row[E.cy].size) E.cx = E.row[E.cy].size;] *)
Definition clamp_cx (E : editor_config) : option editor_config :=
  r ← at_index (row E) (cy E);
  if decide (cx E > size r) then Some (set_cx (size r) E) else Some E.

(** [editor_move_cursor(key)].  The page keys run their loop [screenrows]
    times, a count that [init_editor] and the resize handler keep
    positive. *)
Definition editor_move_cursor (key : cursor_key) (E : editor_config)
  : option editor_config :=
  E' ←
    match key with
    | KEY_LEFT =>
      if decide (cx E > 0) then Some (set_cx (cx E - 1) E)
      else if decide (cy E > 0) then
        let E1 := set_cy (cy E - 1) E in
        r ← at_index (row E1) (cy E1);
        Some (set_cx (size r) E1)
      else Some E
    | KEY_RIGHT =>
      if decide (cy E >= numrows E) then Some E
      else
        r ← at_index (row E) (cy E);
        if decide (cx E < size r) then Some (set_cx (cx E + 1) E)
        else if decide (cx E = size r ∧ cy E < numrows E - 1) then
          let E1 := set_cy (cy E + 1) E in
          Some (set_cx 0 E1)
        else Some E
    | KEY_UP =>
      if decide (cy E > 0) then clamp_cx (set_cy (cy E - 1) E) else Some E
    | KEY_DOWN =>
      if decide (cy E < numrows E - 1) then clamp_cx (set_cy (cy E + 1) E)
      else Some E
    | KEY_HOME => Some (set_cx 0 E)
    | KEY_END =>
      if decide (cy E >= numrows E) then Some E
      else r ← at_index (row E) (cy E); Some (set_cx (size r) E)
    | KEY_PPAGE =>
      if decide (0 ≤ screenrows E) then
        let E1 := set_cy (rowoff E) E in
        let E2 := set_cy (page_up (Z.to_nat (screenrows E1)) (cy E1)) E1 in
        if decide (cy E2 < numrows E2) then clamp_cx E2 else Some E2
      else None
    | KEY_NPAGE =>
      if decide (0 ≤ screenrows E) then
        let E1 := set_cy (rowoff E + screenrows E - 1) E in
        let E2 := if decide (cy E1 >= numrows E1)
                  then set_cy (numrows E1 - 1) E1 else E1 in
        let E3 := set_cy (page_down (Z.to_nat (screenrows E2)) (numrows E2)
                            (cy E2)) E2 in
        if decide (cy E3 < numrows E3) then clamp_cx E3 else Some E3
      else None
    end;
  Some match mode E' with
       | MODE_SELECTION => editor_selection_update E'
       | _ => E'
       end.

(** ** Edit operations as data *)

(** The forward edits of the specification, each standing for one call of
    the edit engine. *)
Inductive edit :=
| InsertChar (c : ascii)
| DeleteChar
| Newline
| InsertLine (at_ : Z) (s : list ascii)
| DeleteLine (at_ : Z)
| DeleteSelection.

Definition apply_edit (e : edit) (E : editor_config) : option editor_config :=
  match e with
  | InsertChar c => editor_insert_char c E
  | DeleteChar => editor_del_char E
  | Newline => editor_insert_newline E
  | InsertLine at_ s => Some (editor_insert_row at_ s (size s) E)
  | DeleteLine at_ => Some (editor_del_row at_ E)
  | DeleteSelection => selection_delete E
  end.

Fixpoint run_edits (es : list edit) (E : editor_config) : option editor_config :=
  match es with
  | [] => Some E
  | e :: es' => E1 ← apply_edit e E; run_edits es' E1
  end.

(** [n] calls of [editor_undo] in a row. *)
Fixpoint undo_n (n : nat) (E : editor_config) : option editor_config :=
  match n with
  | O => Some E
  | S n' => E1 ← editor_undo E; undo_n n' E1
  end.

(** An edit inside one existing row: a character typed on a row of the
    buffer, or the character left of the cursor deleted. *)
Definition in_row_edit (e : edit) (E : editor_config) : Prop :=
  match e with
  | InsertChar _ => cy E < numrows E
  | DeleteChar => cx E > 0 ∧ cy E ≠ numrows E
  | _ => False
  end.

(** Every edit of [es], run from [E], is an edit inside a row in the state
    it is applied to. *)
Fixpoint in_row_edits (es : list edit) (E : editor_config) : Prop :=
  match es with
  | [] => True
  | e :: es' =>
    in_row_edit e E ∧
    match apply_edit e E with
    | Some E1 => in_row_edits es' E1
    | None => True
    end
  end.

(** The edits that reach [push_operation] once: those inside a row, and a
    row inserted or deleted at an index of the buffer. *)
Definition logs_one_entry (e : edit) (E : editor_config) : Prop :=
  match e with
  | InsertChar _ | DeleteChar => in_row_edit e E
  | InsertLine at_ _ => 0 ≤ at_ ≤ numrows E
  | DeleteLine at_ => 0 ≤ at_ < numrows E
  | Newline | DeleteSelection => False
  end.

(** The selection starts and ends on the same row. *)
Definition single_row_selection (E : editor_config) : Prop :=
  sel_start_y E = sel_end_y E.

(** The edits that one undo takes back when it finds the rows, the undo
    stack and the cursor row they left: an edit inside a row, a newline in
    a buffer that has rows, and a row inserted or deleted at an index of
    the buffer. *)
Definition undone_by_one (e : edit) (E : editor_config) : Prop :=
  match e with
  | Newline => numrows E ≠ 0
  | _ => logs_one_entry e E
  end.

(** A sequence of edits whose first is undone by one undo and whose later
    ones are edits inside a row. *)
Definition round_trip_edits (es : list edit) (E : editor_config) : Prop :=
  match es with
  | [] => True
  | e :: es' =>
    undone_by_one e E ∧
    match apply_edit e E with
    | Some E1 => in_row_edits es' E1
    | None => True
    end
  end.

(** Where the cursor is after the undo of [e], an edit made in state [E]:
    at the position the entry records, which for a deleted character is
    the place of that character and for a row is column 0 of that row. *)
Definition recorded_cursor (e : edit) (E : editor_config) : Z * Z :=
  match e with
  | DeleteChar => (cx E - 1, cy E)
  | InsertLine at_ _ | DeleteLine at_ => (0, at_)
  | _ => (cx E, cy E)
  end.

(** The buffer invariant of the specification. *)
Definition buffer_inv (E : editor_config) : Prop :=
  0 ≤ cy E ≤ numrows E ∧
  ∀ r, cy E < numrows E → at_index (row E) (cy E) = Some r → 0 ≤ cx E ≤ size r.

(** An editing key of insert mode pressed with the cursor on a row: a byte
    typed, Enter, or Backspace with a byte on its left. *)
Definition typing_edit (e : edit) (E : editor_config) : Prop :=
  match e with
  | InsertChar _ | Newline => cy E < numrows E
  | DeleteChar => cx E > 0 ∧ cy E < numrows E
  | _ => False
  end.

(** Every edit of [es], run from [E], is such a key in the state it is
    applied to. *)
Fixpoint typing_edits (es : list edit) (E : editor_config) : Prop :=
  match es with
  | [] => True
  | e :: es' =>
    typing_edit e E ∧
    match apply_edit e E with
    | Some E1 => typing_edits es' E1
    | None => True
    end
  end.

(** ** Concrete buffers *)

Definition str (s : string) : list ascii := list_ascii_of_string s.

(** A session on the lines [rows] with the cursor at column [x] of row [y]:
    insert mode, nothing selected, nothing copied, both stacks empty, as
    after loading a file and moving the cursor. *)
Definition session (rows : list erow) (x y : Z) : editor_config :=
  EditorConfig x y 0 0 22 80 rows 0 "" MODE_INSERT None 0
    (-1) (-1) (-1) (-1) 0 [] [].

(** The same with a selection from [(sx, sy)] to [(ex, ey)] being made. *)
Definition selecting_session (rows : list erow) (sx sy ex ey : Z)
  : editor_config :=
  set_mode MODE_SELECTION
    (set_selecting 1 (set_sel_end ex ey (set_sel_start sx sy (session rows ex ey)))).

(** ** Allocation outcomes in [editor_insert_row] *)

(** [editor_insert_row] followed statement by statement over the row array
    as it lies in memory, with the result of its [realloc] and of its
    [malloc] given as arguments. *)
Module Alloc.

(** One slot of the array [E.row]: the [size] field and the [chars]
    pointer, NULL being [None]. *)
Record erow := Erow {
  size : Z;
  chars : option (list ascii)
}.

(** The fields of [E] that [editor_insert_row] reads or writes.  [row]
    lists the slots the array was allocated with, of which the first
    [numrows] are the buffer. *)
Record editor_config := EditorConfig {
  numrows : Z;
  row : list erow;
  dirty : Z;
  statusmsg : string;
  undo_stack : list operation;
  redo_stack : list operation
}.

(** The rows an observer of the buffer sees: [E.row[0 .. numrows)]. *)
Definition buffer (E : editor_config) : list erow :=
  take (Z.to_nat (numrows E)) (row E).

(** A row whose length and content agree. *)
Definition consistent (r : erow) : Prop :=
  ∃ l, chars r = Some l ∧ size r = Z.of_nat (length l).

(** The slots of a buffer of the main model. *)
Definition of_rows (rows : list (list ascii)) : list erow :=
  (λ l, Erow (Z.of_nat (length l)) (Some l)) <$> rows.

(** The buffer [rows] of the main model as it lies in memory, in an array
    of exactly [numrows] slots. *)
Definition of_buffer (rows : list (list ascii)) (d : Z) (m : string)
    (u r : list operation) : editor_config :=
  EditorConfig (Z.of_nat (length rows)) (of_rows rows) d m u r.

(** [editor_insert_row(at, s, len)]; [junk] is what the slot added by
    [realloc] holds before it is written. *)
Definition editor_insert_row (realloc_ok malloc_ok : bool) (junk : erow)
    (at_ : Z) (s : list ascii) (len : Z) (E : editor_config)
  : editor_config :=
  if decide (at_ < 0 ∨ at_ > numrows E) then E
  else if negb realloc_ok then
    EditorConfig (numrows E) (row E) (dirty E) "Memory allocation failed"
      (undo_stack E) (redo_stack E)
  else
    let new_rows := take (Z.to_nat (numrows E)) (row E) ++ [junk] in
    let moved :=
      if decide (at_ < numrows E) then
        take (Z.to_nat (at_ + 1)) new_rows ++
        take (Z.to_nat (numrows E - at_)) (drop (Z.to_nat at_) new_rows)
      else new_rows in
    if negb malloc_ok then
      EditorConfig (numrows E)
        (alter (λ r, Erow (size r) None) (Z.to_nat at_) moved)
        (dirty E) "Memory allocation failed" (undo_stack E) (redo_stack E)
    else
      EditorConfig (numrows E + 1)
        (alter (λ _, Erow len (Some (bytes s len))) (Z.to_nat at_) moved)
        (dirty E + 1)
        ("Line inserted at position " +:+ pretty (at_ + 1))
        (push_operation (undo_stack E) OP_INSERT_LINE 0 at_ NUL (Some s) len)
        [].

End Alloc.

(** ** Screen columns, the window and the screen size *)

Definition TAB : ascii := "009"%char.

(** The body of the loop of [editor_row_cx_to_rx], run over the bytes
    [chars[j]] that it reads, from the value [rx]. *)
Fixpoint cx_to_rx_loop (chars : list ascii) (rx : Z) : Z :=
  match chars with
  | [] => rx
  | c :: rest =>
    let rx1 := if decide (c = TAB) then rx + ((8 - 1) - Z.rem rx 8) else rx in
    cx_to_rx_loop rest (rx1 + 1)
  end.

(** [editor_row_cx_to_rx(row, cx)].  The loop reads [chars[0 .. cx)]: the
    bytes of the row and, for [cx = size + 1], its terminator. *)
Definition editor_row_cx_to_rx (r : erow) (cx : Z) : option Z :=
  if decide (cx ≤ size r + 1)
  then Some (cx_to_rx_loop (bytes (r ++ [NUL]) cx) 0)
  else None.

Definition set_rowoff (v : Z) (E : editor_config) : editor_config :=
  EditorConfig (cx E) (cy E) v (coloff E) (screenrows E) (screencols E)
    (row E) (dirty E) (statusmsg E) (mode E) (clipboard E) (clipboard_len E)
    (sel_start_x E) (sel_start_y E) (sel_end_x E) (sel_end_y E) (selecting E)
    (undo_stack E) (redo_stack E).

Definition set_coloff (v : Z) (E : editor_config) : editor_config :=
  EditorConfig (cx E) (cy E) (rowoff E) v (screenrows E) (screencols E)
    (row E) (dirty E) (statusmsg E) (mode E) (clipboard E) (clipboard_len E)
    (sel_start_x E) (sel_start_y E) (sel_end_x E) (sel_end_y E) (selecting E)
    (undo_stack E) (redo_stack E).

(** [editor_scroll()]: the successive values of [E.rowoff] and
    [E.coloff], the only fields that it assigns. *)
Definition editor_scroll (E : editor_config) : editor_config :=
  let rowoff1 := if decide (cy E < rowoff E) then cy E else rowoff E in
  let rowoff2 := if decide (cy E >= rowoff1 + screenrows E)
                 then cy E - screenrows E + 1 else rowoff1 in
  let coloff1 := if decide (cx E < coloff E) then cx E else coloff E in
  let coloff2 := if decide (cx E >= coloff1 + screencols E)
                 then cx E - screencols E + 1 else coloff1 in
  let rowoff3 := if decide (rowoff2 < 0) then 0 else rowoff2 in
  let coloff3 := if decide (coloff2 < 0) then 0 else coloff2 in
  set_coloff coloff3 (set_rowoff rowoff3 E).

(** The range of [int]. *)
Definition INT_MIN : Z := - 2 ^ 31.
Definition INT_MAX : Z := 2 ^ 31 - 1.

(** The cursor, the offsets and the screen size are below 2^30 in absolute
    value: the sums and differences that [editor_scroll] computes, in one
    call and in a second one after it, are then within [int]. *)
Definition scroll_in_range (E : editor_config) : Prop :=
  Forall (λ v, - 2 ^ 30 < v < 2 ^ 30)
    [cx E; cy E; rowoff E; coloff E; screenrows E; screencols E].

(** ** The command line *)

Definition COLON : ascii := ":"%char.
Definition SPACE : ascii := " "%char.
Definition LF : ascii := "010"%char.
Definition CR : ascii := "013"%char.
Definition ESC : ascii := "027"%char.
Definition DEL : ascii := "127"%char.

(** [c == ' ' || c == '\t'] *)
Definition is_blank (c : ascii) : bool := bool_decide (c = SPACE ∨ c = TAB).

(** The pointer loop of [process_command_prefix] that steps [p] over
    spaces and tabs, on a C string: the string from the final [p] on. *)
Fixpoint skip_blanks (s : list ascii) : list ascii :=
  match s with
  | [] => []
  | c :: s' => if is_blank c then skip_blanks s' else s
  end.

(** The loop [while (first_non_colon < len && cmd[first_non_colon] == ':')
    first_non_colon++;]. *)
Fixpoint count_colons (s : list ascii) : Z :=
  match s with
  | [] => 0
  | c :: s' => if decide (c = COLON) then 1 + count_colons s' else 0
  end.

(** [process_command_prefix(cmd)] on the C string [cmd] (its bytes before
    the terminator; a NULL pointer returns 0 as the empty string does):
    the value returned and the string left in the buffer. *)
Definition process_command_prefix (cmd : list ascii) : Z * list ascii :=
  if decide (cmd = []) then (0, cmd)
  else if decide (size cmd >= 256) then (0, cmd)
  else
    let cmd1 := skip_blanks cmd in
    let len := size cmd1 in
    let first_non_colon := count_colons cmd1 in
    if decide (first_non_colon >= len) then (0, [COLON])
    else
      (* the trim after the colon and the final [strlen(cmd) > 1] *)
      let finish (cmd2 : list ascii) :=
        let cmd3 := take 1 cmd2 ++ skip_blanks (drop 1 cmd2) in
        (if decide (size cmd3 > 1) then 1 else 0, cmd3) in
      if decide (first_non_colon = 0) then
        if decide (len + 1 >= 256) then (0, cmd1)
        else finish (COLON :: cmd1)
      else if decide (first_non_colon > 1) then
        finish (COLON :: drop (Z.to_nat first_non_colon) cmd1)
      else finish cmd1.

(** ** The whole editor state *)

(** The global [E] with the fields that the editing engine leaves alone;
    [core] holds the fields of [editor_config] above.  [commandbuf] is the
    C string in the 256-byte buffer, [filename] the string behind the
    pointer, NULL being [None].  The fields [statusmsg_time] and
    [orig_termios] are read by no function of the editor and are left
    out. *)
Record editor := Editor {
  core : editor_config;
  filename : option (list ascii);
  show_line_numbers : Z;
  font_size : Z;
  commandbuf : list ascii;
  commandlen : Z
}.

Definition set_core (v : editor_config) (S : editor) : editor :=
  Editor v (filename S) (show_line_numbers S) (font_size S) (commandbuf S)
    (commandlen S).

Definition set_filename (v : option (list ascii)) (S : editor) : editor :=
  Editor (core S) v (show_line_numbers S) (font_size S) (commandbuf S)
    (commandlen S).

Definition set_font_size (v : Z) (S : editor) : editor :=
  Editor (core S) (filename S) (show_line_numbers S) v (commandbuf S)
    (commandlen S).

Definition set_commandbuf (v : list ascii) (S : editor) : editor :=
  Editor (core S) (filename S) (show_line_numbers S) (font_size S) v
    (commandlen S).

Definition set_commandlen (v : Z) (S : editor) : editor :=
  Editor (core S) (filename S) (show_line_numbers S) (font_size S)
    (commandbuf S) v.

(** A function of the editing engine run on the global state. *)
Definition on_core (f : editor_config → editor_config) (S : editor) : editor :=
  set_core (f (core S)) S.

(** [snprintf(E.statusmsg, sizeof(E.statusmsg), ...)] with the formatted
    text [s]: the 80-byte buffer keeps its first 79 bytes. *)
Definition snprintf_statusmsg (s : string) (S : editor) : editor :=
  on_core (set_statusmsg (substring 0 79 s)) S.

(** [init_editor()], with [maxy] and [maxx] the size that [getmaxyx]
    reports. *)
Definition init_editor (maxy maxx : Z) : editor :=
  let rows := if decide (maxy < 3) then 1 else maxy - 2 in
  let rows := if decide (rows < 3) then 3 else rows in
  let cols := if decide (maxx < 20) then 20 else maxx in
  Editor
    (EditorConfig 0 0 0 0 rows cols [] 0
       "HELP: cc = insert | Ctrl+Z = undo | Ctrl+Y = redo | Ctrl+A = select all"
       MODE_NORMAL None 0 (-1) (-1) (-1) (-1) 0 [] [])
    None 0 3 [] 0.

(** [editor_change_font_size(delta)] *)
Definition editor_change_font_size (delta : Z) (S : editor) : editor :=
  let S1 := set_font_size (font_size S + delta) S in
  let S2 := if decide (font_size S1 < 1) then set_font_size 1 S1 else S1 in
  let S3 := if decide (font_size S2 > 5) then set_font_size 5 S2 else S2 in
  snprintf_statusmsg ("Font size: " +:+ pretty (font_size S3)) S3.

(** ** Files *)

(** What the file system answers to the calls of one command: whether the
    [fopen] for writing of [editor_save] succeeds and the text of
    [strerror(errno)] when it does not, and, for a file name, the lines
    that the calls of [getline] return after the [fopen] for reading of
    [editor_open], each with its line terminator ([None] when the file
    cannot be opened). *)
Record file_system := FileSystem {
  write_opens : bool;
  write_error : string;
  read_lines : list ascii → option (list (list ascii))
}.

(** [c == '\n' || c == '\r'] *)
Definition is_eol (c : ascii) : bool := bool_decide (c = LF ∨ c = CR).

(** The loop [while (linelen > 0 && (line[linelen - 1] == '\n' ||
    line[linelen - 1] == '\r')) linelen--;] from [linelen = n]: the final
    [linelen]. *)
Fixpoint strip_eol (line : list ascii) (n : nat) : Z :=
  match n with
  | O => 0
  | S n' =>
    match line !! n' with
    | Some c => if is_eol c then strip_eol line n' else Z.of_nat n
    | None => Z.of_nat n
    end
  end.

(** [editor_open(filename)] with [fp] what [fopen] and then [getline] give
    (the branch compiled for POSIX.1-2008, which the file selects on
    Linux). *)
Definition editor_open (name : list ascii) (fp : option (list (list ascii)))
    (S : editor) : editor :=
  let S1 := set_filename (Some name) S in
  match fp with
  | None => S1
  | Some lines =>
    let E1 := foldl (λ E line,
                editor_insert_row (numrows E) line (strip_eol line (length line)) E)
                (core S1) lines in
    let E2 := set_dirty 0 E1 in
    let E3 := set_undo_stack [] E2 in
    set_core (set_redo_stack [] E3) S1
  end.

(** [editor_save()]: the state, the bytes handed to [fwrite] when the file
    was opened, and the value returned. *)
Definition editor_save (fs : file_system) (S : editor)
  : editor * option (list ascii) * Z :=
  match filename S with
  | None => (snprintf_statusmsg "Error: No filename" S, None, -1)
  | Some name =>
    if write_opens fs then
      let out := mjoin ((λ r : erow, r ++ [LF]) <$> row (core S)) in
      let S1 := on_core (set_dirty 0) S in
      (snprintf_statusmsg
         (pretty (numrows (core S1)) +:+ " lines written to " +:+
          string_of_list_ascii name) S1,
       Some out, 0)
    else
      (snprintf_statusmsg ("Can't save! I/O error: " +:+ write_error fs) S,
       None, -1)
  end.

(** The lines that successive calls of [getline] return on a file that
    holds [content]: each up to and including its newline, the last one
    without when the file does not end in one. *)
Fixpoint file_lines (content : list ascii) : list (list ascii) :=
  match content with
  | [] => []
  | c :: rest =>
    if decide (c = LF) then [c] :: file_lines rest
    else match file_lines rest with
         | [] => [[c]]
         | l :: ls => (c :: l) :: ls
         end
  end.

(** ** Commands *)

(** How a call ends. *)
Inductive outcome :=
| Returns (v : Z)     (* [return v;], 0 for a [void] function *)
| Exits.              (* [editor_cleanup(); exit(0);] *)

(** [c == ' ' || c == '\t' || c == '\n' || c == '\r'] *)
Definition is_space (c : ascii) : bool :=
  bool_decide (c = SPACE ∨ c = TAB ∨ c = LF ∨ c = CR).

(** The loop of [editor_process_command] that writes a terminator over
    every trailing space while [end > cmd], from [end = cmd + n]: the
    string left in [cmd]. *)
Fixpoint trim_end (cmd : list ascii) (n : nat) : list ascii :=
  match n with
  | O => take 1 cmd
  | S n' =>
    match cmd !! n with
    | Some c => if is_space c then trim_end cmd n' else take (S n) cmd
    | None => take (S n) cmd
    end
  end.

(** The loop [for (int i = E.numrows - 1; i >= 0; i--) editor_del_row(i);] *)
Definition del_all_rows (E : editor_config) : editor_config :=
  del_rows_down (Z.to_nat (numrows E)) (numrows E - 1) E.

(** [E.commandbuf[E.commandlen] = '\0';] on the string in the buffer: a
    terminator written at or past the end of the string leaves the string
    as it is. *)
Definition terminate_commandbuf (S : editor) : option editor :=
  if decide (0 ≤ commandlen S < 256) then
    Some (set_commandbuf (take (Z.to_nat (commandlen S)) (commandbuf S)) S)
  else None.

(** The chain of comparisons of [editor_process_command] ("check for
    vim-like commands") on the trimmed command [cmd]: the state, what
    [editor_save] wrote if it ran, and the flags [should_quit],
    [force_quit] and [preserve_position]. *)
Definition dispatch_command (fs : file_system) (cmd : list ascii) (S : editor)
  : editor * option (list ascii) * Z * Z * Z :=
  let unsaved :=
    snprintf_statusmsg "No write since last change (add ! to override)" S in
  let open (name : list ascii) :=
    let S1 := on_core del_all_rows S in
    let S2 := editor_open name (read_lines fs name) S1 in
    snprintf_statusmsg ("Opened " +:+ string_of_list_ascii name) S2 in
  if decide (cmd = str ":q" ∨ cmd = str ":quit" ∨
             cmd = str "::q" ∨ cmd = str "::quit") then
    if decide (dirty (core S) ≠ 0) then (unsaved, None, 0, 0, 1)
    else (S, None, 1, 0, 1)
  else if decide (cmd = str ":q!" ∨ cmd = str ":quit!" ∨
                  cmd = str "::q!" ∨ cmd = str "::quit!") then
    (S, None, 1, 1, 1)
  else if decide (cmd = str ":w" ∨ cmd = str "::w") then
    let '(S1, out, _) := editor_save fs S in (S1, out, 0, 0, 1)
  else if decide (cmd = str ":wq" ∨ cmd = str "::wq" ∨
                  cmd = str ":sq" ∨ cmd = str "::sq") then
    let '(S1, out, ret) := editor_save fs S in
    (S1, out, if decide (ret = 0) then 1 else 0, 0, 1)
  else if decide (take 3 cmd = str ":e " ∨ take 4 cmd = str "::e ") then
    let name := drop (if decide (cmd !! 1%nat = Some COLON)
                      then 4%nat else 3%nat) cmd in
    if decide (dirty (core S) ≠ 0) then (unsaved, None, 0, 0, 1)
    else (open name, None, 0, 0, 0)
  else if decide (take 4 cmd = str ":e! " ∨ take 5 cmd = str "::e! ") then
    let name := drop (if decide (cmd !! 1%nat = Some COLON)
                      then 5%nat else 4%nat) cmd in
    (open name, None, 0, 0, 0)
  else
    (snprintf_statusmsg
       ("Unknown command: " +:+ string_of_list_ascii (take 59 cmd)) S,
     None, 0, 0, 1).

(** [editor_process_command()]: the state, what [editor_save] wrote if it
    ran, and how the call ends.  The static array [cmd_history], which is
    written and never read, is left out. *)
Definition editor_process_command (fs : file_system) (S : editor)
  : option (editor * option (list ascii) * outcome) :=
  S1 ← (if decide (commandlen S >= 256) then
          Some (set_commandlen 255 (set_commandbuf (take 255 (commandbuf S)) S))
        else terminate_commandbuf S);
  let '(valid, buf) := process_command_prefix (commandbuf S1) in
  let S2 := set_commandbuf buf S1 in
  if decide (valid = 0) then Some (S2, None, Returns 0)
  else
    let S3 := set_commandlen (size (commandbuf S2)) S2 in
    let saved_cx := cx (core S3) in
    let saved_cy := cy (core S3) in
    let saved_rowoff := rowoff (core S3) in
    let saved_coloff := coloff (core S3) in
    let p := skip_blanks (commandbuf S3) in
    let lead := take (length (commandbuf S3) - length p) (commandbuf S3) in
    let cmd := match p with [] => [] | _ => trim_end p (length p - 1) end in
    let S4 := set_commandbuf (lead ++ cmd) S3 in
    let '(S5, written, should_quit, force_quit, preserve_position) :=
      dispatch_command fs cmd S4 in
    let S6 :=
      if decide (preserve_position ≠ 0 ∧ should_quit = 0) then
        on_core (λ E, set_coloff saved_coloff (set_rowoff saved_rowoff
                        (set_cy saved_cy (set_cx saved_cx E)))) S5
      else S5 in
    if decide (should_quit ≠ 0 ∧ (force_quit ≠ 0 ∨ dirty (core S6) = 0))
    then Some (S6, written, Exits)
    else Some (S6, written, Returns 1).

(** ** Keys *)

(** A value of [getch()]: a byte, or one of the key codes of curses that
    the switch of [editor_process_keypress] names. *)
Inductive key :=
| Ch (c : ascii)
| KEY_BACKSPACE
| KEY_ENTER
| Cursor (k : cursor_key)
| KEY_OTHER.

(** The number of a byte, for [c >= 32 && c <= 126]. *)
Definition code (c : ascii) : Z := Z.of_N (N_of_ascii c).

(** The end of the Enter case of [MODE_COMMAND], and its ESC case but for
    the status message: back to normal mode with the buffer cleared. *)
Definition command_done (S : editor) : editor :=
  let S1 := on_core (set_mode MODE_NORMAL) S in
  set_commandlen 0 (set_commandbuf [] S1).

(** [E.commandbuf[E.commandlen++] = c;] followed by the terminator.  A byte
    stored past the terminator stays out of the string, and out of sight:
    every later store is followed by a terminator of its own. *)
Definition append_commandbuf (c : ascii) (S : editor) : option editor :=
  if decide (0 ≤ commandlen S < 256 - 1) then
    Some (set_commandlen (commandlen S + 1)
            (set_commandbuf
               (if decide (commandlen S ≤ size (commandbuf S))
                then take (Z.to_nat (commandlen S)) (commandbuf S) ++ [c]
                else commandbuf S) S))
  else None.

(** The [default] case of [MODE_COMMAND] for the byte [c]. *)
Definition command_default (c : ascii) (S : editor) : option editor :=
  if decide (32 ≤ code c ∧ code c ≤ 126 ∧ commandlen S < 256 - 1) then
    if decide (c = COLON) then
      if decide (commandlen S = 0) then append_commandbuf c S
      else if decide (commandbuf S !! 0%nat = Some COLON ∧ commandlen S = 1)
      then terminate_commandbuf S
      else append_commandbuf c S
    else append_commandbuf c S
  else Some S.

(** The case [MODE_COMMAND] of the switch of [editor_process_keypress],
    for the key [k].  The tests before the switch handle Ctrl-Q, Ctrl-V,
    Ctrl-H, ESC and, with a selection, Ctrl-K: every other key comes
    here. *)
Definition command_key (fs : file_system) (k : key) (S : editor)
  : option (editor * option (list ascii) * outcome) :=
  let enter :=
    if decide (commandlen S > 0) then
      '(S1, written, end_) ← editor_process_command fs S;
      match end_ with
      | Exits => Some (S1, written, Exits)
      | Returns should_quit =>
        if decide (should_quit ≠ 0) then Some (S1, written, Returns 0)
        else Some (command_done S1, written, Returns 0)
      end
    else Some (command_done S, None, Returns 0) in
  let backspace :=
    if decide (commandlen S > 0) then
      S1 ← terminate_commandbuf (set_commandlen (commandlen S - 1) S);
      Some (S1, None, Returns 0)
    else Some (S, None, Returns 0) in
  match k with
  | Ch c =>
    if decide (c = COLON) then
      let S1 := on_core (set_mode MODE_COMMAND) S in
      Some (set_commandlen 0 (set_commandbuf [] S1), None, Returns 0)
    else if decide (c = ESC) then
      Some (on_core (set_statusmsg "") (command_done S), None, Returns 0)
    else if decide (c = CR) then enter
    else if decide (c = DEL) then backspace
    else S1 ← command_default c S; Some (S1, None, Returns 0)
  | KEY_ENTER => enter
  | KEY_BACKSPACE => backspace
  | Cursor _ | KEY_OTHER => Some (S, None, Returns 0)
  end.

(** The keys [ks] handled one after the other in command mode: successive
    calls of [editor_process_keypress], without the screen refresh and the
    resize handling that [main] runs between them. *)
Fixpoint command_keys (fs : file_system) (ks : list key) (S : editor)
  : option editor :=
  match ks with
  | [] => Some S
  | k :: ks' => '(S1, _, _) ← command_key fs k S; command_keys fs ks' S1
  end.

(** The case [':'] of [MODE_NORMAL], with the status message that the
    mode sets before its switch. *)
Definition normal_colon (S : editor) : editor :=
  let S1 := on_core (set_statusmsg "-- NORMAL --") S in
  let S2 := on_core (set_mode MODE_COMMAND) S1 in
  let S3 := set_commandlen 1 (set_commandbuf [COLON] S2) in
  snprintf_statusmsg ":" S3.

(** The case ['x'] of [MODE_NORMAL]: "delete character under cursor". *)
Definition normal_x (E : editor_config) : option editor_config :=
  let E0 := set_statusmsg "-- NORMAL --" E in
  r ← at_index (row E0) (cy E0);
  if decide (cx E0 < size r) then
    c ← at_index r (cx E0);
    E1 ← editor_insert_char c E0;
    r1 ← at_index (row E1) (cy E1);
    if decide (0 ≤ cx E1 < size r1) then
      let E2 := set_row (store_at (cy E1) (delete_at (cx E1) r1) (row E1)) E1 in
      Some (set_dirty (dirty E2 + 1) E2)
    else None
  else Some E0.

(** * Properties *)

(** Reduction of the fields of a state built by assignments, and nothing
    else. *)
Ltac fields :=
  cbn [cx cy rowoff coloff screenrows screencols row dirty statusmsg mode
       clipboard clipboard_len sel_start_x sel_start_y sel_end_x sel_end_y
       selecting undo_stack redo_stack
       set_cx set_cy set_row set_dirty set_statusmsg set_mode set_clipboard
       set_clipboard_len set_sel_start set_sel_end set_selecting
       set_undo_stack set_redo_stack] in *.

(** ** Arrays *)

Section arrays.
Context {A : Type}.
Implicit Types (l : list A) (i : Z) (x : A).

Lemma at_index_Some l i x :
  at_index l i = Some x ↔ 0 ≤ i ∧ l !! Z.to_nat i = Some x.
Proof.
  unfold at_index. destruct (decide (0 ≤ i)); split.
  - by intros ?.
  - by intros [_ ?].
  - done.
  - by intros [? _].
Qed.

Lemma at_index_bound l i x :
  at_index l i = Some x → 0 ≤ i < Z.of_nat (length l).
Proof.
  intros [Hi Hl]%at_index_Some. apply lookup_lt_Some in Hl. lia.
Qed.

Lemma at_index_store_at l i x y :
  at_index l i = Some y → at_index (store_at i x l) i = Some x.
Proof.
  intros [Hi Hl]%at_index_Some. apply at_index_Some. split; [done|].
  unfold store_at. apply list_lookup_insert_eq. by eapply lookup_lt_Some.
Qed.

Lemma store_at_same l i x : at_index l i = Some x → store_at i x l = l.
Proof. intros [_ Hl]%at_index_Some. by apply list_insert_id. Qed.

Lemma store_at_twice l i x y : store_at i x (store_at i y l) = store_at i x l.
Proof. apply list_insert_insert_eq. Qed.

Lemma length_store_at l i x : length (store_at i x l) = length l.
Proof. apply length_insert. Qed.

Lemma delete_insert_at l i x :
  0 ≤ i ≤ Z.of_nat (length l) → delete_at i (insert_at i x l) = l.
Proof.
  intros Hi. unfold delete_at, insert_at.
  rewrite take_app_le by (rewrite length_take; lia).
  rewrite take_take, Nat.min_id.
  rewrite drop_app_ge by (rewrite length_take; lia).
  rewrite length_take, Nat.min_l by lia.
  replace (S (Z.to_nat i) - Z.to_nat i)%nat with 1%nat by lia.
  simpl. rewrite drop_0. apply take_drop.
Qed.

Lemma insert_delete_at l i x :
  at_index l i = Some x → insert_at i x (delete_at i l) = l.
Proof.
  intros [Hi Hl]%at_index_Some. unfold delete_at, insert_at.
  pose proof (lookup_lt_Some _ _ _ Hl) as Hlt.
  rewrite take_app_le by (rewrite length_take; lia).
  rewrite take_take, Nat.min_id.
  rewrite drop_app_ge by (rewrite length_take; lia).
  rewrite length_take, Nat.min_l by lia.
  rewrite Nat.sub_diag, drop_0.
  rewrite <- (take_drop_middle l (Z.to_nat i) x) at 3 by done.
  done.
Qed.

Lemma length_insert_at l i x :
  length (insert_at i x l) = S (length l).
Proof.
  unfold insert_at. rewrite length_app. simpl.
  rewrite length_take, length_drop. lia.
Qed.

Lemma at_index_insert_at l i x :
  0 ≤ i ≤ Z.of_nat (length l) → at_index (insert_at i x l) i = Some x.
Proof.
  intros Hi. apply at_index_Some. split; [lia|]. unfold insert_at.
  rewrite lookup_app_r by (rewrite length_take; lia).
  rewrite length_take, Nat.min_l by lia. by rewrite Nat.sub_diag.
Qed.

Lemma at_index_insert_at_succ l i x y :
  at_index l i = Some y → at_index (insert_at i x l) (i + 1) = Some y.
Proof.
  intros Hy. pose proof (at_index_bound _ _ _ Hy) as Hi.
  apply at_index_Some in Hy as [_ Hy].
  apply at_index_Some. split; [lia|]. unfold insert_at.
  rewrite lookup_app_r by (rewrite length_take; lia).
  rewrite length_take, Nat.min_l by lia.
  replace (Z.to_nat (i + 1) - Z.to_nat i)%nat with 1%nat by lia.
  simpl. rewrite lookup_drop. by rewrite Nat.add_0_r.
Qed.

Lemma at_index_insert_at_lt l i j x :
  0 ≤ j < i → i ≤ Z.of_nat (length l) →
  at_index (insert_at i x l) j = at_index l j.
Proof.
  intros Hj Hi. unfold at_index, insert_at.
  destruct (decide (0 ≤ j)); [|done].
  rewrite lookup_app_l by (rewrite length_take; lia).
  apply lookup_take_lt. lia.
Qed.

Lemma delete_at_succ_insert_at l i x :
  at_index l i = Some x → delete_at (i + 1) (insert_at i x l) = l.
Proof.
  intros Hx. pose proof (at_index_bound _ _ _ Hx) as Hi.
  apply at_index_Some in Hx as [_ Hx]. unfold delete_at, insert_at.
  replace (Z.to_nat (i + 1)) with (S (Z.to_nat i)) by lia.
  rewrite (cons_middle x), app_assoc.
  rewrite take_app_length' by (rewrite length_app, length_take; simpl; lia).
  replace (S (S (Z.to_nat i))) with (length (take (Z.to_nat i) l ++ [x]) + 1)%nat
    by (rewrite length_app, length_take; simpl; lia).
  rewrite drop_app_add. rewrite drop_drop, <- app_assoc. simpl.
  replace (Z.to_nat i + 1)%nat with (S (Z.to_nat i)) by lia.
  by apply take_drop_middle.
Qed.

Lemma store_at_insert_at l i x y :
  0 ≤ i ≤ Z.of_nat (length l) →
  store_at i x (insert_at i y l) = insert_at i x l.
Proof.
  intros Hi. unfold store_at, insert_at.
  rewrite insert_app_r_alt by (rewrite length_take; lia).
  rewrite length_take, Nat.min_l, Nat.sub_diag by lia. done.
Qed.

Lemma at_index_store_at_ne l i j x :
  i ≠ j → 0 ≤ i → 0 ≤ j → at_index (store_at i x l) j = at_index l j.
Proof.
  intros Hne Hi Hj. unfold at_index, store_at.
  destruct (decide (0 ≤ j)); [|done].
  apply list_lookup_insert_ne. lia.
Qed.
End arrays.

(** ** What the line store does to the log *)

Lemma at_index_in_range {A} (l : list A) (i : Z) :
  0 ≤ i < Z.of_nat (length l) → ∃ x, at_index l i = Some x.
Proof.
  intros Hi. destruct (lookup_lt_is_Some_2 l (Z.to_nat i)) as [x Hx]; [lia|].
  exists x. apply at_index_Some. split; [lia|done].
Qed.

Section line_store.
Variables (at_ : Z) (E : editor_config).

Lemma editor_insert_row_out_of_range s len :
  at_ < 0 ∨ at_ > numrows E → editor_insert_row at_ s len E = E.
Proof. intros Hat. unfold editor_insert_row. by rewrite decide_True. Qed.

Lemma editor_insert_row_in_range s len :
  0 ≤ at_ ≤ numrows E →
  let E' := editor_insert_row at_ s len E in
  row E' = insert_at at_ (bytes s len) (row E) ∧
  undo_stack E' =
    push_operation (undo_stack E) OP_INSERT_LINE 0 at_ NUL (Some s) len ∧
  redo_stack E' = [] ∧
  dirty E' = dirty E + 1.
Proof.
  intros Hat. unfold editor_insert_row.
  rewrite decide_False by lia. simpl. done.
Qed.

Lemma editor_del_row_out_of_range :
  at_ < 0 ∨ at_ >= numrows E → editor_del_row at_ E = E.
Proof. intros Hat. unfold editor_del_row. by rewrite decide_True. Qed.

Lemma editor_del_row_in_range :
  0 ≤ at_ < numrows E →
  ∃ r, at_index (row E) at_ = Some r ∧
    let E' := editor_del_row at_ E in
    row E' = delete_at at_ (row E) ∧
    undo_stack E' =
      push_operation (undo_stack E) OP_DELETE_LINE 0 at_ NUL (Some r) (size r) ∧
    redo_stack E' = [] ∧
    dirty E' = dirty E + 1.
Proof.
  intros Hat. destruct (at_index_in_range (row E) at_) as [r Hr]; [done|].
  exists r. split; [done|]. unfold editor_del_row.
  rewrite decide_False by lia. rewrite Hr. simpl. done.
Qed.

(** Neither moves the cursor. *)
Lemma editor_insert_row_cursor s len :
  cx (editor_insert_row at_ s len E) = cx E ∧
  cy (editor_insert_row at_ s len E) = cy E.
Proof. unfold editor_insert_row. by case_decide. Qed.

Lemma editor_del_row_cursor :
  cx (editor_del_row at_ E) = cx E ∧ cy (editor_del_row at_ E) = cy E.
Proof.
  unfold editor_del_row. case_decide; [done|]. by destruct (at_index _ _).
Qed.

(** An empty redo stack stays empty. *)
Lemma editor_insert_row_redo_empty s len :
  redo_stack E = [] → redo_stack (editor_insert_row at_ s len E) = [].
Proof. intros Hredo. unfold editor_insert_row. by case_decide. Qed.

Lemma editor_del_row_redo_empty :
  redo_stack E = [] → redo_stack (editor_del_row at_ E) = [].
Proof.
  intros Hredo. unfold editor_del_row. case_decide; [done|].
  by destruct (at_index _ _).
Qed.
End line_store.

Lemma del_rows_down_redo_empty (n : nat) (i : Z) (E : editor_config) :
  redo_stack E = [] → redo_stack (del_rows_down n i E) = [].
Proof.
  revert i E. induction n as [|n IH]; intros i E Hredo; simpl; [done|].
  apply IH. by apply editor_del_row_redo_empty.
Qed.

(** ** What copying a selection leaves alone *)

Lemma editor_selection_normalize_frame (E : editor_config) :
  let E' := editor_selection_normalize E in
  row E' = row E ∧ dirty E' = dirty E ∧
  undo_stack E' = undo_stack E ∧ redo_stack E' = redo_stack E ∧
  (sel_start_y E' = sel_end_y E' ↔ sel_start_y E = sel_end_y E) ∧
  (sel_start_y E' < sel_end_y E' ∨
   (sel_start_y E' = sel_end_y E' ∧ sel_start_x E' ≤ sel_end_x E')).
Proof.
  unfold editor_selection_normalize. case_decide; simpl; repeat split; lia.
Qed.

Lemma editor_copy_selection_frame (E E' : editor_config) :
  editor_copy_selection E = Some E' →
  row E' = row E ∧ dirty E' = dirty E ∧
  undo_stack E' = undo_stack E ∧ redo_stack E' = redo_stack E ∧
  (sel_start_y E' = sel_end_y E' ↔ sel_start_y E = sel_end_y E).
Proof.
  unfold editor_copy_selection. intros Hcopy.
  destruct (editor_selection_normalize_frame E) as (Hr & Hd & Hu & Hre & Hy & _).
  repeat case_decide; simplify_option_eq; simpl; done.
Qed.

(** ** Selection containment *)

(** C9.  For an active selection (the selecting flag set, the start column
    not the "no selection" sentinel) whose endpoints (sr, sc) and (er, ec)
    are already in document order, [is_position_selected x y] is true
    exactly when sr <= y <= er, and y > sr or x >= sc, and y < er or
    x < ec. *)
Theorem is_position_selected_normalized (x y : Z) (E : editor_config) :
  selecting E ≠ 0 →
  sel_start_x E ≠ -1 →
  sel_start_y E < sel_end_y E ∨
    (sel_start_y E = sel_end_y E ∧ sel_start_x E ≤ sel_end_x E) →
  is_position_selected x y E = true ↔
    sel_start_y E ≤ y ≤ sel_end_y E ∧
    (y > sel_start_y E ∨ x >= sel_start_x E) ∧
    (y < sel_end_y E ∨ x < sel_end_x E).
Proof.
  intros Hsel Hstart Hnorm. unfold is_position_selected.
  destruct (decide (selecting E = 0 ∨ sel_start_x E = -1)) as [[?|?]|_];
    [done..|].
  destruct (decide (sel_end_y E < sel_start_y E ∨
                    (sel_end_y E = sel_start_y E ∧ sel_end_x E < sel_start_x E)))
    as [Hswap|_]; [exfalso; lia|].
  repeat case_decide; split; (done || lia).
Qed.

Lemma is_position_selected_normalized_witness :
  is_position_selected 2 1 (selecting_session [str "hello"; str "world"] 3 0 4 1)
    = true
  ↔ 0 ≤ 1 ≤ 1 ∧ (1 > 0 ∨ 2 >= 3) ∧ (1 < 1 ∨ 2 < 4).
Proof.
  apply (is_position_selected_normalized 2 1
           (selecting_session [str "hello"; str "world"] 3 0 4 1));
    simpl; lia.
Defined.

(** A selection made with the keys: [v] at column 1 of "hello", then right
    twice.  Columns 1 and 2 are selected, column 3 is not. *)
Example selection_by_keys :
  (E1 ← editor_move_cursor KEY_RIGHT
          (editor_selection_start
             (set_mode MODE_SELECTION (session [str "hello"] 1 0)));
   editor_move_cursor KEY_RIGHT E1)
  = Some (selecting_session [str "hello"] 1 0 3 0) ∧
  is_position_selected 1 0 (selecting_session [str "hello"] 1 0 3 0) = true ∧
  is_position_selected 2 0 (selecting_session [str "hello"] 1 0 3 0) = true ∧
  is_position_selected 3 0 (selecting_session [str "hello"] 1 0 3 0) = false.
Proof. repeat split; vm_compute; reflexivity. Qed.

(** ** Paste *)

(** C10.  With no clipboard (never copied) or a clipboard of length zero,
    [editor_paste] only sets the status message "Nothing to paste": the
    lines, the cursor and both stacks are the ones before the call. *)
Theorem editor_paste_empty_clipboard (E : editor_config) :
  clipboard E = None ∨ clipboard_len E = 0 →
  ∃ E', editor_paste E = Some E' ∧
        statusmsg E' = "Nothing to paste" ∧
        row E' = row E ∧ cx E' = cx E ∧ cy E' = cy E ∧
        undo_stack E' = undo_stack E ∧ redo_stack E' = redo_stack E ∧
        E' = set_statusmsg "Nothing to paste" E.
Proof.
  intros Hempty. exists (set_statusmsg "Nothing to paste" E).
  split; [|done]. unfold editor_paste.
  destruct (clipboard E) as [cb|]; [|done].
  destruct Hempty as [?|Hlen]; [done|].
  by rewrite decide_True.
Qed.

Lemma editor_paste_empty_clipboard_witness :
  ∃ E', editor_paste (session [str "ab"] 1 0) = Some E' ∧
        statusmsg E' = "Nothing to paste" ∧
        row E' = [str "ab"] ∧ cx E' = 1 ∧ cy E' = 0 ∧
        undo_stack E' = [] ∧ redo_stack E' = [] ∧
        E' = set_statusmsg "Nothing to paste" (session [str "ab"] 1 0).
Proof.
  apply (editor_paste_empty_clipboard (session [str "ab"] 1 0)).
  left. reflexivity.
Defined.

(** A clipboard that was copied into is pasted as typed text: select all
    of "ab", "cd", copy, clear the selection, move to the end of row 1 and
    paste. *)
Example editor_paste_copied :
  row <$> (E1 ← editor_copy_selection
                  (editor_select_all (session [str "ab"; str "cd"] 0 0));
           editor_paste (set_cy 1 (set_cx 2 (editor_selection_clear E1))))
  = Some [str "ab"; str "cdab"; str "cd"].
Proof. vm_compute. reflexivity. Qed.

(** ** One entry per edit *)

Lemma in_row_edit_pushes (e : edit) (E E' : editor_config) :
  in_row_edit e E →
  apply_edit e E = Some E' →
  ∃ op, undo_stack E' = op :: undo_stack E.
Proof.
  destruct e; simpl; try done.
  - intros Hcy. unfold editor_insert_char.
    rewrite decide_False by lia. intros Hrun.
    simplify_option_eq. by eexists.
  - intros [Hcx Hcy]. unfold editor_del_char.
    rewrite decide_False by done. rewrite decide_False by lia.
    rewrite decide_True by done. intros Hrun.
    simplify_option_eq. by eexists.
Qed.

Lemma selection_delete_single_row (E E' : editor_config) :
  single_row_selection E →
  selection_delete E = Some E' →
  undo_stack E' = undo_stack E ∧ redo_stack E' = redo_stack E.
Proof.
  unfold single_row_selection, selection_delete. intros Hrow Hrun.
  destruct (editor_copy_selection E) as [Ec|] eqn:Hcopy; [|done].
  simpl in Hrun.
  destruct (editor_copy_selection_frame _ _ Hcopy) as (_ & _ & Hu & Hr & Hy).
  destruct (editor_selection_normalize_frame Ec) as (_ & _ & Hu' & Hr' & Hy' & _).
  rewrite decide_True in Hrun by (by apply Hy', Hy).
  simplify_option_eq. simpl. by rewrite Hu', Hr', Hu, Hr.
Qed.

(** C2, as the code has it.  An insert character on an existing row, a
    delete character inside a row, and an insert row or delete row at an
    index of the buffer push exactly one Operation onto the Undo stack;
    deleting a selection that lies within one row pushes none. *)
Theorem edit_pushes_by_kind (e : edit) (E E' : editor_config) :
  apply_edit e E = Some E' →
  (logs_one_entry e E → ∃ op, undo_stack E' = op :: undo_stack E) ∧
  (e = DeleteSelection → single_row_selection E →
   undo_stack E' = undo_stack E).
Proof.
  intros Hrun. split.
  - destruct e; simpl; try done.
    + intros Hin. by eapply (in_row_edit_pushes (InsertChar c)).
    + intros Hin. by eapply (in_row_edit_pushes DeleteChar).
    + intros Hat. injection Hrun as <-.
      destruct (editor_insert_row_in_range at_ E s (size s) Hat)
        as (_ & -> & _). by eexists.
    + intros Hat. injection Hrun as <-.
      destruct (editor_del_row_in_range at_ E Hat) as (r & _ & _ & -> & _).
      by eexists.
  - intros -> Hrow. by eapply selection_delete_single_row.
Qed.

Lemma edit_pushes_by_kind_witness :
  ∃ op, undo_stack (editor_insert_row 1 (str "x") 1 (session [str "ab"] 0 0))
        = op :: undo_stack (session [str "ab"] 0 0).
Proof.
  apply (edit_pushes_by_kind (InsertLine 1 (str "x")) (session [str "ab"] 0 0)).
  - reflexivity.
  - unfold logs_one_entry, numrows. simpl. lia.
Defined.

(** C2 as stated fails: deleting the selection of columns 1 and 2 of
    "hello" changes the row to "hlo" and counts as a modification in
    [dirty], and the undo stack is the one before the call, with no new
    entry. *)
Lemma selection_delete_pushes_nothing :
  (λ E', (row E', dirty E', undo_stack E')) <$>
    apply_edit DeleteSelection (selecting_session [str "hello"] 1 0 3 0)
  = Some ([str "hlo"],
          dirty (selecting_session [str "hello"] 1 0 3 0) + 1,
          undo_stack (selecting_session [str "hello"] 1 0 3 0)) ∧
  undo_stack (selecting_session [str "hello"] 1 0 3 0) = [].
Proof. split; vm_compute; reflexivity. Qed.

(** Other edits push two entries: a newline, a character typed past the
    last row, and a delete character at the start of a row. *)
Example newline_pushes_two :
  (length ∘ undo_stack) <$>
    editor_insert_newline (session [str "hello"; str "world"] 5 0) = Some 2%nat ∧
  (length ∘ undo_stack) <$> editor_insert_char "x" (session [] 0 0) = Some 2%nat ∧
  (length ∘ undo_stack) <$>
    editor_del_char (session [str "ab"; str "cd"] 0 1) = Some 2%nat.
Proof. repeat split; vm_compute; reflexivity. Qed.

(** ** A new edit and the redo stack *)

Lemma selection_delete_multi_row (E E' : editor_config) :
  ¬ single_row_selection E →
  selection_delete E = Some E' →
  redo_stack E' = [].
Proof.
  unfold single_row_selection, selection_delete. intros Hrow Hrun.
  destruct (editor_copy_selection E) as [Ec|] eqn:Hcopy; [|done].
  simpl in Hrun.
  destruct (editor_copy_selection_frame _ _ Hcopy) as (_ & _ & _ & _ & Hy).
  destruct (editor_selection_normalize_frame Ec) as (_ & _ & _ & _ & Hy' & Hord).
  set (En := editor_selection_normalize Ec) in *.
  assert (sel_start_y En < sel_end_y En) as Hlt.
  { destruct Hord as [?|[Heq _]]; [done|]. exfalso. by apply Hrow, Hy, Hy'. }
  rewrite decide_False in Hrun by lia.
  destruct (at_index (row En) (sel_start_y En)) as [first|] eqn:Hfirst; [|done].
  simpl in Hrun. case_decide; [|done].
  destruct (at_index _ (sel_end_y _)) as [last|] eqn:Hlast; [|done].
  simpl in Hrun. case_decide; [|done].
  simpl in Hrun. injection Hrun as <-. simpl.
  destruct (Z.to_nat (sel_end_y En - sel_start_y En)) as [|n] eqn:Hn; [lia|].
  simpl. apply del_rows_down_redo_empty.
  match goal with |- redo_stack (editor_del_row ?i ?S) = [] =>
    destruct (editor_del_row_in_range i S) as (r & _ & _ & _ & Hr & _)
  end; [|done].
  apply at_index_bound in Hlast. simpl in Hlast. unfold numrows. simpl.
  rewrite !length_store_at in *. lia.
Qed.

(** X1.  After an insert character, delete character, newline, insert row
    or delete row that modified the buffer, and after deleting a selection
    that spans several rows, the redo stack is empty whatever it held
    before; deleting a selection that lies within one row leaves the redo
    stack as it was. *)
Lemma forward_edit_and_redo (e : edit) (E E' : editor_config) :
  apply_edit e E = Some E' →
  dirty E' ≠ dirty E →
  (¬ (e = DeleteSelection ∧ single_row_selection E) → redo_stack E' = []) ∧
  (e = DeleteSelection → single_row_selection E →
   redo_stack E' = redo_stack E).
Proof.
  intros Hrun Hdirty. split.
  - intros Hkind. destruct e; simpl in Hrun.
    + unfold editor_insert_char in Hrun. by simplify_option_eq.
    + unfold editor_del_char in Hrun.
      repeat case_decide; simplify_option_eq; done.
    + unfold editor_insert_newline in Hrun.
      repeat case_decide; simplify_option_eq; simpl;
        by apply editor_insert_row_redo_empty.
    + injection Hrun as <-.
      destruct (decide (0 ≤ at_ ≤ numrows E)) as [Hat|Hat].
      * by destruct (editor_insert_row_in_range at_ E s (size s) Hat)
          as (_ & _ & -> & _).
      * rewrite editor_insert_row_out_of_range in Hdirty by lia. done.
    + injection Hrun as <-.
      destruct (decide (0 ≤ at_ < numrows E)) as [Hat|Hat].
      * by destruct (editor_del_row_in_range at_ E Hat) as (r & _ & _ & _ & -> & _).
      * rewrite editor_del_row_out_of_range in Hdirty by lia. done.
    + eapply selection_delete_multi_row; [|done]. intros Hrow. by apply Hkind.
  - intros -> Hrow. by eapply selection_delete_single_row.
Qed.

Lemma forward_edit_and_redo_witness :
  (¬ (InsertChar "x" = DeleteSelection ∧
      single_row_selection
        (set_redo_stack [Operation OP_INSERT_CHAR 2 0 "!" None 0]
           (session [str "ab"] 1 0))) →
   redo_stack
     (default (session [] 0 0)
        (apply_edit (InsertChar "x")
           (set_redo_stack [Operation OP_INSERT_CHAR 2 0 "!" None 0]
              (session [str "ab"] 1 0)))) = []) ∧
  (InsertChar "x" = DeleteSelection →
   single_row_selection
     (set_redo_stack [Operation OP_INSERT_CHAR 2 0 "!" None 0]
        (session [str "ab"] 1 0)) →
   redo_stack
     (default (session [] 0 0)
        (apply_edit (InsertChar "x")
           (set_redo_stack [Operation OP_INSERT_CHAR 2 0 "!" None 0]
              (session [str "ab"] 1 0))))
   = redo_stack
       (set_redo_stack [Operation OP_INSERT_CHAR 2 0 "!" None 0]
          (session [str "ab"] 1 0))).
Proof.
  apply (forward_edit_and_redo (InsertChar "x")
           (set_redo_stack [Operation OP_INSERT_CHAR 2 0 "!" None 0]
              (session [str "ab"] 1 0))).
  - vm_compute. reflexivity.
  - vm_compute. discriminate.
Defined.

(** C5, at the input where the code departs from it.  With an undone "!"
    waiting on the redo stack, deleting the selection of columns 1 and 2
    of "hello" changes the row to "hlo", counts as a modification in
    [dirty], and leaves the redo stack with its entry: the single-row
    branch of the deletion never reaches [free_operations_stack], which
    the multi-row branch and every other edit do. *)
Theorem selection_delete_keeps_redo :
  (λ E', (row E', dirty E', redo_stack E')) <$>
    apply_edit DeleteSelection
      (set_redo_stack [Operation OP_INSERT_CHAR 5 0 "!" None 0]
         (selecting_session [str "hello"] 1 0 3 0))
  = Some ([str "hlo"], 1, [Operation OP_INSERT_CHAR 5 0 "!" None 0]).
Proof. vm_compute. reflexivity. Qed.

(** The redo stack of that input is what typing "!" at the end of "hello"
    and undoing it leaves. *)
Example undone_char_on_redo :
  (λ E', (row E', redo_stack E')) <$>
    (E1 ← editor_insert_char "!" (session [str "hello"] 5 0); editor_undo E1)
  = Some ([str "hello"], [Operation OP_INSERT_CHAR 5 0 "!" None 0]).
Proof. vm_compute. reflexivity. Qed.

(** ** Delete character *)

(** Delete-char at the very start of the buffer changes nothing. *)
Lemma editor_del_char_origin (E : editor_config) :
  cx E = 0 → cy E = 0 → editor_del_char E = Some E.
Proof.
  intros Hx Hy. unfold editor_del_char.
  destruct (decide (cy E = numrows E)); [done|].
  by rewrite decide_True.
Qed.

(** C6, at the input where the code departs from it.  Delete-char at
    column 0 of row 1 of the buffer "ab", "cd" does not merge row 1 into
    row 0: it inserts a copy of row 1 before row 0 and then deletes the old
    row 0, which leaves "cd", "cd", two rows, and the cursor at column 2 of
    row 0. *)
Theorem editor_del_char_row_start_overwrites :
  ∃ E', editor_del_char (session [str "ab"; str "cd"] 0 1) = Some E' ∧
        row E' = [str "cd"; str "cd"] ∧
        row E' ≠ [str "abcd"] ∧
        numrows E' = numrows (session [str "ab"; str "cd"] 0 1) ∧
        cx E' = 2 ∧ cy E' = 0.
Proof. eexists. split; [reflexivity|]. repeat split; by vm_compute. Qed.

(** ** Undo *)

(** Undo on an empty stack only reports it. *)
Lemma editor_undo_empty (E : editor_config) :
  undo_stack E = [] → editor_undo E = Some (set_statusmsg "Nothing to undo" E).
Proof. intros Hst. unfold editor_undo. by rewrite Hst. Qed.

(** Undoing a character operation works on the row directly: the entry is
    popped, nothing is pushed onto the undo stack, and the entry is pushed
    onto the redo stack, whose earlier entries stay. *)
Lemma editor_undo_char_direct (E E' : editor_config) (op : operation)
    (next : list operation) :
  op_type op = OP_INSERT_CHAR ∨ op_type op = OP_DELETE_CHAR →
  undo_stack E = op :: next →
  editor_undo E = Some E' →
  undo_stack E' = next ∧
  redo_stack E' =
    push_operation (redo_stack E) (op_type op) (op_cx op) (op_cy op) (op_c op)
      (op_line op) (op_line_size op).
Proof.
  intros Hty Hst. unfold editor_undo. rewrite Hst. unfold undo_switch.
  destruct op as [ty x y c l n]; simpl in *.
  destruct Hty as [-> | ->]; simpl;
    repeat case_decide; simpl;
    try destruct (at_index _ _); simpl;
    repeat case_decide; simpl; intros [= <-]; done.
Qed.

(** C3, at the input where the code departs from it.  After typing "x" into
    the empty buffer and undoing it, the undo stack holds the INSERT_LINE
    entry of the row that the insertion created, and the redo stack the
    INSERT_CHAR entry.  The next undo goes through [editor_del_row]: it
    pushes a DELETE_LINE entry onto the undo stack and empties the redo
    stack, so that the INSERT_CHAR entry is lost, before the popped entry
    is pushed onto the redo stack. *)
Theorem editor_undo_line_goes_through_edit_engine :
  (λ E, (row E, undo_stack E, redo_stack E)) <$>
    (E1 ← editor_insert_char "x" (session [] 0 0); editor_undo E1)
  = Some ([[]],
          [Operation OP_INSERT_LINE 0 0 NUL None 0],
          [Operation OP_INSERT_CHAR 0 0 "x" None 0]) ∧
  (λ E, (row E, undo_stack E, redo_stack E)) <$>
    (E1 ← editor_insert_char "x" (session [] 0 0);
     E2 ← editor_undo E1; editor_undo E2)
  = Some ([],
          [Operation OP_DELETE_LINE 0 0 NUL None 0],
          [Operation OP_INSERT_LINE 0 0 NUL None 0]).
Proof. split; vm_compute; reflexivity. Qed.

(** ** Round trip of edits inside a row *)

Lemma size_insert_at (r : erow) (i : Z) (c : ascii) :
  size (insert_at i c r) = size r + 1.
Proof. unfold size. rewrite length_insert_at. lia. Qed.

Lemma size_delete_at (r : erow) (i : Z) (c : ascii) :
  at_index r i = Some c → size (delete_at i r) = size r - 1.
Proof.
  intros Hc. pose proof (at_index_bound _ _ _ Hc) as Hi.
  unfold size, delete_at. rewrite length_app, length_take, length_drop. lia.
Qed.

Lemma undo_n_succ (n : nat) (E : editor_config) :
  undo_n (S n) E = undo_n n E ≫= editor_undo.
Proof.
  revert E. induction n as [|n IH]; intros E.
  - simpl. by destruct (editor_undo E).
  - change (undo_n (S (S n)) E) with (editor_undo E ≫= undo_n (S n)).
    change (undo_n (S n) E) with (editor_undo E ≫= undo_n n).
    destruct (editor_undo E) as [E1|]; simpl; [apply IH|done].
Qed.

Section one_edit.
Variables (E E1 : editor_config).

Lemma editor_insert_char_in_row (c : ascii) :
  cy E < numrows E →
  editor_insert_char c E = Some E1 →
  ∃ r, at_index (row E) (cy E) = Some r ∧
       0 ≤ cx E ≤ size r ∧
       row E1 = store_at (cy E) (insert_at (cx E) c r) (row E) ∧
       undo_stack E1
       = Operation OP_INSERT_CHAR (cx E) (cy E) c None 0 :: undo_stack E.
Proof.
  intros Hcy. unfold editor_insert_char.
  rewrite decide_False by lia. intros Hrun.
  destruct (at_index (row E) (cy E)) as [r|] eqn:Hr; [|done].
  simpl in Hrun. case_decide; [|done]. injection Hrun as <-.
  by exists r.
Qed.

Lemma editor_del_char_in_row :
  cx E > 0 → cy E ≠ numrows E →
  editor_del_char E = Some E1 →
  ∃ r c, at_index (row E) (cy E) = Some r ∧
         at_index r (cx E - 1) = Some c ∧
         row E1 = store_at (cy E) (delete_at (cx E - 1) r) (row E) ∧
         undo_stack E1
         = Operation OP_DELETE_CHAR (cx E - 1) (cy E) c None 0 :: undo_stack E.
Proof.
  intros Hcx Hcy. unfold editor_del_char.
  rewrite decide_False by done. rewrite decide_False by lia.
  rewrite decide_True by done. intros Hrun.
  destruct (at_index (row E) (cy E)) as [r|] eqn:Hr; [|done].
  simpl in Hrun.
  destruct (at_index r (cx E - 1)) as [c|] eqn:Hc; [|done].
  injection Hrun as <-. by exists r, c.
Qed.
End one_edit.

Section one_undo.
Variables (E : editor_config) (x y : Z) (c : ascii) (r : erow)
          (next : list operation).

Lemma editor_undo_insert_char :
  undo_stack E = Operation OP_INSERT_CHAR x y c None 0 :: next →
  at_index (row E) y = Some (insert_at x c r) →
  0 ≤ x ≤ size r →
  ∃ E', editor_undo E = Some E' ∧
        row E' = store_at y r (row E) ∧ undo_stack E' = next ∧
        cx E' = x ∧ cy E' = y ∧
        redo_stack E' = Operation OP_INSERT_CHAR x y c None 0 :: redo_stack E.
Proof.
  intros Hst Hrow Hx. pose proof (at_index_bound _ _ _ Hrow) as Hy.
  unfold editor_undo. rewrite Hst. unfold undo_switch. simpl.
  rewrite decide_True by (unfold numrows; simpl; lia). rewrite Hrow. simpl.
  rewrite decide_True by (rewrite size_insert_at; lia).
  rewrite decide_True by lia. simpl. eexists. split; [done|]. simpl.
  rewrite delete_insert_at by (unfold size in Hx; lia). done.
Qed.

Lemma editor_undo_delete_char :
  undo_stack E = Operation OP_DELETE_CHAR x y c None 0 :: next →
  at_index (row E) y = Some (delete_at x r) →
  at_index r x = Some c →
  ∃ E', editor_undo E = Some E' ∧
        row E' = store_at y r (row E) ∧ undo_stack E' = next ∧
        cx E' = x ∧ cy E' = y ∧
        redo_stack E' = Operation OP_DELETE_CHAR x y c None 0 :: redo_stack E.
Proof.
  intros Hst Hrow Hc. pose proof (at_index_bound _ _ _ Hrow) as Hy.
  pose proof (at_index_bound _ _ _ Hc) as Hx.
  unfold editor_undo. rewrite Hst. unfold undo_switch. simpl.
  rewrite decide_True by (unfold numrows; simpl; lia). rewrite Hrow. simpl.
  rewrite decide_True
    by (rewrite (size_delete_at _ _ _ Hc); unfold size; lia).
  simpl. eexists. split; [done|]. simpl.
  by rewrite insert_delete_at.
Qed.
End one_undo.

(** Undoing one edit inside a row, from any state that has the rows and
    the undo stack the edit left. *)
Lemma undo_in_row_edit (e : edit) (E E1 E2 : editor_config) :
  in_row_edit e E →
  apply_edit e E = Some E1 →
  row E2 = row E1 →
  undo_stack E2 = undo_stack E1 →
  ∃ E3, editor_undo E2 = Some E3 ∧
        row E3 = row E ∧ undo_stack E3 = undo_stack E ∧
        (cx E3, cy E3) = recorded_cursor e E.
Proof.
  intros Hin Hrun Hrow Hst. destruct e; simpl in Hin; try done; simpl in Hrun.
  - destruct (editor_insert_char_in_row E E1 c Hin Hrun)
      as (r & Hr & Hcx & Hrow1 & Hst1).
    destruct (editor_undo_insert_char E2 (cx E) (cy E) c r (undo_stack E))
      as (E3 & Hundo & Hrow3 & Hst3 & Hx & Hy & _); [congruence| |done|].
    { rewrite Hrow, Hrow1. by eapply at_index_store_at. }
    exists E3. split; [done|]. rewrite Hrow3, Hrow, Hrow1, store_at_twice.
    rewrite (store_at_same _ _ _ Hr). simpl. by rewrite Hx, Hy.
  - destruct Hin as [Hcx Hcy].
    destruct (editor_del_char_in_row E E1 Hcx Hcy Hrun)
      as (r & c & Hr & Hc & Hrow1 & Hst1).
    destruct (editor_undo_delete_char E2 (cx E - 1) (cy E) c r (undo_stack E))
      as (E3 & Hundo & Hrow3 & Hst3 & Hx & Hy & _); [congruence| |done|].
    { rewrite Hrow, Hrow1. by eapply at_index_store_at. }
    exists E3. split; [done|]. rewrite Hrow3, Hrow, Hrow1, store_at_twice.
    rewrite (store_at_same _ _ _ Hr). simpl. by rewrite Hx, Hy.
Qed.

(** Edits inside a row are undone one by one: the rows and the undo stack
    are restored, and the cursor ends at the position recorded by the
    first edit. *)
Lemma in_row_edits_undone (es : list edit) (E E' : editor_config) :
  in_row_edits es E →
  run_edits es E = Some E' →
  ∃ E'', undo_n (length es) E' = Some E'' ∧
         row E'' = row E ∧
         undo_stack E'' = undo_stack E ∧
         (cx E'', cy E'') =
           match es with
           | [] => (cx E, cy E)
           | e :: _ => recorded_cursor e E
           end.
Proof.
  revert E. induction es as [|e es IH]; intros E Hin Hrun.
  - injection Hrun as <-. by exists E.
  - destruct Hin as [Hin Hrest]. simpl in Hrun.
    destruct (apply_edit e E) as [E1|] eqn:Hedit; [|done]. simpl in Hrun.
    destruct (IH E1 Hrest Hrun) as (E2 & Hundo & Hrow & Hst & _).
    destruct (undo_in_row_edit e E E1 E2 Hin Hedit Hrow Hst)
      as (E3 & Hundo3 & Hrow3 & Hst3 & Hcur).
    exists E3. split; [|done].
    change (length (e :: es)) with (S (length es)).
    rewrite undo_n_succ, Hundo. done.
Qed.

(** ** Undo and redo of one newline *)

(** What a newline does to the rows and the cursor. *)
Lemma editor_insert_newline_rows (E E' : editor_config) :
  editor_insert_newline E = Some E' →
  cx E' = 0 ∧
  (numrows E = 0 → cy E' = 0 ∧ row E' = [[]]) ∧
  (numrows E ≠ 0 →
   ∃ r, at_index (row E) (cy E) = Some r ∧ 0 ≤ cx E ≤ size r ∧
        cy E' = cy E + 1 ∧
        row E' =
          (if decide (cx E = 0) then insert_at (cy E) [] (row E)
           else store_at (cy E) (take (Z.to_nat (cx E)) r)
                  (insert_at (cy E + 1) (drop (Z.to_nat (cx E)) r) (row E))) ∧
        ∃ next,
          undo_stack E' =
            Operation OP_NEWLINE (cx E) (cy E) "010"
              (if decide (cx E < size r)
               then Some (drop (Z.to_nat (cx E)) r) else None)
              (if decide (cx E < size r) then size r - cx E else 0)
            :: next).
Proof.
  unfold editor_insert_newline. fields.
  change (numrows (set_redo_stack [] E)) with (numrows E).
  destruct (decide (numrows E = 0)) as [Hempty|Hrows].
  - intros [= <-]. split; [done|]. split; [|done]. intros _. fields.
    split; [done|]. unfold editor_insert_row.
    rewrite decide_False by (change (numrows (set_redo_stack [] E)) with (numrows E); lia).
    fields. unfold numrows in Hempty.
    destruct (row E); [done|]. simpl in Hempty. lia.
  - destruct (at_index (row E) (cy E)) as [r|] eqn:Hr; [|done].
    pose proof (at_index_bound _ _ _ Hr) as Hb.
    cbn [mbind option_bind]. case_decide as Hcx; [|done].
    intros [= <-]. split; [done|]. split; [done|]. intros _.
    exists r. split; [done|]. split; [done|].
    assert (bytes (drop (Z.to_nat (cx E)) r) (size r - cx E)
            = drop (Z.to_nat (cx E)) r) as Htail.
    { unfold bytes. apply take_ge. rewrite length_drop. unfold size. lia. }
    assert (∀ st : list operation,
              push_operation st OP_NEWLINE (cx E) (cy E) "010"
                (if decide (cx E < size r)
                 then Some (drop (Z.to_nat (cx E)) r) else None)
                (if decide (cx E < size r) then size r - cx E else 0)
              = Operation OP_NEWLINE (cx E) (cy E) "010"
                  (if decide (cx E < size r)
                   then Some (drop (Z.to_nat (cx E)) r) else None)
                  (if decide (cx E < size r) then size r - cx E else 0)
                :: st) as Hpush.
    { intros st. unfold push_operation. case_decide; [|done].
      rewrite decide_True by lia. by rewrite Htail. }
    destruct (decide (cx E = 0)) as [Hz|Hnz]; unfold editor_insert_row;
      rewrite decide_False
        by (change (numrows (set_redo_stack [] E)) with (numrows E);
            unfold numrows; lia);
      fields.
    + split; [done|]. split; [done|]. rewrite Hpush. by eexists.
    + split; [done|]. rewrite Htail. split; [done|].
      rewrite Hpush. by eexists.
Qed.

Lemma c_str_no_nul (l : list ascii) : NUL ∉ l → c_str l = l.
Proof.
  induction l as [|c l IH]; [done|]. intros Hnul. simpl.
  apply not_elem_of_cons in Hnul as [Hc Hl].
  rewrite decide_False by done. by rewrite IH.
Qed.

(** The two rows a newline at column [x] of row [y] leaves, and their
    merge. *)
Lemma newline_rows_merge (rows : list erow) (x y : Z) (r : erow) :
  at_index rows y = Some r → 0 ≤ x ≤ size r →
  let rows1 :=
    if decide (x = 0) then insert_at y [] rows
    else store_at y (take (Z.to_nat x) r)
           (insert_at (y + 1) (drop (Z.to_nat x) r) rows) in
  ∃ prev,
    at_index rows1 y = Some prev ∧
    at_index rows1 (y + 1) = Some (drop (Z.to_nat x) r) ∧
    prev ++ drop (Z.to_nat x) r = r ∧
    delete_at (y + 1) (store_at y r rows1) = rows.
Proof.
  intros Hr Hx. pose proof (at_index_bound _ _ _ Hr) as Hy.
  destruct (decide (x = 0)) as [->|Hnz]; simpl.
  - exists []. split; [apply at_index_insert_at; lia|].
    split; [by apply at_index_insert_at_succ|]. split; [done|].
    rewrite store_at_insert_at by lia. by apply delete_at_succ_insert_at.
  - assert (at_index (insert_at (y + 1) (drop (Z.to_nat x) r) rows) y = Some r)
      as Hr' by (rewrite at_index_insert_at_lt by lia; done).
    exists (take (Z.to_nat x) r).
    split; [by eapply at_index_store_at|].
    split; [rewrite at_index_store_at_ne by lia; apply at_index_insert_at; lia|].
    split; [apply take_drop|].
    rewrite store_at_twice, (store_at_same _ _ _ Hr').
    apply delete_insert_at. lia.
Qed.

(** One undo after a newline in a buffer with rows, from any state that
    has the rows, the undo stack and the cursor row the newline left,
    restores the rows and the cursor, and leaves the entry on the redo
    stack with the tail of the row cut at its first NUL. *)
Lemma editor_undo_newline (E E1 E2 : editor_config) :
  numrows E ≠ 0 →
  editor_insert_newline E = Some E1 →
  row E2 = row E1 → undo_stack E2 = undo_stack E1 → cy E2 = cy E1 →
  ∃ E3 r,
    editor_undo E2 = Some E3 ∧
    row E3 = row E ∧ cx E3 = cx E ∧ cy E3 = cy E ∧
    at_index (row E) (cy E) = Some r ∧ 0 ≤ cx E ≤ size r ∧
    redo_stack E3 =
      [Operation OP_NEWLINE (cx E) (cy E) "010"
         (if decide (size (c_str (drop (Z.to_nat (cx E)) r)) > 0)
          then Some (c_str (drop (Z.to_nat (cx E)) r)) else None)
         (size (c_str (drop (Z.to_nat (cx E)) r)))].
Proof.
  intros Hrows Hrun Hrow2 Hst2 Hcy2.
  destruct (editor_insert_newline_rows E E1 Hrun) as (Hx & _ & Hsplit).
  destruct (Hsplit Hrows) as (r & Hr & Hcx & Hy & Hrow & next & Hst).
  destruct (newline_rows_merge (row E) (cx E) (cy E) r Hr Hcx)
    as (prev & Hprev & Hcurr & Hmerge & Hdel).
  cbv zeta in Hprev, Hcurr, Hdel. rewrite <- Hrow in Hprev, Hcurr, Hdel.
  rewrite <- Hrow2 in Hprev, Hcurr, Hdel. rewrite <- Hcy2 in Hy.
  rewrite <- Hst2 in Hst. clear Hrow2 Hst2 Hcy2 Hrow Hx Hsplit Hrun.
  pose proof (at_index_bound _ _ _ Hcurr) as Hb.
  pose proof (at_index_bound _ _ _ Hr) as Hb0.
  set (tail := drop (Z.to_nat (cx E)) r) in *.
  unfold editor_undo. rewrite Hst. unfold undo_switch.
  cbn [op_type op_cx op_cy op_c op_line op_line_size]. fields.
  rewrite decide_True by lia.
  replace (cy E2 - 1) with (cy E) by lia. rewrite Hprev.
  cbn [mbind option_bind]. rewrite Hy, Hcurr. cbn [mbind option_bind].
  rewrite Hmerge.
  match goal with |- context [editor_del_row ?i ?S] =>
    destruct (editor_del_row_in_range i S) as (r' & _ & Hrow' & _ & Hredo & _);
      [unfold numrows; fields; rewrite length_store_at; lia|];
    destruct (editor_del_row_cursor i S) as [_ Hcy'];
    set (Ed := editor_del_row i S) in *
  end.
  fields. exists (set_redo_stack
    (push_operation (redo_stack Ed) OP_NEWLINE (cx E) (cy E) "010"
       (c_str <$> (if decide (cx E < size r) then Some tail else None))
       match c_str <$> (if decide (cx E < size r) then Some tail else None) with
       | Some l => size l
       | None => 0
       end)
    (set_dirty (dirty Ed + 1) (set_cx (cx E) (set_cy (cy Ed - 1) Ed)))), r.
  split; [done|]. fields. rewrite Hrow', Hcy', Hredo.
  split; [done|]. split; [done|]. split; [lia|]. split; [done|].
  split; [done|]. unfold push_operation. subst tail. f_equal.
  destruct (decide (cx E < size r)) as [Hlt|Hge]; simpl.
  - unfold bytes. rewrite take_ge by (unfold size; lia). done.
  - rewrite drop_ge by (unfold size in *; lia). done.
Qed.

(** A newline looks at the rows and the cursor only. *)
Lemma editor_insert_newline_same_rows (E E' E1 : editor_config) :
  row E' = row E → cx E' = cx E → cy E' = cy E →
  editor_insert_newline E = Some E1 →
  ∃ E1', editor_insert_newline E' = Some E1' ∧
         row E1' = row E1 ∧ cx E1' = cx E1 ∧ cy E1' = cy E1.
Proof.
  intros Hrow Hx Hy Hrun.
  assert (numrows E' = numrows E) as Hn by (unfold numrows; by rewrite Hrow).
  destruct (editor_insert_newline_rows E E1 Hrun) as (Hx1 & Hempty & Hsplit).
  assert (∃ E1', editor_insert_newline E' = Some E1') as [E1' Hrun'].
  { unfold editor_insert_newline. fields.
    change (numrows (set_redo_stack [] E')) with (numrows E').
    destruct (decide (numrows E' = 0)); [by eexists|].
    destruct Hsplit as (r & Hr & Hcx & _); [lia|].
    rewrite Hrow, Hy, Hr. cbn [mbind option_bind].
    rewrite Hx, decide_True by done. by eexists. }
  exists E1'. split; [done|].
  destruct (editor_insert_newline_rows E' E1' Hrun') as (Hx1' & Hempty' & Hsplit').
  destruct (decide (numrows E = 0)) as [Hz|Hnz].
  - destruct (Hempty Hz) as [-> ->].
    destruct Hempty' as [-> ->]; [lia|]. by rewrite Hx1, Hx1'.
  - destruct (Hsplit Hnz) as (r & Hr & _ & -> & -> & _).
    destruct Hsplit' as (r' & Hr' & _ & -> & -> & _); [lia|].
    rewrite Hrow, Hy in Hr'. assert (r' = r) as -> by congruence.
    by rewrite Hx1, Hx1', Hrow, Hx, Hy.
Qed.

(** Redo of a newline whose entry holds the tail of the split row, or no
    line at all: the rows are those after the newline, and the cursor
    stays where it was before the redo. *)
Lemma editor_redo_newline (E E1 E2 : editor_config) (r : erow) :
  numrows E ≠ 0 →
  editor_insert_newline E = Some E1 →
  at_index (row E) (cy E) = Some r →
  NUL ∉ drop (Z.to_nat (cx E)) r →
  row E2 = row E →
  cy E2 < numrows E2 →
  redo_stack E2 =
    [Operation OP_NEWLINE (cx E) (cy E) "010"
       (if decide (size (c_str (drop (Z.to_nat (cx E)) r)) > 0)
        then Some (c_str (drop (Z.to_nat (cx E)) r)) else None)
       (size (c_str (drop (Z.to_nat (cx E)) r)))] →
  ∃ E3, editor_redo E2 = Some E3 ∧
        row E3 = row E1 ∧ cx E3 = cx E2 ∧ cy E3 = cy E2.
Proof.
  intros Hrows Hrun Hr Hnul Hrow Hcy Hst.
  rewrite (c_str_no_nul _ Hnul) in Hst.
  set (tail := drop (Z.to_nat (cx E)) r) in *.
  destruct (editor_insert_newline_same_rows E
              (set_cy (cy E) (set_cx (cx E) (set_redo_stack [] E2))) E1)
    as (En & Hrun' & Hrown & Hxn & Hyn); [done..|].
  destruct (editor_insert_newline_rows E E1 Hrun) as (_ & _ & Hsplit).
  destruct (Hsplit Hrows) as (r' & Hr' & Hcx & Hy1 & Hrow1 & _).
  assert (r' = r) as -> by congruence.
  destruct (newline_rows_merge (row E) (cx E) (cy E) r Hr Hcx)
    as (prev & _ & Hcurr & _).
  cbv zeta in Hcurr. rewrite <- Hrow1, <- Hrown, <- Hy1, <- Hyn in Hcurr.
  fold tail in Hcurr.
  unfold editor_redo. rewrite Hst. unfold redo_switch.
  cbn [op_type op_cx op_cy op_c op_line op_line_size]. fields.
  change (numrows (set_redo_stack [] E2)) with (numrows E2).
  rewrite (decide_True (P := cy E2 < numrows E2)) by done.
  rewrite Hrun'. cbn [mbind option_bind].
  destruct (decide (size tail > 0)) as [Hpos|Hzero].
  - rewrite Hcurr. cbn [mbind option_bind].
    unfold op_bytes. cbn [op_line op_line_size].
    rewrite decide_True by lia. cbn [mbind option_bind].
    eexists. split; [done|]. fields.
    unfold bytes. rewrite take_ge by (unfold size; lia).
    by rewrite (store_at_same _ _ _ Hcurr).
  - eexists. split; [done|]. by fields.
Qed.

(** In a buffer with rows and no NUL after the cursor on its row, undo
    and redo after a newline bring back the rows that the newline left. *)
Lemma newline_undo_redo (E E1 : editor_config) :
  numrows E ≠ 0 →
  editor_insert_newline E = Some E1 →
  (∀ r, at_index (row E) (cy E) = Some r → NUL ∉ drop (Z.to_nat (cx E)) r) →
  ∃ E2 E3,
    editor_undo E1 = Some E2 ∧
    row E2 = row E ∧ cx E2 = cx E ∧ cy E2 = cy E ∧
    editor_redo E2 = Some E3 ∧
    row E3 = row E1.
Proof.
  intros Hrows Hrun Hnul.
  destruct (editor_undo_newline E E1 E1 Hrows Hrun)
    as (E2 & r & Hundo & Hrow & Hx & Hy & Hr & Hcx & Hst); [done..|].
  destruct (editor_redo_newline E E1 E2 r) as (E3 & Hredo & Hrow3 & _);
    try done.
  - by apply Hnul.
  - pose proof (at_index_bound _ _ _ Hr). unfold numrows. rewrite Hrow, Hy. lia.
  - by exists E2, E3.
Qed.

(** ** Round trip of a sequence of edits *)

(** One undo after a row was inserted, from any state that has the rows
    and the undo stack the insertion left. *)
Lemma editor_undo_insert_line (at_ : Z) (s : list ascii)
    (E E2 : editor_config) :
  0 ≤ at_ ≤ numrows E →
  row E2 = row (editor_insert_row at_ s (size s) E) →
  undo_stack E2 = undo_stack (editor_insert_row at_ s (size s) E) →
  ∃ E3, editor_undo E2 = Some E3 ∧
        row E3 = row E ∧ cx E3 = 0 ∧ cy E3 = at_ ∧
        redo_stack E3 =
          [Operation OP_INSERT_LINE 0 at_ NUL
             (if decide (size s > 0) then Some s else None) (size s)].
Proof.
  intros Hat Hrow Hst.
  destruct (editor_insert_row_in_range at_ E s (size s) Hat)
    as (Hrow1 & Hst1 & _).
  rewrite Hrow1 in Hrow. rewrite Hst1 in Hst.
  unfold editor_undo. rewrite Hst. unfold push_operation, undo_switch.
  cbn [op_type op_cx op_cy op_c op_line op_line_size mbind option_bind].
  match goal with |- context [editor_del_row ?i ?S] =>
    destruct (editor_del_row_in_range i S) as (r' & _ & Hrow' & _ & Hredo & _);
      [unfold numrows in *; fields; rewrite Hrow, length_insert_at; lia|]
  end.
  assert (bytes s (size s) = s) as Hbytes.
  { unfold bytes. apply take_ge. unfold size. lia. }
  eexists. split; [done|]. fields. rewrite Hrow', Hredo. fields. rewrite Hrow.
  split; [apply delete_insert_at; unfold numrows in Hat; lia|].
  split; [done|]. split; [done|]. unfold push_operation. f_equal. f_equal.
  case_decide; [|done]. by rewrite !Hbytes.
Qed.

(** One undo after a row was deleted, likewise. *)
Lemma editor_undo_delete_line (at_ : Z) (E E2 : editor_config) :
  0 ≤ at_ < numrows E →
  row E2 = row (editor_del_row at_ E) →
  undo_stack E2 = undo_stack (editor_del_row at_ E) →
  ∃ E3 r, editor_undo E2 = Some E3 ∧
        row E3 = row E ∧ cx E3 = 0 ∧ cy E3 = at_ ∧
        at_index (row E) at_ = Some r ∧
        redo_stack E3 =
          [Operation OP_DELETE_LINE 0 at_ NUL
             (if decide (size r > 0) then Some r else None) (size r)].
Proof.
  intros Hat Hrow Hst.
  destruct (editor_del_row_in_range at_ E Hat) as (r & Hr & Hrow1 & Hst1 & _).
  rewrite Hrow1 in Hrow. rewrite Hst1 in Hst.
  assert (length (delete_at at_ (row E)) = (length (row E) - 1)%nat) as Hlen.
  { unfold delete_at, numrows in *.
    rewrite length_app, length_take, length_drop. lia. }
  assert (bytes r (size r) = r) as Hbytes.
  { unfold bytes. apply take_ge. unfold size. lia. }
  unfold editor_undo. rewrite Hst. unfold push_operation, undo_switch.
  cbn [op_type op_cx op_cy op_c op_line op_line_size]. unfold op_bytes.
  cbn [op_type op_cx op_cy op_c op_line op_line_size]. rewrite Hbytes.
  assert (∀ s : list ascii, bytes s (size r) = r →
            row (editor_insert_row at_ s (size r)
                   (set_undo_stack (undo_stack E) E2)) = row E ∧
            redo_stack (editor_insert_row at_ s (size r)
                   (set_undo_stack (undo_stack E) E2)) = []) as Hins.
  { intros s Hs.
    match goal with |- context [editor_insert_row ?i ?s ?n ?S] =>
      destruct (editor_insert_row_in_range i S s n) as (Hrow' & _ & Hredo & _);
        [unfold numrows in *; fields; rewrite Hrow, Hlen; lia|]
    end.
    rewrite Hrow', Hredo. fields. rewrite Hrow, Hs.
    split; [by apply insert_delete_at|done]. }
  destruct (decide (size r > 0)) as [Hpos|Hzero].
  - rewrite decide_True by lia. cbn [mbind option_bind].
    destruct (Hins r Hbytes) as [Hrow3 Hredo3].
    eexists _, r. split; [done|]. fields. rewrite Hrow3, Hredo3.
    repeat (split; [done|]). unfold push_operation.
    cbn [op_type op_cx op_cy op_c op_line op_line_size].
    by rewrite Hbytes.
  - rewrite decide_True by (unfold size in *; lia). cbn [mbind option_bind].
    destruct (Hins []) as [Hrow3 Hredo3].
    { destruct r; [done|]. unfold size in Hzero. simpl in Hzero. lia. }
    eexists _, r. split; [done|]. fields. rewrite Hrow3, Hredo3.
    repeat (split; [done|]). unfold push_operation.
    cbn [op_type op_cx op_cy op_c op_line op_line_size].
    by rewrite (decide_False (P := size r > 0)) by done.
Qed.

(** Undoing the first edit of a sequence, from any state that has the
    rows, the undo stack and the cursor row it left. *)
Lemma undo_first_edit (e : edit) (E E1 E2 : editor_config) :
  undone_by_one e E →
  apply_edit e E = Some E1 →
  row E2 = row E1 → undo_stack E2 = undo_stack E1 → cy E2 = cy E1 →
  ∃ E3, editor_undo E2 = Some E3 ∧
        row E3 = row E ∧
        (cx E3, cy E3) = recorded_cursor e E.
Proof.
  intros Hok Hrun Hrow Hst Hcy. destruct e; simpl in Hok; try done.
  - destruct (undo_in_row_edit (InsertChar c) E E1 E2)
      as (E3 & ? & ? & _ & ?); try done. by exists E3.
  - destruct (undo_in_row_edit DeleteChar E E1 E2)
      as (E3 & ? & ? & _ & ?); try done. by exists E3.
  - destruct (editor_undo_newline E E1 E2)
      as (E3 & r & ? & ? & Hx & Hy & _); try done.
    exists E3. simpl. by rewrite Hx, Hy.
  - simpl in Hrun. injection Hrun as <-.
    destruct (editor_undo_insert_line at_ s E E2)
      as (E3 & ? & ? & Hx & Hy & _); try done.
    exists E3. simpl. by rewrite Hx, Hy.
  - simpl in Hrun. injection Hrun as <-.
    destruct (editor_undo_delete_line at_ E E2)
      as (E3 & r & ? & ? & Hx & Hy & _); try done.
    exists E3. simpl. by rewrite Hx, Hy.
Qed.

(** C1, as the code has it.  For every finite sequence of edit operations
    whose first is an InsertChar or DeleteChar inside an existing row, a
    Newline in a buffer that has rows, or an InsertLine or DeleteLine at
    an index of the buffer, and whose later ones are InsertChar or
    DeleteChar inside an existing row, applied to any starting buffer,
    calling undo once per operation restores the exact prior line
    contents.  The cursor ends where the record of the first operation
    puts it: at its prior position for an InsertChar or a Newline, one
    column left of it, on the restored character, for a DeleteChar, and
    at column 0 of the affected row for an InsertLine or DeleteLine. *)
Theorem edits_round_trip (es : list edit) (E E' : editor_config) :
  round_trip_edits es E →
  run_edits es E = Some E' →
  ∃ E'', undo_n (length es) E' = Some E'' ∧
         row E'' = row E ∧
         (cx E'', cy E'') =
           match es with
           | [] => (cx E, cy E)
           | e :: _ => recorded_cursor e E
           end.
Proof.
  destruct es as [|e es]; intros Hok Hrun.
  - injection Hrun as <-. by exists E.
  - destruct Hok as [Hfirst Hrest]. simpl in Hrun.
    destruct (apply_edit e E) as [E1|] eqn:Hedit; [|done]. simpl in Hrun.
    destruct (in_row_edits_undone es E1 E' Hrest Hrun)
      as (E2 & Hundo & Hrow & Hst & Hcur).
    assert (cy E2 = cy E1) as Hcy.
    { destruct es as [|e' es']; [congruence|]. destruct Hrest as [Hin _].
      destruct e'; simpl in Hin; try done; simpl in Hcur; congruence. }
    destruct (undo_first_edit e E E1 E2 Hfirst Hedit Hrow Hst Hcy)
      as (E3 & Hundo3 & Hrow3 & Hcur3).
    exists E3. split; [|done].
    change (length (e :: es)) with (S (length es)).
    rewrite undo_n_succ, Hundo. done.
Qed.

Lemma edits_round_trip_witness :
  ∃ E'',
    undo_n 4
      (default (session [str "ab"] 1 0)
         (run_edits [Newline; InsertChar "x"; InsertChar "y"; DeleteChar]
            (session [str "ab"] 1 0)))
    = Some E'' ∧
    row E'' = row (session [str "ab"] 1 0) ∧
    (cx E'', cy E'') = (cx (session [str "ab"] 1 0), cy (session [str "ab"] 1 0)).
Proof.
  apply (edits_round_trip
           [Newline; InsertChar "x"; InsertChar "y"; DeleteChar]
           (session [str "ab"] 1 0)).
  - vm_compute. repeat split; (reflexivity || discriminate).
  - vm_compute. reflexivity.
Defined.

(** C1 as stated fails: deleting the character left of the cursor at
    column 1 of "ab" and undoing it restores the row, with the cursor at
    column 0 where it was at column 1. *)
Lemma undo_delete_char_moves_cursor :
  (λ E', (row E', cx E', cy E')) <$>
    (E1 ← run_edits [DeleteChar] (session [str "ab"] 1 0); undo_n 1 E1)
  = Some ([str "ab"], 0, 0) ∧
  (cx (session [str "ab"] 1 0), cy (session [str "ab"] 1 0)) = (1, 0).
Proof. split; vm_compute; reflexivity. Qed.

(** Sequences with a newline are not undone by one undo per operation: the
    undo of a newline goes through [editor_del_row], which pushes a
    DELETE_LINE entry, and the next undo pops that entry and inserts the
    row again. *)
Example undo_two_newlines :
  row <$> run_edits [Newline; Newline] (session [str "ab"] 1 0)
  = Some [str "a"; []; str "b"] ∧
  row <$> (E1 ← run_edits [Newline; Newline] (session [str "ab"] 1 0);
           undo_n 1 E1)
  = Some [str "a"; str "b"] ∧
  row <$> (E1 ← run_edits [Newline; Newline] (session [str "ab"] 1 0);
           undo_n 2 E1)
  = Some [str "a"; str "b"; str "b"].
Proof. repeat split; vm_compute; reflexivity. Qed.

(** ** Undo followed by redo of one edit *)

Lemma editor_insert_char_row (c : ascii) (E : editor_config) (r : erow) :
  at_index (row E) (cy E) = Some r → 0 ≤ cx E ≤ size r →
  ∃ E', editor_insert_char c E = Some E' ∧
        row E' = store_at (cy E) (insert_at (cx E) c r) (row E).
Proof.
  intros Hr Hcx. pose proof (at_index_bound _ _ _ Hr) as Hb.
  unfold editor_insert_char. rewrite decide_False by (unfold numrows; lia).
  rewrite Hr. cbn [mbind option_bind]. fields.
  rewrite decide_True by done. by eexists.
Qed.

Lemma editor_del_char_row (E : editor_config) (r : erow) (c : ascii) :
  at_index (row E) (cy E) = Some r → at_index r (cx E - 1) = Some c →
  ∃ E', editor_del_char E = Some E' ∧
        row E' = store_at (cy E) (delete_at (cx E - 1) r) (row E).
Proof.
  intros Hr Hc. pose proof (at_index_bound _ _ _ Hr) as Hb.
  pose proof (at_index_bound _ _ _ Hc) as Hb'.
  unfold editor_del_char. rewrite decide_False by (unfold numrows; lia).
  rewrite decide_False by lia. rewrite decide_True by lia.
  rewrite Hr. cbn [mbind option_bind]. rewrite Hc. cbn [mbind option_bind].
  by eexists.
Qed.

Section one_redo.
Variables (E : editor_config) (next : list operation).

Lemma editor_redo_insert_char (x y : Z) (c : ascii) (r : erow) :
  redo_stack E = Operation OP_INSERT_CHAR x y c None 0 :: next →
  at_index (row E) y = Some r → 0 ≤ x ≤ size r →
  ∃ E', editor_redo E = Some E' ∧
        row E' = store_at y (insert_at x c r) (row E).
Proof.
  intros Hst Hr Hx. unfold editor_redo. rewrite Hst. unfold redo_switch.
  cbn [op_type op_cx op_cy op_c op_line op_line_size].
  destruct (editor_insert_char_row c
              (set_cy y (set_cx x (set_redo_stack next E))) r)
    as (E' & -> & Hrow); [done..|].
  cbn [mbind option_bind]. eexists. split; [done|]. by fields.
Qed.

Lemma editor_redo_delete_char (x y : Z) (c : ascii) (r : erow) :
  redo_stack E = Operation OP_DELETE_CHAR x y c None 0 :: next →
  at_index (row E) y = Some r → at_index r x = Some c →
  ∃ E', editor_redo E = Some E' ∧
        row E' = store_at y (delete_at x r) (row E).
Proof.
  intros Hst Hr Hc. unfold editor_redo. rewrite Hst. unfold redo_switch.
  cbn [op_type op_cx op_cy op_c op_line op_line_size].
  destruct (editor_del_char_row
              (set_cy y (set_cx (x + 1) (set_redo_stack next E))) r c)
    as (E' & -> & Hrow); fields;
    [done|by replace (x + 1 - 1) with x by lia|].
  cbn [mbind option_bind]. eexists. split; [done|]. fields.
  by replace (x + 1 - 1) with x in Hrow by lia.
Qed.

Lemma editor_redo_insert_line (at_ : Z) (s : list ascii) :
  redo_stack E =
    Operation OP_INSERT_LINE 0 at_ NUL
      (if decide (size s > 0) then Some s else None) (size s) :: next →
  0 ≤ at_ ≤ numrows E →
  ∃ E', editor_redo E = Some E' ∧ row E' = insert_at at_ s (row E).
Proof.
  intros Hst Hat. unfold editor_redo. rewrite Hst. unfold redo_switch, op_bytes.
  cbn [op_type op_cx op_cy op_c op_line op_line_size].
  assert (bytes s (size s) = s) as Hbytes.
  { unfold bytes. apply take_ge. unfold size. lia. }
  assert (∀ s' : list ascii, bytes s' (size s) = s →
            row (editor_insert_row at_ s' (size s) (set_redo_stack next E))
            = insert_at at_ s (row E)) as Hins.
  { intros s' Hs'.
    destruct (editor_insert_row_in_range at_ (set_redo_stack next E) s' (size s))
      as (-> & _); [done|]. by rewrite Hs'. }
  destruct (decide (size s > 0)) as [Hpos|Hzero].
  - rewrite decide_True by (unfold size; lia). cbn [mbind option_bind].
    eexists. split; [done|]. fields. by apply Hins.
  - rewrite decide_True by (unfold size in *; lia). cbn [mbind option_bind].
    eexists. split; [done|]. fields. apply Hins.
    destruct s; [done|]. unfold size in Hzero. simpl in Hzero. lia.
Qed.

Lemma editor_redo_delete_line (at_ : Z) (line : option (list ascii)) (n : Z) :
  redo_stack E = Operation OP_DELETE_LINE 0 at_ NUL line n :: next →
  0 ≤ at_ < numrows E →
  ∃ E', editor_redo E = Some E' ∧ row E' = delete_at at_ (row E).
Proof.
  intros Hst Hat. unfold editor_redo. rewrite Hst. unfold redo_switch.
  cbn [op_type op_cx op_cy op_c op_line op_line_size mbind option_bind].
  destruct (editor_del_row_in_range at_ (set_redo_stack next E))
    as (r & _ & Hrow & _); [done|].
  eexists. split; [done|]. by fields.
Qed.
End one_redo.

(** X2.  Undo and then redo of one edit that one undo takes back reproduce
    the rows that the edit left; for a newline, when no NUL follows the cursor
    on its row. *)
Lemma single_edit_undo_redo (e : edit) (E E1 : editor_config) :
  undone_by_one e E →
  apply_edit e E = Some E1 →
  (e = Newline →
   ∀ r, at_index (row E) (cy E) = Some r → NUL ∉ drop (Z.to_nat (cx E)) r) →
  ∃ E2 E3,
    editor_undo E1 = Some E2 ∧ row E2 = row E ∧
    editor_redo E2 = Some E3 ∧ row E3 = row E1.
Proof.
  intros Hok Hrun Hnul. destruct e; simpl in Hok; try done; simpl in Hrun.
  - (* InsertChar *)
    destruct (editor_insert_char_in_row E E1 c Hok Hrun)
      as (r & Hr & Hcx & Hrow1 & Hst1).
    destruct (editor_undo_insert_char E1 (cx E) (cy E) c r (undo_stack E))
      as (E2 & Hundo & Hrow2 & _ & _ & _ & Hredo); [done| |done|].
    { rewrite Hrow1. by eapply at_index_store_at. }
    assert (row E2 = row E) as Hrow.
    { by rewrite Hrow2, Hrow1, store_at_twice, (store_at_same _ _ _ Hr). }
    destruct (editor_redo_insert_char E2 (redo_stack E1) (cx E) (cy E) c r)
      as (E3 & Hredo3 & Hrow3); [done|by rewrite Hrow|done|].
    exists E2, E3. by rewrite Hrow3, Hrow, Hrow1.
  - (* DeleteChar *)
    destruct Hok as [Hcx Hcy].
    destruct (editor_del_char_in_row E E1 Hcx Hcy Hrun)
      as (r & c & Hr & Hc & Hrow1 & Hst1).
    destruct (editor_undo_delete_char E1 (cx E - 1) (cy E) c r (undo_stack E))
      as (E2 & Hundo & Hrow2 & _ & _ & _ & Hredo); [done| |done|].
    { rewrite Hrow1. by eapply at_index_store_at. }
    assert (row E2 = row E) as Hrow.
    { by rewrite Hrow2, Hrow1, store_at_twice, (store_at_same _ _ _ Hr). }
    destruct (editor_redo_delete_char E2 (redo_stack E1) (cx E - 1) (cy E) c r)
      as (E3 & Hredo3 & Hrow3); [done|by rewrite Hrow|done|].
    exists E2, E3. by rewrite Hrow3, Hrow, Hrow1.
  - (* Newline *)
    destruct (newline_undo_redo E E1 Hok Hrun (Hnul eq_refl))
      as (E2 & E3 & ? & ? & _ & _ & ? & ?).
    by exists E2, E3.
  - (* InsertLine *)
    injection Hrun as <-.
    destruct (editor_undo_insert_line at_ s E
                (editor_insert_row at_ s (size s) E))
      as (E2 & Hundo & Hrow & _ & _ & Hredo); [done..|].
    destruct (editor_redo_insert_line E2 [] at_ s)
      as (E3 & Hredo3 & Hrow3); [done|unfold numrows; by rewrite Hrow|].
    exists E2, E3. repeat (split; [done|]). rewrite Hrow3, Hrow.
    destruct (editor_insert_row_in_range at_ E s (size s) Hok) as (-> & _).
    unfold bytes. rewrite take_ge; [done|unfold size; lia].
  - (* DeleteLine *)
    injection Hrun as <-.
    destruct (editor_undo_delete_line at_ E (editor_del_row at_ E))
      as (E2 & r & Hundo & Hrow & _ & _ & _ & Hredo); [done..|].
    destruct (editor_redo_delete_line E2 [] at_ _ _ Hredo)
      as (E3 & Hredo3 & Hrow3); [unfold numrows; by rewrite Hrow|].
    exists E2, E3. repeat (split; [done|]). rewrite Hrow3, Hrow.
    by destruct (editor_del_row_in_range at_ E Hok) as (r' & _ & -> & _).
Qed.

Lemma single_edit_undo_redo_witness :
  ∃ E2 E3,
    editor_undo (default (session [] 0 0)
                   (apply_edit Newline (session [str "abcd"] 2 0))) = Some E2 ∧
    row E2 = row (session [str "abcd"] 2 0) ∧
    editor_redo E2 = Some E3 ∧
    row E3 = row (default (session [] 0 0)
                    (apply_edit Newline (session [str "abcd"] 2 0))).
Proof.
  apply (single_edit_undo_redo Newline (session [str "abcd"] 2 0)).
  - vm_compute. discriminate.
  - vm_compute. reflexivity.
  - intros _ r [= <-]. vm_compute. intros H.
    by repeat (apply elem_of_cons in H as [H|H]; [discriminate H|]);
      apply elem_of_nil in H.
Defined.

(** The edits that push two entries are redone to the same rows as well. *)
Example undo_redo_two_entries :
  row <$> (E1 ← editor_insert_char "x" (session [] 0 0);
           E2 ← editor_undo E1; editor_redo E2)
  = row <$> editor_insert_char "x" (session [] 0 0) ∧
  row <$> (E1 ← editor_del_char (session [str "ab"; str "cd"] 0 1);
           E2 ← editor_undo E1; editor_redo E2)
  = row <$> editor_del_char (session [str "ab"; str "cd"] 0 1).
Proof. split; vm_compute; reflexivity. Qed.

(** A NUL byte after the cursor cuts the tail that redo puts back. *)
Example redo_newline_nul :
  row <$> editor_insert_newline (session [["a"; "b"; NUL; "c"]%char] 1 0)
  = Some [["a"]; ["b"; NUL; "c"]]%char ∧
  row <$> (E1 ← editor_insert_newline (session [["a"; "b"; NUL; "c"]%char] 1 0);
           E2 ← editor_undo E1; editor_redo E2)
  = Some [["a"]; ["b"]]%char.
Proof. split; vm_compute; reflexivity. Qed.

(** C4, at the input where the code departs from it.  Newline in the empty
    buffer leaves one empty row and the cursor on row 0; undo then finds
    [cy > 0] false and merges nothing, and redo splits row 0 again: the
    buffer has two rows where it had one after the original newline. *)
Theorem editor_redo_newline_empty_buffer :
  row <$> editor_insert_newline (session [] 0 0) = Some [[]] ∧
  row <$> (E1 ← editor_insert_newline (session [] 0 0);
           E2 ← editor_undo E1; editor_redo E2)
  = Some [[]; []].
Proof. split; vm_compute; reflexivity. Qed.

(** Where a row is split in the middle, undo and redo bring its two halves
    back. *)
Example editor_redo_newline_split :
  row <$> (E1 ← editor_insert_newline (session [str "hello"; str "world"] 2 0);
           E2 ← editor_undo E1; editor_redo E2)
  = Some [str "he"; str "llo"; str "world"].
Proof. vm_compute. reflexivity. Qed.

(** The scenario of the specification: Enter at the end of "hello", then
    undo. *)
Example editor_undo_newline_scenario :
  (λ E, (row E, cx E, cy E)) <$>
    editor_insert_newline (session [str "hello"; str "world"] 5 0)
  = Some ([str "hello"; []; str "world"], 0, 1) ∧
  (λ E, (row E, cx E, cy E)) <$>
    (E1 ← editor_insert_newline (session [str "hello"; str "world"] 5 0);
     editor_undo E1)
  = Some ([str "hello"; str "world"], 5, 0).
Proof. split; vm_compute; reflexivity. Qed.

(** ** The buffer invariant *)

Lemma buffer_inv_row (E : editor_config) :
  buffer_inv E → cy E < numrows E →
  ∃ r, at_index (row E) (cy E) = Some r ∧ 0 ≤ cx E ≤ size r.
Proof.
  intros [Hcy Hcx] Hlt.
  destruct (at_index_in_range (row E) (cy E)) as [r Hr]; [unfold numrows in *; lia|].
  exists r. split; [done|]. by apply Hcx.
Qed.

Lemma buffer_inv_intro (E : editor_config) :
  0 ≤ cy E ≤ numrows E →
  (cy E < numrows E →
   ∃ r, at_index (row E) (cy E) = Some r ∧ 0 ≤ cx E ≤ size r) →
  buffer_inv E.
Proof.
  intros Hcy Hcx. split; [done|]. intros r Hlt Hr.
  destruct (Hcx Hlt) as (r' & Hr' & Hb). congruence.
Qed.

Lemma buffer_inv_selection_update (E : editor_config) :
  buffer_inv E → buffer_inv (editor_selection_update E).
Proof. unfold editor_selection_update. by case_decide. Qed.

(** Typing keeps the invariant, and is defined wherever the invariant
    holds with the cursor on a row: a character, ... *)
Lemma editor_insert_char_inv (c : ascii) (E : editor_config) :
  buffer_inv E → cy E < numrows E →
  ∃ E', editor_insert_char c E = Some E' ∧ buffer_inv E'.
Proof.
  intros Hinv Hcy. destruct (buffer_inv_row E Hinv Hcy) as (r & Hr & Hcx).
  pose proof (at_index_bound _ _ _ Hr) as Hb.
  unfold editor_insert_char. rewrite decide_False by lia.
  rewrite Hr. cbn [mbind option_bind]. fields.
  rewrite decide_True by done. eexists. split; [done|].
  apply buffer_inv_intro; fields; unfold numrows; fields;
    rewrite length_store_at; [lia|].
  intros _. eexists. split; [by eapply at_index_store_at|].
  rewrite size_insert_at. lia.
Qed.

(** ... a newline, ... *)
Lemma editor_insert_newline_inv (E : editor_config) :
  buffer_inv E → cy E < numrows E ∨ numrows E = 0 →
  ∃ E', editor_insert_newline E = Some E' ∧ buffer_inv E'.
Proof.
  intros Hinv Hcy.
  assert (∃ E', editor_insert_newline E = Some E') as [E' Hrun].
  { unfold editor_insert_newline. fields.
    change (numrows (set_redo_stack [] E)) with (numrows E).
    destruct (decide (numrows E = 0)); [by eexists|].
    destruct (buffer_inv_row E Hinv) as (r & Hr & Hcx); [lia|].
    rewrite Hr. cbn [mbind option_bind]. rewrite decide_True by done.
    by eexists. }
  exists E'. split; [done|].
  destruct (editor_insert_newline_rows E E' Hrun) as (Hx & Hempty & Hrows).
  destruct (decide (numrows E = 0)) as [Hz|Hnz].
  - destruct (Hempty Hz) as [Hy Hrow].
    apply buffer_inv_intro; unfold numrows; rewrite Hy, Hrow; simpl; [lia|].
    intros _. exists []. split; [done|]. rewrite Hx. by compute.
  - destruct (Hrows Hnz) as (r & Hr & Hcx & Hy & Hrow & _).
    pose proof (at_index_bound _ _ _ Hr) as Hb.
    apply buffer_inv_intro; unfold numrows; rewrite Hy, Hrow, ?Hx.
    + case_decide; rewrite ?length_store_at, length_insert_at; lia.
    + intros _. case_decide.
      * exists r. split; [by apply at_index_insert_at_succ|].
        unfold size. lia.
      * eexists. split.
        -- rewrite at_index_store_at_ne by lia.
           apply at_index_insert_at. lia.
        -- unfold size. lia.
Qed.

(** ... and a character deleted inside a row. *)
Lemma editor_del_char_in_row_inv (E : editor_config) :
  buffer_inv E → cx E > 0 →
  ∃ E', editor_del_char E = Some E' ∧ buffer_inv E'.
Proof.
  intros Hinv Hcx. unfold editor_del_char.
  destruct (decide (cy E = numrows E)); [by exists E|].
  rewrite decide_False by lia. rewrite decide_True by done.
  destruct (buffer_inv_row E Hinv) as (r & Hr & Hb); [destruct Hinv; lia|].
  pose proof (at_index_bound _ _ _ Hr) as Hy.
  destruct (at_index_in_range r (cx E - 1)) as [c Hc]; [unfold size in Hb; lia|].
  rewrite Hr. cbn [mbind option_bind]. rewrite Hc. cbn [mbind option_bind].
  eexists. split; [done|].
  apply buffer_inv_intro; fields; unfold numrows; fields;
    rewrite length_store_at; [lia|].
  intros _. eexists. split; [by eapply at_index_store_at|].
  rewrite (size_delete_at _ _ _ Hc). lia.
Qed.

(** The arrow keys, Home and End keep the invariant as well, for a cursor
    column that is not negative. *)
Lemma editor_move_cursor_inv (key : cursor_key) (E : editor_config) :
  key ≠ KEY_PPAGE → key ≠ KEY_NPAGE →
  buffer_inv E → 0 ≤ cx E →
  ∃ E', editor_move_cursor key E = Some E' ∧ buffer_inv E' ∧ 0 ≤ cx E'.
Proof.
  intros Hpp Hnp Hinv Hcx.
  assert (∀ E1, buffer_inv E1 → 0 ≤ cx E1 →
            ∃ E', Some match mode E1 with
                       | MODE_SELECTION => editor_selection_update E1
                       | _ => E1
                       end = Some E' ∧ buffer_inv E' ∧ 0 ≤ cx E') as Hsel.
  { intros E1 Hinv1 Hcx1. eexists. split; [done|].
    destruct (mode E1); try done.
    split; [by apply buffer_inv_selection_update|].
    unfold editor_selection_update. by case_decide. }
  assert (∀ E1, 0 ≤ cy E1 < numrows E1 → 0 ≤ cx E1 → row E1 = row E →
            ∃ E2, clamp_cx E1 = Some E2 ∧ buffer_inv E2 ∧ 0 ≤ cx E2) as Hclamp.
  { intros E1 Hcy1 Hcx1 Hrow1. unfold clamp_cx.
    destruct (at_index_in_range (row E1) (cy E1)) as [r Hr]; [done|].
    rewrite Hr. cbn [mbind option_bind].
    case_decide; eexists; (split; [done|]); fields;
      (split; [|unfold size; lia]);
      apply buffer_inv_intro; fields; unfold numrows in *; fields; try lia;
      intros _; exists r; (split; [done|]); unfold size in *; lia. }
  pose proof Hinv as [Hcy _].
  unfold editor_move_cursor. destruct key; try done.
  - (* KEY_LEFT *)
    destruct (decide (cx E > 0)).
    + cbn [mbind option_bind]. apply Hsel; fields; [|lia].
      apply buffer_inv_intro; fields; [done|]. intros Hlt.
      destruct (buffer_inv_row E Hinv Hlt) as (r & Hr & Hb).
      exists r. split; [done|lia].
    + destruct (decide (cy E > 0)); [|cbn [mbind option_bind]; by apply Hsel].
      fields.
      destruct (at_index_in_range (row E) (cy E - 1)) as [r Hr];
        [unfold numrows in *; lia|].
      rewrite Hr. cbn [mbind option_bind]. apply Hsel; fields; [|unfold size; lia].
      apply buffer_inv_intro; fields; unfold numrows in *; fields; [lia|].
      intros _. exists r. split; [done|unfold size; lia].
  - (* KEY_RIGHT *)
    destruct (decide (cy E >= numrows E));
      [cbn [mbind option_bind]; by apply Hsel|].
    destruct (buffer_inv_row E Hinv) as (r & Hr & Hb); [lia|].
    rewrite Hr. cbn [mbind option_bind].
    destruct (decide (cx E < size r)).
    + cbn [mbind option_bind]. apply Hsel; fields; [|lia].
      apply buffer_inv_intro; fields; [done|]. intros _.
      exists r. split; [done|lia].
    + destruct (decide (cx E = size r ∧ cy E < numrows E - 1));
        cbn [mbind option_bind]; [|by apply Hsel].
      apply Hsel; fields; [|done].
      destruct (at_index_in_range (row E) (cy E + 1)) as [r' Hr'];
        [unfold numrows in *; lia|].
      apply buffer_inv_intro; fields; unfold numrows in *; fields; [lia|].
      intros _. exists r'. split; [done|unfold size; lia].
  - (* KEY_UP *)
    destruct (decide (cy E > 0)); [|cbn [mbind option_bind]; by apply Hsel].
    destruct (Hclamp (set_cy (cy E - 1) E)) as (E2 & -> & Hinv2 & Hcx2);
      fields; [unfold numrows in *; fields; lia|done|done|].
    cbn [mbind option_bind]. by apply Hsel.
  - (* KEY_DOWN *)
    destruct (decide (cy E < numrows E - 1));
      [|cbn [mbind option_bind]; by apply Hsel].
    destruct (Hclamp (set_cy (cy E + 1) E)) as (E2 & -> & Hinv2 & Hcx2);
      fields; [unfold numrows in *; fields; lia|done|done|].
    cbn [mbind option_bind]. by apply Hsel.
  - (* KEY_HOME *)
    cbn [mbind option_bind]. apply Hsel; fields; [|done].
    apply buffer_inv_intro; fields; [done|]. intros Hlt.
    destruct (buffer_inv_row E Hinv Hlt) as (r & Hr & Hb).
    exists r. split; [done|unfold size; lia].
  - (* KEY_END *)
    destruct (decide (cy E >= numrows E));
      [cbn [mbind option_bind]; by apply Hsel|].
    destruct (buffer_inv_row E Hinv) as (r & Hr & Hb); [lia|].
    rewrite Hr. cbn [mbind option_bind]. apply Hsel; fields; [|unfold size; lia].
    apply buffer_inv_intro; fields; [done|]. intros _.
    exists r. split; [done|unfold size; lia].
Qed.

(** Page Down in the empty buffer sets [cy] to [numrows - 1], that is -1,
    and then reads the size of the row at that index. *)
Example editor_move_cursor_page_down_empty :
  editor_move_cursor KEY_NPAGE (session [] 0 0) = None.
Proof. vm_compute. reflexivity. Qed.

(** C8, at the input where the code departs from it.  The buffer "abc",
    "d" with the cursor at column 0 of row 1 satisfies the invariant;
    after [editor_del_char] the cursor is at column 3 of row 0, which now
    holds "d", of length 1. *)
Theorem editor_del_char_breaks_invariant :
  buffer_inv (session [str "abc"; str "d"] 0 1) ∧
  ∃ E', editor_del_char (session [str "abc"; str "d"] 0 1) = Some E' ∧
        cx E' = 3 ∧ cy E' = 0 ∧ row E' = [str "d"; str "d"] ∧
        ¬ buffer_inv E'.
Proof.
  split.
  - split; [by compute|]. intros r _ Hr. injection Hr as <-. by compute.
  - eexists. split; [reflexivity|]. repeat split.
    intros [_ Hcx]. specialize (Hcx (str "d") eq_refl eq_refl).
    destruct Hcx as [_ Hcx]. vm_compute in Hcx. by apply Hcx.
Qed.

(** ** Allocation failure in [editor_insert_row] *)

Section alloc.
Variables (junk : Alloc.erow) (at_ : Z) (s : list ascii) (len : Z).
Variables (rows : list (list ascii)) (d : Z) (m : string)
          (u r : list operation).

Hypothesis at_in_range : 0 ≤ at_ ≤ Z.of_nat (length rows).

(** When [realloc] fails the call sets the message and changes nothing
    else. *)
Lemma alloc_realloc_failure (malloc_ok : bool) :
  Alloc.editor_insert_row false malloc_ok junk at_ s len
    (Alloc.of_buffer rows d m u r)
  = Alloc.EditorConfig (Z.of_nat (length rows)) (Alloc.of_rows rows) d
      "Memory allocation failed" u r.
Proof.
  unfold Alloc.editor_insert_row, Alloc.of_buffer. simpl.
  by rewrite decide_False by lia.
Qed.

(** X3.  When both allocations succeed, the buffer that [editor_insert_row]
    leaves in the row array is the one that [editor_insert_row] of the main
    model computes, for every index of the buffer and every length within
    the text. *)
Lemma alloc_success_refines :
  0 ≤ len ≤ Z.of_nat (length s) →
  Alloc.buffer
    (Alloc.editor_insert_row true true junk at_ s len
       (Alloc.of_buffer rows d m u r))
  = Alloc.of_rows (insert_at at_ (bytes s len) rows).
Proof.
  intros Hlen. unfold Alloc.editor_insert_row, Alloc.buffer, Alloc.of_buffer.
  simpl.
  rewrite decide_False by lia. simpl.
  set (R := Alloc.of_rows rows).
  assert (length R = length rows) as HR by apply length_fmap.
  rewrite (take_ge R) by lia.
  assert (Z.of_nat (length (bytes s len)) = len) as Hbytes.
  { unfold bytes. rewrite length_take. lia. }
  unfold insert_at, Alloc.of_rows. rewrite fmap_app, fmap_cons.
  rewrite fmap_take, fmap_drop. fold (Alloc.of_rows rows). fold R.
  rewrite Hbytes.
  destruct (decide (at_ < Z.of_nat (length rows))) as [Hlt|Hge].
  - destruct (lookup_lt_is_Some_2 R (Z.to_nat at_)) as [x Hx]; [lia|].
    rewrite take_app_le by lia. rewrite drop_app_le by lia.
    rewrite take_app_le by (rewrite length_drop; lia).
    rewrite (take_ge (drop _ R)) by (rewrite length_drop; lia).
    replace (Z.to_nat (at_ + 1)) with (S (Z.to_nat at_)) by lia.
    rewrite (take_S_r _ _ _ Hx), <- app_assoc. simpl.
    rewrite alter_app_r_alt by (rewrite length_take; lia).
    rewrite length_take, Nat.min_l, Nat.sub_diag by lia. simpl.
    apply take_ge. rewrite length_app, length_take. simpl.
    rewrite length_drop. lia.
  - assert (Z.to_nat at_ = length R) as -> by lia.
    rewrite alter_app_r_alt by done. rewrite Nat.sub_diag. simpl.
    rewrite (take_ge R) by done. rewrite drop_ge by done.
    apply take_ge. rewrite length_app. simpl. lia.
Qed.
End alloc.

Lemma alloc_success_refines_witness :
  Alloc.buffer
    (Alloc.editor_insert_row true true (Alloc.Erow 7 None) 1 (str "xyz") 2
       (Alloc.of_buffer [str "ab"; str "cd"] 0 "" [] []))
  = Alloc.of_rows (insert_at 1 (bytes (str "xyz") 2) [str "ab"; str "cd"]).
Proof.
  apply (alloc_success_refines (Alloc.Erow 7 None) 1 (str "xyz") 2
           [str "ab"; str "cd"] 0 "" [] []); vm_compute; split; discriminate.
Defined.

(** C7, at the input where the code departs from it.  Inserting "x" at the
    top of the buffer "ab", "cd" with the [realloc] of the row array
    succeeding and the [malloc] of the new row failing: the rows were
    already moved up and [numrows] was not incremented, so the buffer
    shows a first row of size 2 with a NULL content, then "ab"; the row
    "cd" is out of sight. *)
Theorem alloc_failure_after_move (junk : Alloc.erow) :
  Alloc.editor_insert_row true false junk 0 (str "x") 1
    (Alloc.of_buffer [str "ab"; str "cd"] 0 "" [] [])
  = Alloc.EditorConfig 2
      [Alloc.Erow 2 None; Alloc.Erow 2 (Some (str "ab"));
       Alloc.Erow 2 (Some (str "cd"))]
      0 "Memory allocation failed" [] [] ∧
  Alloc.buffer
    (Alloc.editor_insert_row true false junk 0 (str "x") 1
       (Alloc.of_buffer [str "ab"; str "cd"] 0 "" [] []))
  = [Alloc.Erow 2 None; Alloc.Erow 2 (Some (str "ab"))] ∧
  Alloc.buffer (Alloc.of_buffer [str "ab"; str "cd"] 0 "" [] [])
  = [Alloc.Erow 2 (Some (str "ab")); Alloc.Erow 2 (Some (str "cd"))] ∧
  ¬ Alloc.consistent (Alloc.Erow 2 None).
Proof.
  repeat split; [vm_compute; reflexivity..|].
  intros (l & Hl & _). discriminate Hl.
Qed.

(** * Further properties of the editing engine *)

(** Everything that typing a byte on a row of the buffer changes. *)
Lemma editor_insert_char_on_row (c : ascii) (E : editor_config) (r : erow) :
  at_index (row E) (cy E) = Some r → 0 ≤ cx E ≤ size r →
  ∃ E', editor_insert_char c E = Some E' ∧
        row E' = store_at (cy E) (insert_at (cx E) c r) (row E) ∧
        cx E' = cx E + 1 ∧ cy E' = cy E ∧ dirty E' = dirty E + 1 ∧
        undo_stack E'
        = Operation OP_INSERT_CHAR (cx E) (cy E) c None 0 :: undo_stack E ∧
        redo_stack E' = [] ∧ mode E' = mode E ∧
        clipboard E' = clipboard E ∧ clipboard_len E' = clipboard_len E.
Proof.
  intros Hr Hcx. pose proof (at_index_bound _ _ _ Hr) as Hb.
  unfold editor_insert_char. rewrite decide_False by (unfold numrows; lia).
  rewrite Hr. cbn [mbind option_bind]. fields.
  rewrite decide_True by done. eexists. split; [done|]. by fields.
Qed.

(** ** The [x] key *)

(** X4.  The [x] key of normal mode deletes nothing.  With the cursor on
    a byte of a row, the key records an insertion of that byte, inserts a
    second copy of it and removes one of the two: the rows are the ones
    before, the cursor is one column further and the buffer is marked as
    modified twice.  The undo that follows takes the recorded "insertion"
    back: it is the undo that deletes the byte the cursor was on. *)
Theorem normal_x_keeps_the_row (E : editor_config) (r : erow) :
  at_index (row E) (cy E) = Some r →
  0 ≤ cx E < size r →
  ∃ E1 E2 c,
    normal_x E = Some E1 ∧
    row E1 = row E ∧ cx E1 = cx E + 1 ∧ cy E1 = cy E ∧
    dirty E1 = dirty E + 2 ∧
    at_index r (cx E) = Some c ∧
    undo_stack E1
    = Operation OP_INSERT_CHAR (cx E) (cy E) c None 0 :: undo_stack E ∧
    editor_undo E1 = Some E2 ∧
    row E2 = store_at (cy E) (delete_at (cx E) r) (row E) ∧
    cx E2 = cx E ∧ cy E2 = cy E.
Proof.
  intros Hr Hcx. pose proof (at_index_bound _ _ _ Hr) as Hcy.
  destruct (at_index_in_range r (cx E)) as [c Hc]; [unfold size in Hcx; lia|].
  assert (∃ E1, normal_x E = Some E1 ∧
            row E1 = row E ∧ cx E1 = cx E + 1 ∧ cy E1 = cy E ∧
            dirty E1 = dirty E + 2 ∧ redo_stack E1 = [] ∧
            undo_stack E1
            = Operation OP_INSERT_CHAR (cx E) (cy E) c None 0 :: undo_stack E)
    as (E1 & Hrun & Hrow & Hx & Hy & Hd & _ & Hst).
  { destruct (editor_insert_char_on_row c (set_statusmsg "-- NORMAL --" E) r)
      as (E0 & Hins & Hrow0 & Hx0 & Hy0 & Hd0 & Hst0 & Hredo0 & _); [done|simpl; lia|].
    fields. unfold normal_x. fields. rewrite Hr. cbn [mbind option_bind].
    rewrite decide_True by lia. rewrite Hc. cbn [mbind option_bind].
    rewrite Hins. cbn [mbind option_bind].
    rewrite Hy0, Hrow0, (at_index_store_at _ _ _ _ Hr). cbn [mbind option_bind].
    rewrite decide_True by (rewrite size_insert_at; lia).
    eexists. split; [done|]. fields.
    rewrite Hx0, (delete_at_succ_insert_at _ _ _ Hc).
    rewrite store_at_twice, (store_at_same _ _ _ Hr).
    split_and!; try done. lia. }
  destruct (editor_undo_insert_char E1 (cx E) (cy E) c (delete_at (cx E) r)
              (undo_stack E))
    as (E2 & Hundo & Hrow2 & _ & Hx2 & Hy2 & _).
  - done.
  - by rewrite Hrow, (insert_delete_at _ _ _ Hc).
  - rewrite (size_delete_at _ _ _ Hc). lia.
  - exists E1, E2, c. rewrite Hrow2, Hrow. by split_and!.
Qed.

Lemma normal_x_keeps_the_row_witness :
  ∃ E1 E2 c,
    normal_x (session [str "abc"] 1 0) = Some E1 ∧
    row E1 = [str "abc"] ∧ cx E1 = 1 + 1 ∧ cy E1 = 0 ∧
    dirty E1 = 0 + 2 ∧
    at_index (str "abc") 1 = Some c ∧
    undo_stack E1 = Operation OP_INSERT_CHAR 1 0 c None 0 :: [] ∧
    editor_undo E1 = Some E2 ∧
    row E2 = store_at 0 (delete_at 1 (str "abc")) [str "abc"] ∧
    cx E2 = 1 ∧ cy E2 = 0.
Proof.
  apply (normal_x_keeps_the_row (session [str "abc"] 1 0) (str "abc")).
  - reflexivity.
  - vm_compute. split; [discriminate|reflexivity].
Defined.

(** ** Selections in either direction *)

(** X5.  The direction in which a selection was made does not matter:
    with both columns set, exchanging the start and the end of the
    selection selects the same positions, and so does
    [editor_selection_normalize]. *)
Theorem is_position_selected_either_direction (x y : Z) (E : editor_config) :
  sel_start_x E ≠ -1 → sel_end_x E ≠ -1 →
  is_position_selected x y
    (set_sel_end (sel_start_x E) (sel_start_y E)
       (set_sel_start (sel_end_x E) (sel_end_y E) E))
  = is_position_selected x y E ∧
  is_position_selected x y (editor_selection_normalize E)
  = is_position_selected x y E.
Proof.
  intros Hs He. unfold editor_selection_normalize, is_position_selected.
  split.
  - fields. repeat case_decide; try done; try (exfalso; lia).
  - repeat (case_decide; fields); try done; try (exfalso; lia).
Qed.

Lemma is_position_selected_either_direction_witness :
  is_position_selected 2 0
    (set_sel_end 3 0 (set_sel_start 1 0 (selecting_session [str "hello"] 3 0 1 0)))
  = is_position_selected 2 0 (selecting_session [str "hello"] 3 0 1 0) ∧
  is_position_selected 2 0
    (editor_selection_normalize (selecting_session [str "hello"] 3 0 1 0))
  = is_position_selected 2 0 (selecting_session [str "hello"] 3 0 1 0).
Proof.
  apply (is_position_selected_either_direction 2 0
           (selecting_session [str "hello"] 3 0 1 0)); simpl; lia.
Defined.

(** ** Copy, delete and paste *)

(** The endpoints after [editor_selection_normalize], for a selection
    inside one row. *)
Lemma editor_selection_normalize_row (E : editor_config) :
  sel_start_y E = sel_end_y E →
  let En := editor_selection_normalize E in
  sel_start_x En = Z.min (sel_start_x E) (sel_end_x E) ∧
  sel_end_x En = Z.max (sel_start_x E) (sel_end_x E) ∧
  sel_start_y En = sel_start_y E ∧ sel_end_y En = sel_start_y E ∧
  row En = row E ∧ cx En = cx E ∧ cy En = cy E ∧ dirty En = dirty E ∧
  undo_stack En = undo_stack E ∧ redo_stack En = redo_stack E ∧
  mode En = mode E.
Proof.
  intros Hy. unfold editor_selection_normalize.
  case_decide; fields; split_and!; try done; lia.
Qed.

Lemma copy_range_defined (r : erow) (lo hi : Z) :
  0 ≤ lo ≤ hi → hi ≤ size r →
  copy_range r lo hi = Some (take (Z.to_nat (hi - lo)) (drop (Z.to_nat lo) r)).
Proof. intros Hlo Hhi. unfold copy_range. by rewrite decide_True by lia. Qed.

(** What copying a selection inside one row gives. *)
Lemma editor_copy_selection_row (E : editor_config) (r : erow) :
  sel_start_y E = sel_end_y E →
  at_index (row E) (sel_start_y E) = Some r →
  0 ≤ Z.min (sel_start_x E) (sel_end_x E) →
  Z.max (sel_start_x E) (sel_end_x E) ≤ size r →
  ∃ E', editor_copy_selection E = Some E' ∧
        clipboard E' =
          Some [take (Z.to_nat (Z.max (sel_start_x E) (sel_end_x E) -
                                Z.min (sel_start_x E) (sel_end_x E)))
                  (drop (Z.to_nat (Z.min (sel_start_x E) (sel_end_x E))) r)] ∧
        clipboard_len E' = 1 ∧
        sel_start_x E' = Z.min (sel_start_x E) (sel_end_x E) ∧
        sel_end_x E' = Z.max (sel_start_x E) (sel_end_x E) ∧
        sel_start_y E' = sel_start_y E ∧ sel_end_y E' = sel_start_y E ∧
        row E' = row E ∧ cx E' = cx E ∧ cy E' = cy E ∧ dirty E' = dirty E ∧
        undo_stack E' = undo_stack E ∧ redo_stack E' = redo_stack E ∧
        mode E' = mode E.
Proof.
  intros Hy Hr Hlo Hhi. pose proof (at_index_bound _ _ _ Hr) as Hb.
  destruct (editor_selection_normalize_row E Hy)
    as (Hsx & Hex & Hsy & Hey & Hrow & Hcx & Hcy & Hd & Hu & Hre & Hm).
  unfold editor_copy_selection. rewrite decide_False by lia.
  set (En := editor_selection_normalize E) in *. clearbody En.
  cbv zeta. fields. rewrite Hsy, Hey, Hrow.
  rewrite decide_False by lia. rewrite decide_True by lia.
  rewrite Hr. cbn [mbind option_bind]. rewrite Hsx, Hex.
  rewrite copy_range_defined by lia. cbn [mbind option_bind].
  eexists. split; [done|]. fields. split_and!; try done; lia.
Qed.

Lemma take_insert_at (r : erow) (i : Z) (c : ascii) :
  0 ≤ i ≤ size r →
  take (Z.to_nat (i + 1)) (insert_at i c r) = take (Z.to_nat i) r ++ [c] ∧
  drop (Z.to_nat (i + 1)) (insert_at i c r) = drop (Z.to_nat i) r.
Proof.
  unfold size, insert_at. intros Hi.
  assert (Z.to_nat (i + 1) = length (take (Z.to_nat i) r ++ [c])) as ->
    by (rewrite length_app, length_take; simpl; lia).
  change (take (Z.to_nat i) r ++ c :: drop (Z.to_nat i) r)
    with (take (Z.to_nat i) r ++ [c] ++ drop (Z.to_nat i) r).
  rewrite app_assoc.
  by rewrite take_app_length, drop_app_length.
Qed.

(** The bytes [l] typed one after the other on a row. *)
Lemma insert_chars_on_row (l : list ascii) (E : editor_config) (r : erow) :
  at_index (row E) (cy E) = Some r → 0 ≤ cx E ≤ size r →
  ∃ E', insert_chars l E = Some E' ∧
        run_edits (InsertChar <$> l) E = Some E' ∧
        in_row_edits (InsertChar <$> l) E ∧
        row E' = store_at (cy E)
                   (take (Z.to_nat (cx E)) r ++ l ++ drop (Z.to_nat (cx E)) r)
                   (row E) ∧
        cx E' = cx E + Z.of_nat (length l) ∧ cy E' = cy E ∧
        mode E' = mode E ∧
        clipboard E' = clipboard E ∧ clipboard_len E' = clipboard_len E ∧
        undo_stack E' =
          reverse ((λ '(i, c), Operation OP_INSERT_CHAR (cx E + Z.of_nat i)
                                 (cy E) c None 0) <$> imap pair l) ++
          undo_stack E.
Proof.
  revert E r. induction l as [|c l IH]; intros E r Hr Hcx.
  - exists E. simpl. rewrite take_drop, (store_at_same _ _ _ Hr).
    split_and!; try done. lia.
  - destruct (editor_insert_char_on_row c E r Hr Hcx)
      as (E1 & Hins & Hrow1 & Hx1 & Hy1 & _ & Hst1 & _ & Hm1 & Hcb1 & Hcl1).
    pose proof (at_index_bound _ _ _ Hr) as Hb.
    destruct (IH E1 (insert_at (cx E) c r))
      as (E' & Hrun & Hedits & Hin & Hrow & Hx & Hy & Hm & Hcb & Hcl & Hst).
    { rewrite Hy1, Hrow1. by eapply at_index_store_at. }
    { rewrite Hx1, size_insert_at. lia. }
    exists E'. cbn [insert_chars fmap list_fmap run_edits apply_edit in_row_edits].
    rewrite Hins. cbn [mbind option_bind].
    destruct (take_insert_at r (cx E) c Hcx) as [Htake Hdrop].
    split_and!; try done; try congruence.
    + cbn [in_row_edit]. unfold numrows. lia.
    + rewrite Hrow, Hx1, Hy1, Hrow1, Htake, Hdrop, store_at_twice.
      by rewrite <- app_assoc.
    + rewrite Hx, Hx1. simpl length. lia.
    + rewrite Hst, Hst1, Hx1, Hy1. cbn [imap fmap list_fmap].
      rewrite reverse_cons, <- app_assoc. cbn [app]. f_equal.
      * f_equal. rewrite fmap_imap. rewrite fmap_imap.
        apply imap_ext. intros i x _. simpl. f_equal. lia.
      * by rewrite Z.add_0_r.
Qed.

(** Edits inside a row are undone one by one, from any state that has the
    rows and the undo stack that they left. *)
Lemma in_row_edits_undone_from (es : list edit) (E E' E2 : editor_config) :
  in_row_edits es E →
  run_edits es E = Some E' →
  row E2 = row E' → undo_stack E2 = undo_stack E' →
  ∃ E'', undo_n (length es) E2 = Some E'' ∧
         row E'' = row E ∧ undo_stack E'' = undo_stack E.
Proof.
  revert E. induction es as [|e es IH]; intros E Hin Hrun Hrow2 Hst2.
  - injection Hrun as <-. by exists E2.
  - destruct Hin as [Hin Hrest]. simpl in Hrun.
    destruct (apply_edit e E) as [E1|] eqn:Hedit; [|done]. simpl in Hrun.
    destruct (IH E1 Hrest Hrun Hrow2 Hst2) as (E3 & Hundo & Hrow & Hst).
    destruct (undo_in_row_edit e E E1 E3 Hin Hedit Hrow Hst)
      as (E4 & Hundo4 & Hrow4 & Hst4 & _).
    exists E4. split; [|done].
    change (length (e :: es)) with (S (length es)).
    rewrite undo_n_succ, Hundo. done.
Qed.

(** X6.  Pasting one line is typing it.  With a one-line clipboard and the
    cursor on a row, [editor_paste] inserts the bytes of the line before
    its first NUL at the cursor and moves the cursor behind them; as many
    undos as bytes were pasted give back the rows and the undo stack. *)
Theorem editor_paste_single_line (E : editor_config) (cb : list (list ascii))
    (line : list ascii) (r : erow) :
  clipboard E = Some cb → clipboard_len E = 1 → at_index cb 0 = Some line →
  at_index (row E) (cy E) = Some r → 0 ≤ cx E ≤ size r →
  ∃ E' E'',
    editor_paste E = Some E' ∧
    row E' = store_at (cy E)
               (take (Z.to_nat (cx E)) r ++ c_str line ++
                drop (Z.to_nat (cx E)) r) (row E) ∧
    cx E' = cx E + Z.of_nat (length (c_str line)) ∧ cy E' = cy E ∧
    length (undo_stack E') = (length (c_str line) + length (undo_stack E))%nat ∧
    undo_n (length (c_str line)) E' = Some E'' ∧
    row E'' = row E ∧ undo_stack E'' = undo_stack E.
Proof.
  intros Hcb Hlen Hline Hr Hcx.
  destruct (insert_chars_on_row (c_str line) E r Hr Hcx)
    as (E1 & Hrun & Hedits & Hin & Hrow & Hx & Hy & _ & _ & Hcl & Hst).
  destruct (in_row_edits_undone_from (InsertChar <$> c_str line) E E1
              (set_statusmsg ("Pasted " +:+ pretty (clipboard_len E1) +:+ " lines") E1))
    as (E'' & Hundo & Hrow'' & Hst''); [done..|].
  rewrite length_fmap in Hundo.
  eexists _, E''. unfold editor_paste. rewrite Hcb, Hlen.
  rewrite decide_False by done. rewrite decide_True by done.
  rewrite Hline. cbn [mbind option_bind]. rewrite Hrun. cbn [mbind option_bind].
  split; [done|]. fields. split_and!; try done.
  rewrite Hst, length_app, length_reverse, length_fmap, length_imap. done.
Qed.

Lemma editor_paste_single_line_witness :
  ∃ E' E'',
    editor_paste (set_clipboard_len 1
                    (set_clipboard (Some [str "xy"]) (session [str "ab"] 1 0)))
    = Some E' ∧
    row E' = store_at 0 (take 1 (str "ab") ++ c_str (str "xy") ++
                         drop 1 (str "ab")) [str "ab"] ∧
    cx E' = 1 + Z.of_nat (length (c_str (str "xy"))) ∧ cy E' = 0 ∧
    length (undo_stack E') = (length (c_str (str "xy")) + 0)%nat ∧
    undo_n (length (c_str (str "xy"))) E' = Some E'' ∧
    row E'' = [str "ab"] ∧ undo_stack E'' = [].
Proof.
  apply (editor_paste_single_line
           (set_clipboard_len 1
              (set_clipboard (Some [str "xy"]) (session [str "ab"] 1 0)))
           [str "xy"] (str "xy") (str "ab"));
    try reflexivity.
  vm_compute. split; discriminate.
Defined.

Lemma editor_selection_normalize_ordered (E : editor_config) :
  sel_start_y E = sel_end_y E → sel_start_x E ≤ sel_end_x E →
  editor_selection_normalize E = E.
Proof.
  intros Hy Hx. unfold editor_selection_normalize. by rewrite decide_False by lia.
Qed.

(** X7.  The clipboard takes a deleted selection back.  Deleting a
    selection that lies inside one row (made in either direction) and
    holds no NUL leaves the row without the selected bytes, the cursor at
    the start of the gap, normal mode and nothing selected; pasting right
    away gives the rows before the deletion, with the cursor behind the
    pasted bytes. *)
Theorem selection_delete_then_paste (E : editor_config) (r : erow) :
  sel_start_y E = sel_end_y E →
  at_index (row E) (sel_start_y E) = Some r →
  0 ≤ Z.min (sel_start_x E) (sel_end_x E) →
  Z.max (sel_start_x E) (sel_end_x E) ≤ size r →
  NUL ∉ take (Z.to_nat (Z.max (sel_start_x E) (sel_end_x E) -
                        Z.min (sel_start_x E) (sel_end_x E)))
         (drop (Z.to_nat (Z.min (sel_start_x E) (sel_end_x E))) r) →
  ∃ E1 E2,
    selection_delete E = Some E1 ∧
    row E1 = store_at (sel_start_y E)
               (take (Z.to_nat (Z.min (sel_start_x E) (sel_end_x E))) r ++
                drop (Z.to_nat (Z.max (sel_start_x E) (sel_end_x E))) r)
               (row E) ∧
    cx E1 = Z.min (sel_start_x E) (sel_end_x E) ∧ cy E1 = sel_start_y E ∧
    mode E1 = MODE_NORMAL ∧
    (∀ x y, is_position_selected x y E1 = false) ∧
    editor_paste E1 = Some E2 ∧
    row E2 = row E ∧
    cx E2 = Z.max (sel_start_x E) (sel_end_x E) ∧ cy E2 = sel_start_y E.
Proof.
  intros Hy Hr Hlo Hhi Hnul. pose proof (at_index_bound _ _ _ Hr) as Hb.
  set (lo := Z.min (sel_start_x E) (sel_end_x E)) in *.
  set (hi := Z.max (sel_start_x E) (sel_end_x E)) in *.
  assert (lo ≤ hi) as Hlohi by lia.
  destruct (editor_copy_selection_row E r Hy Hr Hlo Hhi)
    as (Ec & Hcopy & Hcb & Hcl & Hsx & Hex & Hsy & Hey & Hrow & _ & _ & _ & _).
  fold lo hi in Hcb, Hsx, Hex.
  set (sel := take (Z.to_nat (hi - lo)) (drop (Z.to_nat lo) r)) in *.
  set (r' := take (Z.to_nat lo) r ++ drop (Z.to_nat hi) r).
  assert (∃ E1, selection_delete E = Some E1 ∧
                row E1 = store_at (sel_start_y E) r' (row E) ∧
                cx E1 = lo ∧ cy E1 = sel_start_y E ∧ mode E1 = MODE_NORMAL ∧
                clipboard E1 = Some [sel] ∧ clipboard_len E1 = 1 ∧
                (∀ x y, is_position_selected x y E1 = false))
    as (E1 & Hdel & Hrow1 & Hx1 & Hy1 & Hm1 & Hcb1 & Hcl1 & Hsel1).
  { unfold selection_delete. rewrite Hcopy. cbn [mbind option_bind].
    rewrite editor_selection_normalize_ordered by lia.
    rewrite decide_True by lia. rewrite Hsy, Hrow, Hr. cbn [mbind option_bind].
    rewrite Hsx, Hex. rewrite decide_True by lia. cbn [mbind option_bind].
    eexists. split; [done|]. unfold editor_selection_clear. fields.
    split_and!; done. }
  assert (size r' = lo + (size r - hi)) as Hsize'.
  { unfold r', size in *. rewrite length_app, length_take, length_drop. lia. }
  destruct (insert_chars_on_row (c_str sel) E1 r')
    as (E2 & Hrun & _ & _ & Hrow2 & Hx2 & Hy2 & _).
  { rewrite Hy1, Hrow1. by eapply at_index_store_at. }
  { lia. }
  exists E1, (set_statusmsg ("Pasted " +:+ pretty (clipboard_len E2) +:+ " lines") E2).
  split_and!; try done.
  - unfold editor_paste. rewrite Hcb1, Hcl1.
    rewrite decide_False by done. rewrite decide_True by done.
    change (at_index [sel] 0) with (Some sel). cbn [mbind option_bind].
    by rewrite Hrun.
  - fields. rewrite Hrow2, Hx1, Hy1, Hrow1, store_at_twice.
    rewrite c_str_no_nul by done.
    assert (take (Z.to_nat lo) r' = take (Z.to_nat lo) r) as ->.
    { unfold r'. rewrite take_app_le by (rewrite length_take; unfold size in *; lia).
      rewrite take_take. f_equal. lia. }
    assert (drop (Z.to_nat lo) r' = drop (Z.to_nat hi) r) as ->.
    { unfold r'. rewrite drop_app_ge by (rewrite length_take; unfold size in *; lia).
      rewrite length_take. replace (Z.to_nat lo - _)%nat with 0%nat
        by (unfold size in *; lia). done. }
    assert (take (Z.to_nat lo) r ++ sel ++ drop (Z.to_nat hi) r = r) as ->.
    { unfold sel.
      replace (drop (Z.to_nat hi) r)
        with (drop (Z.to_nat (hi - lo)) (drop (Z.to_nat lo) r))
        by (rewrite drop_drop; f_equal; lia).
      by rewrite take_drop, take_drop. }
    by apply store_at_same.
  - fields. rewrite Hx2, Hx1. rewrite c_str_no_nul by done.
    unfold sel. rewrite length_take, length_drop. unfold size in *. lia.
  - fields. by rewrite Hy2.
Qed.

Lemma selection_delete_then_paste_witness :
  ∃ E1 E2,
    selection_delete (selecting_session [str "hello"] 3 0 1 0) = Some E1 ∧
    row E1 = store_at 0 (take 1 (str "hello") ++ drop 3 (str "hello"))
               [str "hello"] ∧
    cx E1 = 1 ∧ cy E1 = 0 ∧
    mode E1 = MODE_NORMAL ∧
    (∀ x y, is_position_selected x y E1 = false) ∧
    editor_paste E1 = Some E2 ∧
    row E2 = [str "hello"] ∧
    cx E2 = 3 ∧ cy E2 = 0.
Proof.
  apply (selection_delete_then_paste (selecting_session [str "hello"] 3 0 1 0)
           (str "hello")); try reflexivity; try (vm_compute; discriminate).
  vm_compute. intros H.
  by repeat (apply elem_of_cons in H as [H|H]; [discriminate H|]);
    apply elem_of_nil in H.
Defined.

(** ** Rows *)

(** X8.  Inserting a row and deleting it again, or deleting a row and
    inserting its text again at the same index, gives back the rows; each
    of the two calls adds one entry to the undo stack, and the cursor is
    not moved. *)
Theorem editor_insert_del_row_round_trip (at_ : Z) (s : list ascii) (len : Z)
    (E : editor_config) (r : erow) :
  0 ≤ at_ ≤ numrows E →
  0 ≤ len ≤ size s →
  (at_ < numrows E → at_index (row E) at_ = Some r) →
  row (editor_del_row at_ (editor_insert_row at_ s len E)) = row E ∧
  length (undo_stack (editor_del_row at_ (editor_insert_row at_ s len E)))
  = S (S (length (undo_stack E))) ∧
  (at_ < numrows E →
   row (editor_insert_row at_ r (size r) (editor_del_row at_ E)) = row E ∧
   length (undo_stack (editor_insert_row at_ r (size r) (editor_del_row at_ E)))
   = S (S (length (undo_stack E)))) ∧
  cx (editor_del_row at_ (editor_insert_row at_ s len E)) = cx E ∧
  cy (editor_del_row at_ (editor_insert_row at_ s len E)) = cy E.
Proof.
  intros Hat _ Hr.
  destruct (editor_insert_row_in_range at_ E s len Hat) as (Hrow1 & Hst1 & _).
  assert (numrows (editor_insert_row at_ s len E) = numrows E + 1) as Hn1.
  { unfold numrows. rewrite Hrow1, length_insert_at. lia. }
  destruct (editor_del_row_in_range at_ (editor_insert_row at_ s len E))
    as (r1 & _ & Hrow2 & Hst2 & _); [lia|].
  split_and!.
  - rewrite Hrow2, Hrow1. apply delete_insert_at. unfold numrows in Hat. lia.
  - rewrite Hst2, Hst1. done.
  - intros Hlt. specialize (Hr Hlt).
    destruct (editor_del_row_in_range at_ E) as (r0 & Hr0 & Hrow3 & Hst3 & _);
      [lia|].
    assert (numrows (editor_del_row at_ E) = numrows E - 1) as Hn3.
    { unfold numrows in *. rewrite Hrow3. unfold delete_at.
      rewrite length_app, length_take, length_drop. lia. }
    destruct (editor_insert_row_in_range at_ (editor_del_row at_ E) r (size r))
      as (Hrow4 & Hst4 & _); [lia|].
    rewrite Hrow4, Hst4, Hrow3, Hst3. split; [|done].
    unfold bytes, size. rewrite Nat2Z.id, firstn_all.
    by apply insert_delete_at.
  - destruct (editor_del_row_cursor at_ (editor_insert_row at_ s len E)) as [-> _].
    by destruct (editor_insert_row_cursor at_ E s len) as [-> _].
  - destruct (editor_del_row_cursor at_ (editor_insert_row at_ s len E)) as [_ ->].
    by destruct (editor_insert_row_cursor at_ E s len) as [_ ->].
Qed.

Lemma editor_insert_del_row_round_trip_witness :
  row (editor_del_row 1 (editor_insert_row 1 (str "x") 1
                           (session [str "a"; str "b"] 0 0)))
  = [str "a"; str "b"] ∧
  length (undo_stack (editor_del_row 1 (editor_insert_row 1 (str "x") 1
                                          (session [str "a"; str "b"] 0 0))))
  = 2%nat ∧
  (1 < numrows (session [str "a"; str "b"] 0 0) →
   row (editor_insert_row 1 (str "b") (size (str "b"))
          (editor_del_row 1 (session [str "a"; str "b"] 0 0)))
   = [str "a"; str "b"] ∧
   length (undo_stack (editor_insert_row 1 (str "b") (size (str "b"))
                         (editor_del_row 1 (session [str "a"; str "b"] 0 0))))
   = 2%nat) ∧
  cx (editor_del_row 1 (editor_insert_row 1 (str "x") 1
                          (session [str "a"; str "b"] 0 0))) = 0 ∧
  cy (editor_del_row 1 (editor_insert_row 1 (str "x") 1
                          (session [str "a"; str "b"] 0 0))) = 0.
Proof.
  apply (editor_insert_del_row_round_trip 1 (str "x") 1
           (session [str "a"; str "b"] 0 0) (str "b")).
  - vm_compute. split; discriminate.
  - vm_compute. split; discriminate.
  - reflexivity.
Defined.

(** ** Select all *)

Lemma copy_range_whole (r : erow) : copy_range r 0 (size r) = Some r.
Proof.
  unfold copy_range, size, bytes. rewrite decide_True by lia.
  by rewrite drop_0, Z.sub_0_r, Nat2Z.id, firstn_all.
Qed.

Lemma copy_lines_all (E : editor_config) (last : erow) (k : nat) (i : Z) :
  sel_start_x E = 0 → sel_start_y E = 0 → sel_end_x E = size last →
  at_index (row E) (numrows E - 1) = Some last →
  0 ≤ i → i + Z.of_nat k = numrows E →
  copy_lines E (numrows E) k i = Some (drop (Z.to_nat i) (row E)).
Proof.
  intros Hsx Hsy Hex Hlast. revert i.
  induction k as [|k IH]; intros i Hi Hk; cbn [copy_lines].
  - rewrite drop_ge by (unfold numrows in *; lia). done.
  - rewrite Hsy, Z.add_0_l. rewrite decide_False by lia.
    destruct (at_index_in_range (row E) i) as [r Hr]; [unfold numrows in *; lia|].
    rewrite Hr. cbn [mbind option_bind].
    assert ((if decide (i = 0) then sel_start_x E else 0) = 0) as ->
      by (by case_decide).
    assert ((if decide (i = numrows E - 1) then sel_end_x E else size r) = size r)
      as ->.
    { case_decide; [|done]. subst i. rewrite Hlast in Hr. injection Hr as <-.
      done. }
    rewrite copy_range_whole. cbn [mbind option_bind].
    rewrite IH by lia. cbn [mbind option_bind].
    apply at_index_Some in Hr as [_ Hr].
    replace (Z.to_nat (i + 1)) with (S (Z.to_nat i)) by lia.
    by rewrite <- (drop_S _ _ _ Hr).
Qed.

(** X9.  Select all, then copy.  In a buffer that has rows,
    [editor_select_all] selects every byte of every row, and
    [editor_copy_selection] then puts the rows, one clipboard line each,
    into the clipboard; the rows, the cursor and both stacks stay as they
    are. *)
Theorem editor_select_all_copy (E : editor_config) :
  numrows E > 0 →
  (∀ x y r, at_index (row E) y = Some r → 0 ≤ x < size r →
            is_position_selected x y (editor_select_all E) = true) ∧
  ∃ E', editor_copy_selection (editor_select_all E) = Some E' ∧
        clipboard E' = Some (row E) ∧ clipboard_len E' = numrows E ∧
        row E' = row E ∧ cx E' = cx E ∧ cy E' = cy E ∧
        undo_stack E' = undo_stack E ∧ redo_stack E' = redo_stack E.
Proof.
  intros Hrows.
  destruct (at_index_in_range (row E) (numrows E - 1)) as [last Hlast];
    [unfold numrows in *; lia|].
  assert (0 ≤ size last) as Hsize by (unfold size; lia).
  assert (editor_select_all E
          = set_statusmsg "Selected all text"
              (set_selecting 1
                 (set_sel_end (size last) (numrows E - 1)
                    (set_sel_start 0 0 E)))) as Hall.
  { unfold editor_select_all. rewrite decide_True by done. by rewrite Hlast. }
  rewrite Hall. split.
  - intros x y r Hr Hx. pose proof (at_index_bound _ _ _ Hr) as Hy.
    unfold is_position_selected. fields.
    rewrite decide_False by lia. rewrite decide_False by lia.
    cbv beta iota. rewrite decide_False by (unfold numrows; lia).
    rewrite decide_False by lia.
    destruct (decide (y = numrows E - 1 ∧ x >= size last)) as [[-> Hge]|_];
      [|done].
    rewrite Hlast in Hr. injection Hr as <-. lia.
  - match goal with
    | |- context [editor_copy_selection ?S0] =>
      assert (editor_selection_normalize S0 = S0) as Hnorm
    end.
    { unfold editor_selection_normalize. fields.
      by rewrite decide_False by lia. }
    unfold editor_copy_selection. rewrite Hnorm. fields.
    rewrite decide_False by lia. rewrite decide_False by lia.
    replace (numrows E - 1 - 0 + 1) with (numrows E) by lia.
    destruct (decide (numrows E = 1)) as [Hone|Hmore].
    + rewrite Hone in Hlast. change (1 - 1) with 0 in Hlast. rewrite Hlast.
      cbn [mbind option_bind]. rewrite copy_range_whole.
      cbn [mbind option_bind]. eexists. split; [done|]. fields.
      split_and!; try done.
      apply at_index_Some in Hlast as [_ Hlast]. unfold numrows in Hone.
      destruct (row E) as [|r0 [|r1 rows]]; simpl in *; try lia.
      by injection Hlast as ->.
    + match goal with
      | |- context [copy_lines ?S0 _ _ _] =>
        pose proof (copy_lines_all S0 last (Z.to_nat (numrows E)) 0) as Hcopy
      end.
      fields. change (numrows (set_clipboard_len _ _)) with (numrows E) in Hcopy.
      rewrite Hcopy by (try done; lia).
      cbn [mbind option_bind]. eexists. split; [done|]. fields. by split_and!.
Qed.

Lemma editor_select_all_copy_witness :
  (∀ x y r, at_index [str "ab"; str "c"] y = Some r → 0 ≤ x < size r →
            is_position_selected x y
              (editor_select_all (session [str "ab"; str "c"] 1 0)) = true) ∧
  ∃ E', editor_copy_selection
          (editor_select_all (session [str "ab"; str "c"] 1 0)) = Some E' ∧
        clipboard E' = Some [str "ab"; str "c"] ∧ clipboard_len E' = 2 ∧
        row E' = [str "ab"; str "c"] ∧ cx E' = 1 ∧ cy E' = 0 ∧
        undo_stack E' = [] ∧ redo_stack E' = [].
Proof.
  apply (editor_select_all_copy (session [str "ab"; str "c"] 1 0)).
  vm_compute. reflexivity.
Defined.

(** ** The cursor keys *)

Lemma page_up_range (n : nat) (y : Z) : 0 ≤ y → 0 ≤ page_up n y ≤ y.
Proof.
  revert y. induction n as [|n IH]; intros y Hy; simpl; [lia|].
  case_decide.
  - specialize (IH (y - 1) ltac:(lia)). lia.
  - by apply IH.
Qed.

Lemma page_down_range (n : nat) (rows y : Z) :
  y ≤ rows - 1 → y ≤ page_down n rows y ≤ rows - 1.
Proof.
  revert y. induction n as [|n IH]; intros y Hy; simpl; [lia|].
  case_decide.
  - specialize (IH (y + 1) ltac:(lia)). lia.
  - by apply IH.
Qed.

Lemma clamp_cx_inv (E : editor_config) :
  0 ≤ cy E < numrows E → 0 ≤ cx E →
  ∃ E', clamp_cx E = Some E' ∧ buffer_inv E' ∧ 0 ≤ cx E' ∧
        cy E' = cy E ∧ row E' = row E ∧ mode E' = mode E.
Proof.
  intros Hcy Hcx. unfold clamp_cx.
  destruct (at_index_in_range (row E) (cy E)) as [r Hr]; [done|].
  rewrite Hr. cbn [mbind option_bind].
  case_decide; eexists; (split; [done|]); fields;
    (split; [|split_and!; try done; unfold size; lia]);
    apply buffer_inv_intro; fields; unfold numrows in *; fields; try lia;
    intros _; exists r; (split; [done|]); unfold size in *; lia.
Qed.

Lemma selection_update_inv (E : editor_config) :
  buffer_inv E → 0 ≤ cx E →
  ∃ E', Some match mode E with
             | MODE_SELECTION => editor_selection_update E
             | _ => E
             end = Some E' ∧ buffer_inv E' ∧ 0 ≤ cx E' ∧
        cx E' = cx E ∧ cy E' = cy E ∧ row E' = row E.
Proof.
  intros Hinv Hcx. eexists. split; [done|].
  destruct (mode E); try done.
  unfold editor_selection_update. case_decide; [|done].
  split_and!; try done.
Qed.

(** The page keys on a buffer that has rows. *)
Lemma editor_move_cursor_page_inv (key : cursor_key) (E : editor_config) :
  key = KEY_PPAGE ∨ key = KEY_NPAGE →
  0 ≤ cx E → numrows E > 0 → 0 ≤ rowoff E < numrows E → 0 < screenrows E →
  ∃ E', editor_move_cursor key E = Some E' ∧ buffer_inv E' ∧ 0 ≤ cx E' ∧
        0 ≤ cy E' < numrows E' ∧ row E' = row E.
Proof.
  intros Hkey Hcx Hrows Hoff Hscreen. unfold editor_move_cursor.
  destruct Hkey as [-> | ->]; rewrite decide_True by lia; fields.
  - pose proof (page_up_range (Z.to_nat (screenrows E)) (rowoff E) ltac:(lia))
      as Hup.
    rewrite decide_True by (unfold numrows in *; fields; lia).
    destruct (clamp_cx_inv
                (set_cy (page_up (Z.to_nat (screenrows E)) (rowoff E))
                   (set_cy (rowoff E) E)))
      as (E1 & -> & Hinv1 & Hcx1 & Hcy1 & Hrow1 & _);
      [unfold numrows in *; fields; lia|done|].
    cbn [mbind option_bind]. fields.
    destruct (selection_update_inv E1 Hinv1 Hcx1)
      as (E' & -> & Hinv' & Hcx' & _ & Hcy' & Hrow').
    exists E'. split_and!; try done; unfold numrows in *; rewrite ?Hrow', ?Hcy', ?Hrow1, ?Hcy1;
      try done; lia.
  - unfold numrows in *. fields.
    destruct (decide (rowoff E + screenrows E - 1 >= Z.of_nat (length (row E))));
      fields;
      match goal with
      | |- context [page_down ?n ?rows ?y] =>
        pose proof (page_down_range n rows y ltac:(lia)) as Hdown
      end;
      rewrite decide_True by lia;
      match goal with
      | |- context [clamp_cx ?S0] =>
        destruct (clamp_cx_inv S0)
          as (E1 & -> & Hinv1 & Hcx1 & Hcy1 & Hrow1 & _);
          [unfold numrows; fields; lia|done|]
      end;
      cbn [mbind option_bind]; fields;
      destruct (selection_update_inv E1 Hinv1 Hcx1)
        as (E' & -> & Hinv' & Hcx' & _ & Hcy' & Hrow');
      exists E'; rewrite ?Hrow', ?Hcy', ?Hrow1, ?Hcy1;
      split_and!; try done; lia.
Qed.

(** Moving the cursor changes no row. *)
Lemma editor_move_cursor_row (key : cursor_key) (E E' : editor_config) :
  editor_move_cursor key E = Some E' → row E' = row E.
Proof.
  assert (∀ E1 E2, Some match mode E1 with
                        | MODE_SELECTION => editor_selection_update E1
                        | _ => E1
                        end = Some E2 → row E2 = row E1) as Hsel.
  { intros E1 E2 [= <-]. destruct (mode E1); try done.
    unfold editor_selection_update. by destruct (decide (selecting E1 ≠ 0)). }
  assert (∀ E1 E2, clamp_cx E1 = Some E2 → row E2 = row E1) as Hclamp.
  { intros E1 E2. unfold clamp_cx. destruct (at_index _ _) as [r|]; [|done].
    cbn [mbind option_bind].
    destruct (decide (cx E1 > size r)); by intros [= <-]. }
  unfold editor_move_cursor. intros Hrun.
  match type of Hrun with
  | ?m ≫= _ = _ => destruct m as [E1|] eqn:Hkey; [|done]
  end.
  cbn [mbind option_bind] in Hrun. apply Hsel in Hrun. rewrite Hrun.
  clear Hrun Hsel.
  destruct key;
    repeat match type of Hkey with
           | context [decide ?P] =>
             lazymatch P with context [decide _] => fail | _ => idtac end;
             destruct (decide P)
           | context [at_index ?l ?i] =>
             destruct (at_index l i); [|done]; cbn [mbind option_bind] in Hkey
           end;
    try done;
    try (injection Hkey as <-; done);
    try (apply Hclamp in Hkey; rewrite Hkey; done).
Qed.

(** X10.  The cursor keys keep the buffer invariant.  From a state that
    satisfies it, with a column that is not negative, every key of
    [editor_move_cursor] is defined and leaves a state that satisfies it;
    for Page Up and Page Down this needs a buffer with rows, a window that
    starts on one of them and a screen of at least one row. *)
Theorem editor_move_cursor_keeps_invariant (key : cursor_key)
    (E : editor_config) :
  buffer_inv E → 0 ≤ cx E →
  (key = KEY_PPAGE ∨ key = KEY_NPAGE →
   0 ≤ rowoff E < numrows E ∧ 0 < screenrows E) →
  ∃ E', editor_move_cursor key E = Some E' ∧ buffer_inv E' ∧ 0 ≤ cx E' ∧
        row E' = row E.
Proof.
  intros Hinv Hcx Hpage.
  assert ((key = KEY_PPAGE ∨ key = KEY_NPAGE) ∨
          (key ≠ KEY_PPAGE ∧ key ≠ KEY_NPAGE)) as [Hk|[Hpp Hnp]]
    by (destruct key; first [by left; left | by left; right | by right]).
  - destruct (Hpage Hk) as [Hoff Hscreen].
    destruct (editor_move_cursor_page_inv key E Hk Hcx ltac:(lia) Hoff Hscreen)
      as (E' & Hrun & Hinv' & Hcx' & _ & Hrow').
    by exists E'.
  - destruct (editor_move_cursor_inv key E Hpp Hnp Hinv Hcx)
      as (E' & Hrun & Hinv' & Hcx').
    exists E'. split_and!; try done. by eapply editor_move_cursor_row.
Qed.

Lemma editor_move_cursor_keeps_invariant_witness :
  ∃ E', editor_move_cursor KEY_NPAGE (session [str "ab"; str "c"] 2 0) = Some E' ∧
        buffer_inv E' ∧ 0 ≤ cx E' ∧ row E' = [str "ab"; str "c"].
Proof.
  apply (editor_move_cursor_keeps_invariant KEY_NPAGE
           (session [str "ab"; str "c"] 2 0)).
  - split; [simpl; unfold numrows; simpl; lia|].
    intros r _ [= <-]. vm_compute. split; discriminate.
  - simpl. lia.
  - intros _. unfold numrows. simpl. lia.
Defined.

(** ** Left and Right *)

(** X11.  Left and Right are inverse to each other.  With the cursor on a
    row, Left followed by Right brings the cursor back unless it was at the
    start of the buffer, and Right followed by Left brings it back unless
    it was at the end of the last row; the end of a row and the start of
    the next are one step apart. *)
Theorem editor_move_cursor_left_right (E : editor_config) (r : erow) :
  at_index (row E) (cy E) = Some r → 0 ≤ cx E ≤ size r →
  (cx E > 0 ∨ cy E > 0 →
   ∃ E1 E2, editor_move_cursor KEY_LEFT E = Some E1 ∧
            editor_move_cursor KEY_RIGHT E1 = Some E2 ∧
            (cx E1, cy E1) ≠ (cx E, cy E) ∧
            cx E2 = cx E ∧ cy E2 = cy E) ∧
  (cx E < size r ∨ cy E < numrows E - 1 →
   ∃ E1 E2, editor_move_cursor KEY_RIGHT E = Some E1 ∧
            editor_move_cursor KEY_LEFT E1 = Some E2 ∧
            (cx E1, cy E1) ≠ (cx E, cy E) ∧
            cx E2 = cx E ∧ cy E2 = cy E).
Proof.
  intros Hr Hcx. pose proof (at_index_bound _ _ _ Hr) as Hcy.
  assert (∀ X, ∃ X', Some match mode X with
                          | MODE_SELECTION => editor_selection_update X
                          | _ => X
                          end = Some X' ∧
                     cx X' = cx X ∧ cy X' = cy X ∧ row X' = row X) as Hsel.
  { intros X. eexists. split; [done|]. destruct (mode X); try done.
    unfold editor_selection_update. by destruct (decide (selecting X ≠ 0)). }
  (* one step in each direction, from any cursor on a row *)
  assert (∀ X rx, at_index (row X) (cy X) = Some rx → cx X > 0 →
            ∃ X', editor_move_cursor KEY_LEFT X = Some X' ∧
                  cx X' = cx X - 1 ∧ cy X' = cy X ∧ row X' = row X) as Hleft.
  { intros X rx Hrx Hpos. unfold editor_move_cursor.
    rewrite decide_True by done. cbn [mbind option_bind].
    destruct (Hsel (set_cx (cx X - 1) X)) as (X' & -> & ? & ? & ?).
    by exists X'. }
  assert (∀ X rx prev, at_index (row X) (cy X) = Some rx →
            at_index (row X) (cy X - 1) = Some prev → cx X = 0 →
            ∃ X', editor_move_cursor KEY_LEFT X = Some X' ∧
                  cx X' = size prev ∧ cy X' = cy X - 1 ∧ row X' = row X)
    as Hleft0.
  { intros X rx prev Hrx Hprev Hzero.
    pose proof (at_index_bound _ _ _ Hprev). unfold editor_move_cursor.
    rewrite decide_False by lia. rewrite decide_True by lia. fields.
    rewrite Hprev. cbn [mbind option_bind].
    destruct (Hsel (set_cx (size prev) (set_cy (cy X - 1) X)))
      as (X' & -> & ? & ? & ?).
    by exists X'. }
  assert (∀ X rx, at_index (row X) (cy X) = Some rx → cx X < size rx →
            ∃ X', editor_move_cursor KEY_RIGHT X = Some X' ∧
                  cx X' = cx X + 1 ∧ cy X' = cy X ∧ row X' = row X) as Hright.
  { intros X rx Hrx Hlt. pose proof (at_index_bound _ _ _ Hrx).
    unfold editor_move_cursor.
    rewrite decide_False by (unfold numrows; lia). rewrite Hrx.
    cbn [mbind option_bind]. rewrite decide_True by done.
    cbn [mbind option_bind].
    destruct (Hsel (set_cx (cx X + 1) X)) as (X' & -> & ? & ? & ?).
    by exists X'. }
  assert (∀ X rx, at_index (row X) (cy X) = Some rx → cx X = size rx →
            cy X < numrows X - 1 →
            ∃ X', editor_move_cursor KEY_RIGHT X = Some X' ∧
                  cx X' = 0 ∧ cy X' = cy X + 1 ∧ row X' = row X) as Hright0.
  { intros X rx Hrx Hend Hnext. pose proof (at_index_bound _ _ _ Hrx).
    unfold editor_move_cursor.
    rewrite decide_False by (unfold numrows; lia). rewrite Hrx.
    cbn [mbind option_bind]. rewrite decide_False by lia.
    rewrite decide_True by done. cbn [mbind option_bind].
    destruct (Hsel (set_cx 0 (set_cy (cy X + 1) X))) as (X' & -> & ? & ? & ?).
    by exists X'. }
  split.
  - intros Hstart. destruct (decide (cx E > 0)) as [Hpos|Hzero].
    + destruct (Hleft E r Hr Hpos) as (E1 & H1 & Hx1 & Hy1 & Hrow1).
      destruct (Hright E1 r) as (E2 & H2 & Hx2 & Hy2 & _);
        [by rewrite Hrow1, Hy1|lia|].
      exists E1, E2. split_and!; try done; [|lia|congruence].
      intros [= ? ?]. lia.
    + destruct (at_index_in_range (row E) (cy E - 1)) as [prev Hprev]; [lia|].
      destruct (Hleft0 E r prev Hr Hprev ltac:(lia))
        as (E1 & H1 & Hx1 & Hy1 & Hrow1).
      destruct (Hright0 E1 prev) as (E2 & H2 & Hx2 & Hy2 & _);
        [by rewrite Hrow1, Hy1|done|unfold numrows; rewrite Hrow1; lia|].
      exists E1, E2. split_and!; try done; [|lia..].
      intros [= ? ?]. lia.
  - intros Hend. destruct (decide (cx E < size r)) as [Hlt|Hlast].
    + destruct (Hright E r Hr Hlt) as (E1 & H1 & Hx1 & Hy1 & Hrow1).
      destruct (Hleft E1 r) as (E2 & H2 & Hx2 & Hy2 & _);
        [by rewrite Hrow1, Hy1|lia|].
      exists E1, E2. split_and!; try done; [|lia|congruence].
      intros [= ? ?]. lia.
    + destruct (Hright0 E r Hr ltac:(lia) ltac:(lia))
        as (E1 & H1 & Hx1 & Hy1 & Hrow1).
      destruct (at_index_in_range (row E) (cy E + 1)) as [next Hnext];
        [unfold numrows in *; lia|].
      destruct (Hleft0 E1 next r) as (E2 & H2 & Hx2 & Hy2 & _);
        [by rewrite Hrow1, Hy1|rewrite Hrow1, Hy1;
         by replace (cy E + 1 - 1) with (cy E) by lia|done|].
      exists E1, E2. split_and!; try done; [|lia..].
      intros [= ? ?]. lia.
Qed.

Lemma editor_move_cursor_left_right_witness :
  (0 > 0 ∨ 1 > 0 →
   ∃ E1 E2, editor_move_cursor KEY_LEFT (session [str "ab"; str "c"] 0 1) = Some E1 ∧
            editor_move_cursor KEY_RIGHT E1 = Some E2 ∧
            (cx E1, cy E1) ≠ (0, 1) ∧
            cx E2 = 0 ∧ cy E2 = 1) ∧
  (0 < size (str "c") ∨ 1 < numrows (session [str "ab"; str "c"] 0 1) - 1 →
   ∃ E1 E2, editor_move_cursor KEY_RIGHT (session [str "ab"; str "c"] 0 1) = Some E1 ∧
            editor_move_cursor KEY_LEFT E1 = Some E2 ∧
            (cx E1, cy E1) ≠ (0, 1) ∧
            cx E2 = 0 ∧ cy E2 = 1).
Proof.
  apply (editor_move_cursor_left_right (session [str "ab"; str "c"] 0 1) (str "c")).
  - reflexivity.
  - vm_compute. split; discriminate.
Defined.

(** ** Typing *)

Lemma typing_edit_inv (e : edit) (E : editor_config) :
  buffer_inv E → typing_edit e E →
  ∃ E', apply_edit e E = Some E' ∧ buffer_inv E' ∧ cy E' < numrows E'.
Proof.
  intros Hinv Hkey. pose proof Hinv as [Hcy0 _].
  destruct e; try done; cbn [typing_edit apply_edit] in *.
  - destruct (editor_insert_char_inv c E Hinv Hkey) as (E' & Hrun & Hinv').
    exists E'. split_and!; try done.
    destruct (editor_insert_char_in_row E E' c Hkey Hrun) as (r & Hr & _ & Hrow & _).
    unfold editor_insert_char in Hrun. rewrite decide_False in Hrun by lia.
    rewrite Hr in Hrun. cbn [mbind option_bind] in Hrun.
    case_decide; [|done]. injection Hrun as <-. unfold numrows in *. fields.
    by rewrite length_store_at.
  - destruct Hkey as [Hcx Hcy].
    destruct (editor_del_char_in_row_inv E Hinv Hcx) as (E' & Hrun & Hinv').
    exists E'. split_and!; try done.
    unfold editor_del_char in Hrun. rewrite decide_False in Hrun by lia.
    rewrite decide_False in Hrun by lia. rewrite decide_True in Hrun by done.
    destruct (at_index (row E) (cy E)) as [r|]; [|done].
    cbn [mbind option_bind] in Hrun.
    destruct (at_index r (cx E - 1)) as [c|]; [|done].
    injection Hrun as <-. unfold numrows in *. fields.
    by rewrite length_store_at.
  - destruct (editor_insert_newline_inv E Hinv) as (E' & Hrun & Hinv');
      [by left|].
    exists E'. split_and!; try done.
    destruct (editor_insert_newline_rows E E' Hrun) as (_ & _ & Hrows).
    destruct Hrows as (r & _ & _ & Hy & Hrow & _); [lia|].
    unfold numrows in *. rewrite Hy, Hrow.
    case_decide; rewrite ?length_store_at, length_insert_at; lia.
Qed.

(** X12.  Typing keeps the buffer invariant.  From a state that satisfies
    it, any sequence of bytes typed, Enter and Backspace, each with the
    cursor on a row and Backspace with a byte on its left, is defined and
    leaves a state that satisfies it. *)
Theorem typing_keeps_invariant (es : list edit) (E : editor_config) :
  buffer_inv E → typing_edits es E →
  ∃ E', run_edits es E = Some E' ∧ buffer_inv E'.
Proof.
  revert E. induction es as [|e es IH]; intros E Hinv Hkeys.
  - by exists E.
  - destruct Hkeys as [Hkey Hrest].
    destruct (typing_edit_inv e E Hinv Hkey) as (E1 & Hedit & Hinv1 & _).
    rewrite Hedit in Hrest.
    destruct (IH E1 Hinv1 Hrest) as (E' & Hrun & Hinv').
    exists E'. cbn [run_edits]. rewrite Hedit. done.
Qed.

Lemma typing_keeps_invariant_witness :
  ∃ E', run_edits [InsertChar "x"; Newline; InsertChar "y"; DeleteChar]
          (session [str "ab"] 1 0) = Some E' ∧ buffer_inv E'.
Proof.
  apply (typing_keeps_invariant
           [InsertChar "x"; Newline; InsertChar "y"; DeleteChar]
           (session [str "ab"] 1 0)).
  - split; [simpl; unfold numrows; simpl; lia|].
    intros r _ [= <-]. vm_compute. split; discriminate.
  - vm_compute. repeat split; reflexivity.
Defined.

(** * The rest of the program *)

(** ** Screen columns *)

Lemma cx_to_rx_loop_app (l1 l2 : list ascii) (rx : Z) :
  cx_to_rx_loop (l1 ++ l2) rx = cx_to_rx_loop l2 (cx_to_rx_loop l1 rx).
Proof. revert rx. induction l1 as [|c l1 IH]; intros rx; simpl; [done|]. apply IH. Qed.

Lemma cx_to_rx_loop_bounds (l : list ascii) (rx : Z) :
  0 ≤ rx →
  rx + Z.of_nat (length l) ≤ cx_to_rx_loop l rx ≤ rx + 8 * Z.of_nat (length l).
Proof.
  revert rx. induction l as [|c l IH]; intros rx Hrx; simpl; [lia|].
  pose proof (Z.rem_bound_pos rx 8 Hrx ltac:(lia)) as Hrem.
  case_decide.
  - specialize (IH (rx + (8 - 1 - Z.rem rx 8) + 1) ltac:(lia)). lia.
  - specialize (IH (rx + 1) ltac:(lia)). lia.
Qed.

Lemma cx_to_rx_loop_no_tab (l : list ascii) (rx : Z) :
  TAB ∉ l → cx_to_rx_loop l rx = rx + Z.of_nat (length l).
Proof.
  revert rx. induction l as [|c l IH]; intros rx Hl; simpl; [lia|].
  apply not_elem_of_cons in Hl as [Hc Hl].
  rewrite decide_False by done. rewrite IH by done. lia.
Qed.

Lemma bytes_split (s : list ascii) (n1 n2 : Z) :
  0 ≤ n1 ≤ n2 →
  bytes s n2 = bytes s n1 ++ bytes (drop (Z.to_nat n1) s) (n2 - n1).
Proof.
  intros Hn. unfold bytes.
  replace (Z.to_nat n2) with (Z.to_nat n1 + Z.to_nat (n2 - n1))%nat by lia.
  by rewrite take_take_drop.
Qed.

(** X13.  Each byte of a row takes between one and eight screen columns:
    between two cursor columns [cx1 <= cx2] the screen column that
    [editor_row_cx_to_rx] computes advances by at least [cx2 - cx1] and at
    most [8 * (cx2 - cx1)]; from column 0 it starts at 0. *)
Theorem editor_row_cx_to_rx_advance (r : erow) (cx1 cx2 rx1 rx2 : Z) :
  0 ≤ cx1 ≤ cx2 →
  editor_row_cx_to_rx r cx1 = Some rx1 →
  editor_row_cx_to_rx r cx2 = Some rx2 →
  editor_row_cx_to_rx r 0 = Some 0 ∧
  0 ≤ rx1 ∧
  cx2 - cx1 ≤ rx2 - rx1 ≤ 8 * (cx2 - cx1).
Proof.
  unfold editor_row_cx_to_rx. intros Hcx H1 H2.
  repeat case_decide; try done; try (unfold size in *; lia).
  injection H1 as <-. injection H2 as <-.
  split; [done|].
  assert (Z.of_nat (length (r ++ [NUL])) = size r + 1) as Hlen.
  { rewrite length_app. unfold size. simpl. lia. }
  pose proof (cx_to_rx_loop_bounds (bytes (r ++ [NUL]) cx1) 0 ltac:(lia)) as Hb1.
  rewrite (bytes_split _ cx1 cx2) by done.
  rewrite cx_to_rx_loop_app.
  set (rx1 := cx_to_rx_loop (bytes (r ++ [NUL]) cx1) 0) in *.
  pose proof (cx_to_rx_loop_bounds
                (bytes (drop (Z.to_nat cx1) (r ++ [NUL])) (cx2 - cx1)) rx1
                ltac:(lia)) as Hb2.
  assert (Z.of_nat (length (bytes (drop (Z.to_nat cx1) (r ++ [NUL])) (cx2 - cx1)))
          = cx2 - cx1) as Hl.
  { unfold bytes. rewrite length_take, length_drop. lia. }
  lia.
Qed.

Lemma editor_row_cx_to_rx_advance_witness :
  editor_row_cx_to_rx (TAB :: str "ab") 0 = Some 0 ∧
  0 ≤ 8 ∧
  2 - 1 ≤ 9 - 8 ≤ 8 * (2 - 1).
Proof.
  apply (editor_row_cx_to_rx_advance (TAB :: str "ab") 1 2 8 9);
    [lia | vm_compute; reflexivity | vm_compute; reflexivity].
Defined.

(** X14.  On a row without a tab before the cursor the screen column is the
    cursor column. *)
Theorem editor_row_cx_to_rx_no_tab (r : erow) (cx : Z) :
  0 ≤ cx ≤ size r →
  TAB ∉ bytes r cx →
  editor_row_cx_to_rx r cx = Some cx.
Proof.
  unfold editor_row_cx_to_rx, size. intros Hcx Htab.
  rewrite decide_True by lia. f_equal.
  unfold bytes in *. rewrite take_app_le by lia.
  rewrite cx_to_rx_loop_no_tab by done.
  rewrite length_take. lia.
Qed.

Lemma editor_row_cx_to_rx_no_tab_witness :
  editor_row_cx_to_rx (str "ab" ++ [TAB]) 2 = Some 2.
Proof.
  apply (editor_row_cx_to_rx_no_tab (str "ab" ++ [TAB]) 2).
  - vm_compute. split; discriminate.
  - vm_compute. intros H. by repeat (apply elem_of_cons in H as [H|H]; [discriminate H|]); apply elem_of_nil in H.
Defined.

(** X15.  A tab moves to the next tab stop: when the byte left of the cursor
    is a tab, the screen column is a positive multiple of 8. *)
Theorem editor_row_cx_to_rx_tab_stop (r : erow) (cx : Z) :
  at_index r (cx - 1) = Some TAB →
  ∃ rx, editor_row_cx_to_rx r cx = Some rx ∧ 0 < rx ∧ rx `mod` 8 = 0.
Proof.
  intros Htab. pose proof (at_index_bound _ _ _ Htab) as Hb.
  apply at_index_Some in Htab as [_ Htab].
  unfold editor_row_cx_to_rx, size. rewrite decide_True by lia.
  eexists. split; [done|].
  unfold bytes. rewrite take_app_le by lia.
  replace (Z.to_nat cx) with (S (Z.to_nat (cx - 1))) by lia.
  rewrite (take_S_r _ _ _ Htab), cx_to_rx_loop_app.
  cbn [cx_to_rx_loop]. rewrite decide_True by done.
  pose proof (cx_to_rx_loop_bounds (take (Z.to_nat (cx - 1)) r) 0 ltac:(lia)) as Hrx.
  set (rx := cx_to_rx_loop _ 0) in *.
  assert (0 ≤ rx) as Hpos by lia.
  rewrite Z.rem_mod_nonneg by lia.
  pose proof (Z.mod_pos_bound rx 8 ltac:(lia)).
  split; [lia|].
  replace (rx + (8 - 1 - rx `mod` 8) + 1) with (8 * (rx `div` 8 + 1))
    by (pose proof (Z.div_mod rx 8 ltac:(lia)); lia).
  rewrite Z.mul_comm. apply Z.mod_mul. lia.
Qed.

Lemma editor_row_cx_to_rx_tab_stop_witness :
  ∃ rx, editor_row_cx_to_rx (str "ab" ++ [TAB]) 3 = Some rx ∧
        0 < rx ∧ rx `mod` 8 = 0.
Proof.
  apply (editor_row_cx_to_rx_tab_stop (str "ab" ++ [TAB]) 3).
  vm_compute. reflexivity.
Defined.

(** ** The window *)

(** X16.  After [editor_scroll] the cursor is inside the window: for a
    cursor at non-negative coordinates and a screen of at least one row and
    one column (all far from the limits of [int]), the offsets are not
    negative, the cursor row is one of the [screenrows] rows from [rowoff]
    and the cursor column one of the [screencols] columns from [coloff];
    only the two offsets change. *)
Theorem editor_scroll_cursor_visible (E : editor_config) :
  scroll_in_range E →
  0 ≤ cx E → 0 ≤ cy E → 0 < screenrows E → 0 < screencols E →
  let E' := editor_scroll E in
  0 ≤ rowoff E' ≤ cy E' ∧ cy E' < rowoff E' + screenrows E' ∧
  0 ≤ coloff E' ≤ cx E' ∧ cx E' < coloff E' + screencols E' ∧
  E' = set_coloff (coloff E') (set_rowoff (rowoff E') E).
Proof.
  intros _ Hx Hy Hr Hc. unfold editor_scroll.
  cbn [cx cy rowoff coloff screenrows screencols set_rowoff set_coloff].
  repeat case_decide; repeat split; (lia || done).
Qed.

Lemma editor_scroll_cursor_visible_witness :
  let E' := editor_scroll (session [str "ab"] 100 30) in
  0 ≤ rowoff E' ≤ cy E' ∧ cy E' < rowoff E' + screenrows E' ∧
  0 ≤ coloff E' ≤ cx E' ∧ cx E' < coloff E' + screencols E' ∧
  E' = set_coloff (coloff E') (set_rowoff (rowoff E') (session [str "ab"] 100 30)).
Proof.
  apply (editor_scroll_cursor_visible (session [str "ab"] 100 30));
    [repeat (apply List.Forall_cons; [by vm_compute|]); apply List.Forall_nil
    |simpl; lia..].
Defined.

(** X17.  Scrolling twice is scrolling once, and a window that shows the
    cursor is left where it is (for a cursor, offsets and a screen size far
    from the limits of [int], of either sign). *)
Theorem editor_scroll_idempotent (E : editor_config) :
  scroll_in_range E →
  editor_scroll (editor_scroll E) = editor_scroll E ∧
  (0 ≤ rowoff E ≤ cy E ∧ cy E < rowoff E + screenrows E ∧
   0 ≤ coloff E ≤ cx E ∧ cx E < coloff E + screencols E →
   editor_scroll E = E).
Proof.
  intros _.
  pose (f := λ pos off len : Z,
          let off1 := if decide (pos < off) then pos else off in
          let off2 := if decide (pos >= off1 + len)
                      then pos - len + 1 else off1 in
          if decide (off2 < 0) then 0 else off2).
  assert (∀ pos off len, f pos (f pos off len) len = f pos off len) as Hf.
  { intros pos off len. unfold f. cbv zeta. repeat case_decide; lia. }
  assert (∀ pos off len, 0 ≤ off ≤ pos → pos < off + len → f pos off len = off)
    as Hid.
  { intros pos off len ? ?. unfold f. cbv zeta. repeat case_decide; lia. }
  assert (∀ E0, editor_scroll E0 =
                set_coloff (f (cx E0) (coloff E0) (screencols E0))
                  (set_rowoff (f (cy E0) (rowoff E0) (screenrows E0)) E0))
    as Hs by reflexivity.
  split.
  - rewrite (Hs (editor_scroll E)), (Hs E).
    cbn [cx cy rowoff coloff screenrows screencols set_rowoff set_coloff].
    by rewrite !Hf.
  - intros (Hr & Hy & Hc & Hx). rewrite Hs, !Hid by done. by destruct E.
Qed.

Lemma editor_scroll_idempotent_witness :
  editor_scroll (editor_scroll (session [] 0 (-1)))
  = editor_scroll (session [] 0 (-1)) ∧
  (0 ≤ rowoff (session [] 0 (-1)) ≤ cy (session [] 0 (-1)) ∧
   cy (session [] 0 (-1))
   < rowoff (session [] 0 (-1)) + screenrows (session [] 0 (-1)) ∧
   0 ≤ coloff (session [] 0 (-1)) ≤ cx (session [] 0 (-1)) ∧
   cx (session [] 0 (-1))
   < coloff (session [] 0 (-1)) + screencols (session [] 0 (-1)) →
   editor_scroll (session [] 0 (-1)) = session [] 0 (-1)).
Proof.
  apply (editor_scroll_idempotent (session [] 0 (-1))).
  repeat (apply List.Forall_cons; [by vm_compute|]). apply List.Forall_nil.
Defined.

(** ** Start-up *)

(** X18.  Whatever size the terminal reports, [init_editor] leaves a text
    area of at least 3 rows and 20 columns (two rows less than a terminal
    of 5 rows or more, as many columns as a terminal of 20 or more), an
    empty buffer that satisfies the buffer invariant with the window on
    the cursor, no selection, and normal mode. *)
Theorem init_editor_ready (maxy maxx : Z) :
  let E := core (init_editor maxy maxx) in
  3 ≤ screenrows E ∧ 20 ≤ screencols E ∧
  (5 ≤ maxy → screenrows E = maxy - 2) ∧ (20 ≤ maxx → screencols E = maxx) ∧
  buffer_inv E ∧ editor_scroll E = E ∧
  (∀ x y, is_position_selected x y E = false) ∧
  mode E = MODE_NORMAL ∧ numrows E = 0.
Proof.
  unfold init_editor. simpl.
  repeat split; try (unfold numrows; simpl; repeat case_decide; lia).
  - unfold numrows in *. simpl in *. lia.
  - unfold editor_scroll.
    cbn [cx cy rowoff coloff screenrows screencols set_rowoff set_coloff].
    repeat case_decide; try done; exfalso; lia.
Qed.

(** ** Font size *)

(** X19.  [editor_change_font_size] keeps the font size between 1 and 5
    from any size and by any step whose sum is an [int], moves it by
    [delta] when that stays in the range, reports the new size, and leaves
    the text, the cursor and the operation log alone. *)
Theorem editor_change_font_size_range (delta : Z) (S : editor) :
  INT_MIN ≤ font_size S + delta ≤ INT_MAX →
  let S' := editor_change_font_size delta S in
  1 ≤ font_size S' ≤ 5 ∧
  (1 ≤ font_size S + delta ≤ 5 → font_size S' = font_size S + delta) ∧
  statusmsg (core S') = "Font size: " +:+ pretty (font_size S') ∧
  core S' = set_statusmsg (statusmsg (core S')) (core S).
Proof.
  intros _.
  assert (∀ n, 1 ≤ n ≤ 5 →
            substring 0 79 ("Font size: " +:+ pretty n) = "Font size: " +:+ pretty n)
    as Hmsg.
  { intros n Hn.
    assert (n = 1 ∨ n = 2 ∨ n = 3 ∨ n = 4 ∨ n = 5) as Hcases by lia.
    destruct Hcases as [->|[->|[->|[->| ->]]]]; vm_compute; reflexivity. }
  destruct S as [E f n fs b l]. unfold editor_change_font_size.
  cbn [font_size set_font_size core filename show_line_numbers commandbuf commandlen].
  destruct (decide (fs + delta < 1)) as [Hlo|Hlo];
    cbn [font_size set_font_size core filename show_line_numbers commandbuf commandlen].
  - rewrite decide_False by lia.
    cbn -[substring pretty append].
    repeat split; try lia; try (by rewrite Hmsg by lia).
  - destruct (decide (fs + delta > 5)) as [Hhi|Hhi];
      cbn -[substring pretty append];
      repeat split; try lia; try (by rewrite Hmsg by lia).
Qed.

Lemma editor_change_font_size_range_witness :
  let S' := editor_change_font_size 7 (init_editor 24 80) in
  1 ≤ font_size S' ≤ 5 ∧
  (1 ≤ font_size (init_editor 24 80) + 7 ≤ 5 →
   font_size S' = font_size (init_editor 24 80) + 7) ∧
  statusmsg (core S') = "Font size: " +:+ pretty (font_size S') ∧
  core S' = set_statusmsg (statusmsg (core S')) (core (init_editor 24 80)).
Proof.
  apply (editor_change_font_size_range 7 (init_editor 24 80)).
  vm_compute. split; discriminate.
Defined.

(** ** The command prefix *)

Lemma skip_blanks_app (w s : list ascii) :
  Forall (λ c, is_blank c = true) w → skip_blanks (w ++ s) = skip_blanks s.
Proof.
  induction 1 as [|c w Hc _ IH]; simpl; [done|]. by rewrite Hc.
Qed.

Lemma skip_blanks_head (c : ascii) (s : list ascii) :
  is_blank c = false → skip_blanks (c :: s) = c :: s.
Proof. intros Hc. simpl. by rewrite Hc. Qed.

Lemma skip_blanks_all (w : list ascii) :
  Forall (λ c, is_blank c = true) w → skip_blanks w = [].
Proof. intros Hw. rewrite <- (app_nil_r w). by rewrite skip_blanks_app. Qed.

Lemma skip_blanks_length (s : list ascii) :
  (length (skip_blanks s) ≤ length s)%nat.
Proof.
  induction s as [|c s IH]; simpl; [done|]. destruct (is_blank c); simpl; lia.
Qed.

Lemma skip_blanks_result (s : list ascii) :
  skip_blanks s = [] ∨ ∃ c rest, skip_blanks s = c :: rest ∧ is_blank c = false.
Proof.
  induction s as [|c s IH]; simpl; [by left|].
  destruct (is_blank c) eqn:Hc; [done|]. right. by exists c, s.
Qed.

Lemma count_colons_replicate (k : nat) (s : list ascii) :
  count_colons (replicate k COLON ++ s) = Z.of_nat k + count_colons s.
Proof.
  induction k as [|k IH]; cbn [replicate app count_colons]; [lia|].
  rewrite decide_True by done. rewrite IH. lia.
Qed.

Lemma count_colons_bound (s : list ascii) : 0 ≤ count_colons s ≤ size s.
Proof.
  unfold size. induction s as [|c s IH]; simpl; [lia|]. case_decide; lia.
Qed.

Lemma count_colons_head (s : list ascii) :
  0 < count_colons s → ∃ rest, s = COLON :: rest.
Proof.
  destruct s as [|c s]; simpl; [lia|]. case_decide; [|lia].
  subst. by eexists.
Qed.

Lemma is_blank_colon : is_blank COLON = false.
Proof. done. Qed.

(** X20.  The normal form of a command.  For a command body that starts
    with neither a blank nor a colon, [process_command_prefix] accepts the
    body written after any leading blanks, any number of colons and, when
    there is a colon, any blanks behind them, and leaves the body behind
    exactly one colon (as long as the text fits the buffer). *)
Theorem process_command_prefix_normal_form
    (w1 w2 : list ascii) (k : nat) (c : ascii) (body : list ascii) :
  Forall (λ c, is_blank c = true) w1 →
  Forall (λ c, is_blank c = true) w2 →
  is_blank c = false → c ≠ COLON →
  size (w1 ++ replicate k COLON ++ w2 ++ c :: body) < 255 →
  process_command_prefix (w1 ++ replicate k COLON ++ w2 ++ c :: body)
  = (1, COLON :: c :: body).
Proof.
  intros Hw1 Hw2 Hc Hcolon Hlen. unfold process_command_prefix.
  rewrite decide_False by (by destruct w1, k, w2).
  rewrite decide_False by lia.
  rewrite (skip_blanks_app w1) by done.
  assert (size (replicate k COLON ++ w2 ++ c :: body) < 255) as Hlen1.
  { unfold size in *. rewrite !length_app in *. lia. }
  assert (count_colons (w2 ++ c :: body) = 0) as Hzero.
  { destruct w2 as [|b w2]; simpl.
    - by rewrite decide_False.
    - apply Forall_cons in Hw2 as [Hb _].
      rewrite decide_False; [done|]. by intros ->. }
  assert (skip_blanks (w2 ++ c :: body) = c :: body) as Hskip.
  { rewrite skip_blanks_app by done. by apply skip_blanks_head. }
  assert (size (COLON :: c :: body) > 1) as Hsz.
  { unfold size. simpl. lia. }
  destruct k as [|k].
  - cbn [replicate app] in *. rewrite Hskip.
    assert (count_colons (c :: body) = 0) as -> by (simpl; by rewrite decide_False).
    assert (0 < size (c :: body) < 255) as Hbody.
    { unfold size in *. rewrite length_app in Hlen1. simpl in *. lia. }
    rewrite decide_False by lia.
    rewrite decide_True by done. rewrite decide_False by lia.
    cbn [take drop app]. rewrite ?take_0, ?drop_0. cbn [app].
    rewrite skip_blanks_head by done.
    by rewrite decide_True.
  - assert (skip_blanks (replicate (S k) COLON ++ w2 ++ c :: body)
            = replicate (S k) COLON ++ w2 ++ c :: body) as ->
      by (cbn [replicate app]; apply skip_blanks_head, is_blank_colon).
    rewrite count_colons_replicate, Hzero.
    rewrite decide_False.
    2:{ unfold size. rewrite !length_app, length_replicate. simpl. lia. }
    rewrite decide_False by lia.
    destruct k as [|k].
    + rewrite decide_False by lia. cbn [replicate take drop app].
      rewrite take_0, drop_0. cbn [app].
      rewrite Hskip. by rewrite decide_True.
    + rewrite decide_True by lia.
      replace (Z.to_nat (Z.of_nat (S (S k)) + 0)) with (length (replicate (S (S k)) COLON))
        by (rewrite length_replicate; lia).
      rewrite drop_app_length. cbn [take drop app].
      rewrite ?take_0, ?drop_0. cbn [app].
      rewrite Hskip. by rewrite decide_True.
Qed.

Lemma process_command_prefix_normal_form_witness :
  process_command_prefix (str "  ::  wq") = (1, str ":wq").
Proof.
  apply (process_command_prefix_normal_form (str "  ") (str "  ") 2 "w" (str "q"));
    try (vm_compute; reflexivity); try (by repeat constructor); done.
Defined.

Lemma process_command_prefix_post (cmd : list ascii) :
  size cmd < 256 →
  size (process_command_prefix cmd).2 < 256 ∧
  ((process_command_prefix cmd).1 = 0 ∨ (process_command_prefix cmd).1 = 1) ∧
  ((process_command_prefix cmd).1 = 1 →
   ∃ c rest, (process_command_prefix cmd).2 = COLON :: c :: rest ∧
             is_blank c = false).
Proof.
  intros Hlen. unfold process_command_prefix.
  destruct (decide (cmd = [])); [simpl; split_and!; [lia|by left|done]|].
  destruct (decide (size cmd >= 256)); [lia|].
  pose proof (skip_blanks_length cmd) as Hskip.
  pose proof (count_colons_bound (skip_blanks cmd)) as Hcount.
  set (cmd1 := skip_blanks cmd) in *.
  destruct (decide (count_colons cmd1 >= size cmd1));
    [simpl; split_and!; [by compute|by left|done]|].
  assert (∀ tail : list ascii,
            size (COLON :: tail) < 256 →
            let out := take 1 (COLON :: tail) ++ skip_blanks (drop 1 (COLON :: tail)) in
            let res := (if decide (size out > 1) then 1 else 0, out) in
            size res.2 < 256 ∧ (res.1 = 0 ∨ res.1 = 1) ∧
            (res.1 = 1 → ∃ c rest, res.2 = COLON :: c :: rest ∧ is_blank c = false))
    as Hfinish.
  { intros tail Htail. cbn [take drop app]. rewrite take_0, drop_0. cbn [app].
    pose proof (skip_blanks_length tail) as Hl.
    destruct (skip_blanks_result tail) as [Hnil|(c & rest & Hcons & Hc)].
    - rewrite Hnil. simpl. split_and!; [by compute|by left|done].
    - rewrite Hcons in *. cbn [fst snd]. split_and!.
      + unfold size in *. simpl in *. lia.
      + case_decide; [by right|by left].
      + intros _. by exists c, rest. }
  destruct (decide (count_colons cmd1 = 0)) as [Hz|Hnz].
  - destruct (decide (size cmd1 + 1 >= 256)).
    + simpl. split_and!; [unfold size in *; lia|by left|done].
    + apply Hfinish. unfold size in *. simpl. lia.
  - destruct (count_colons_head cmd1) as [rest Hrest]; [lia|].
    destruct (decide (count_colons cmd1 > 1)).
    + apply Hfinish. unfold size in *. simpl. rewrite length_drop. lia.
    + rewrite Hrest. apply Hfinish. rewrite <- Hrest. unfold size in *. lia.
Qed.

(** X21.  What [process_command_prefix] can leave.  For every string that
    fits the command buffer, the string left fits it as well; the value
    returned is 0 or 1; and when it is 1 the string left is a colon
    followed by at least one byte, the first of which is not a blank. *)
Theorem process_command_prefix_shape (cmd : list ascii) :
  size cmd < 256 →
  size (process_command_prefix cmd).2 < 256 ∧
  ((process_command_prefix cmd).1 = 0 ∨ (process_command_prefix cmd).1 = 1) ∧
  ((process_command_prefix cmd).1 = 1 →
   ∃ c rest, (process_command_prefix cmd).2 = COLON :: c :: rest ∧
             is_blank c = false).
Proof. apply process_command_prefix_post. Qed.

Lemma process_command_prefix_shape_witness :
  size (process_command_prefix (str ": w")).2 < 256 ∧
  ((process_command_prefix (str ": w")).1 = 0 ∨
   (process_command_prefix (str ": w")).1 = 1) ∧
  ((process_command_prefix (str ": w")).1 = 1 →
   ∃ c rest, (process_command_prefix (str ": w")).2 = COLON :: c :: rest ∧
             is_blank c = false).
Proof.
  apply (process_command_prefix_shape (str ": w")). by compute.
Defined.

(** X22.  A command line with nothing to run is refused: for a non-empty
    string made of blanks, then colons, then blanks,
    [process_command_prefix] returns 0 and leaves a single colon. *)
Theorem process_command_prefix_blank (w1 w2 : list ascii) (k : nat) :
  Forall (λ c, is_blank c = true) w1 →
  Forall (λ c, is_blank c = true) w2 →
  w1 ++ replicate k COLON ++ w2 ≠ [] →
  size (w1 ++ replicate k COLON ++ w2) < 256 →
  process_command_prefix (w1 ++ replicate k COLON ++ w2) = (0, [COLON]).
Proof.
  intros Hw1 Hw2 Hne Hlen. unfold process_command_prefix.
  rewrite decide_False by done. rewrite decide_False by lia.
  rewrite (skip_blanks_app w1) by done.
  destruct k as [|k].
  - cbn [replicate app]. rewrite skip_blanks_all by done.
    by rewrite decide_True by (by compute).
  - assert (skip_blanks (replicate (S k) COLON ++ w2) = replicate (S k) COLON ++ w2)
      as -> by (cbn [replicate app]; apply skip_blanks_head, is_blank_colon).
    assert (count_colons w2 = 0) as Hzero.
    { destruct w2 as [|b w2]; [done|]. cbn [count_colons].
      apply Forall_cons in Hw2 as [Hb _].
      rewrite decide_False; [done|]. by intros ->. }
    rewrite count_colons_replicate, Hzero.
    assert (size (replicate (S k) COLON ++ w2) = Z.of_nat (S k) + size w2) as Hsz.
    { unfold size. rewrite length_app, length_replicate. lia. }
    destruct w2 as [|b w2].
    + rewrite decide_True; [done|]. rewrite Hsz. unfold size. simpl. lia.
    + rewrite decide_False by (rewrite Hsz; unfold size; simpl; lia).
      rewrite decide_False by lia.
      assert (skip_blanks (b :: w2) = []) as Hall by by apply skip_blanks_all.
      destruct k as [|k].
      * rewrite decide_False by lia. cbn [replicate take drop app].
        rewrite ?take_0, ?drop_0. cbn [app]. rewrite Hall. done.
      * rewrite decide_True by lia.
        replace (Z.to_nat (Z.of_nat (S (S k)) + 0))
          with (length (replicate (S (S k)) COLON))
          by (rewrite length_replicate; lia).
        rewrite drop_app_length. cbn [take drop app].
        rewrite ?take_0, ?drop_0. cbn [app]. rewrite Hall. done.
Qed.

Lemma process_command_prefix_blank_witness :
  process_command_prefix (str " :: ") = (0, [COLON]).
Proof.
  apply (process_command_prefix_blank (str " ") (str " ") 2);
    try (by repeat constructor); by compute.
Defined.

(** ** Files *)

(** What the loop over trailing line terminators keeps of a line. *)
Lemma strip_eol_prefix (line : list ascii) (n : nat) :
  (n ≤ length line)%nat →
  let k := Z.to_nat (strip_eol line n) in
  (k ≤ n)%nat ∧ strip_eol line n = Z.of_nat k ∧
  Forall (λ c, is_eol c = true) (drop k (take n line)) ∧
  (∀ c, last (take k line) = Some c → is_eol c = false).
Proof.
  induction n as [|n IH]; intros Hn; cbn [strip_eol].
  - simpl. split_and!; [done..|]. by intros c [=].
  - destruct (lookup_lt_is_Some_2 line n) as [c Hc]; [lia|]. rewrite Hc.
    destruct (is_eol c) eqn:Heol.
    + destruct IH as (Hk & Hz & Htail & Hlast); [lia|].
      split_and!; [lia|done| |done].
      rewrite (take_S_r _ _ _ Hc), drop_app_le by (rewrite length_take; lia).
      apply Forall_app. split; [done|]. by repeat constructor.
    + rewrite Nat2Z.id. split_and!; [done..| |].
      * rewrite drop_ge by (rewrite length_take; lia). constructor.
      * intros c'. rewrite (take_S_r _ _ _ Hc), last_snoc. by intros [= <-].
Qed.

Lemma strip_eol_terminated (r : erow) :
  (∀ c, last r = Some c → is_eol c = false) →
  bytes (r ++ [LF]) (strip_eol (r ++ [LF]) (length (r ++ [LF]))) = r.
Proof.
  intros Hlast. rewrite length_app. simpl length.
  replace (length r + 1)%nat with (S (length r)) by lia.
  cbn [strip_eol]. rewrite lookup_app_r, Nat.sub_diag by done. simpl.
  assert (strip_eol (r ++ [LF]) (length r) = Z.of_nat (length r)) as ->.
  { destruct r as [|c r _] using rev_ind; [done|].
    rewrite length_app. simpl length.
    replace (length r + 1)%nat with (S (length r)) by lia.
    cbn [strip_eol]. rewrite <- app_assoc.
    rewrite lookup_app_r, Nat.sub_diag by done. simpl.
    rewrite (Hlast c) by apply last_snoc. done. }
  unfold bytes. rewrite Nat2Z.id. by rewrite take_app_length.
Qed.

Lemma editor_open_rows (lines : list (list ascii)) (E : editor_config) :
  let E' := foldl (λ E line,
              editor_insert_row (numrows E) line (strip_eol line (length line)) E)
              E lines in
  row E' = row E ++ ((λ l, bytes l (strip_eol l (length l))) <$> lines) ∧
  cx E' = cx E ∧ cy E' = cy E.
Proof.
  revert E. induction lines as [|l lines IH]; intros E; simpl.
  - by rewrite app_nil_r.
  - destruct (IH (editor_insert_row (numrows E) l (strip_eol l (length l)) E))
      as (Hrow & Hx & Hy).
    rewrite Hrow, Hx, Hy.
    destruct (editor_insert_row_in_range (numrows E) E l (strip_eol l (length l)))
      as (Hr & _); [unfold numrows; lia|].
    rewrite Hr.
    destruct (editor_insert_row_cursor (numrows E) E l (strip_eol l (length l)))
      as [-> ->].
    split; [|done]. unfold insert_at, numrows. rewrite Nat2Z.id.
    rewrite take_ge, drop_ge by done. by rewrite <- app_assoc.
Qed.

Lemma editor_open_read (name : list ascii) (lines : list (list ascii))
    (S : editor) :
  let S' := editor_open name (Some lines) S in
  row (core S') =
    row (core S) ++ ((λ l, bytes l (strip_eol l (length l))) <$> lines) ∧
  dirty (core S') = 0 ∧
  undo_stack (core S') = [] ∧ redo_stack (core S') = [] ∧
  filename S' = Some name ∧
  cx (core S') = cx (core S) ∧ cy (core S') = cy (core S).
Proof.
  unfold editor_open. cbn [core set_core set_filename filename].
  destruct (editor_open_rows lines (core S)) as (Hrow & Hx & Hy).
  by split_and!.
Qed.

(** X23.  Opening a file that can be read appends one row per line of the
    file, each line without the carriage returns and newlines at its end
    and otherwise as read; it marks the buffer clean, empties both stacks,
    records the name and leaves the cursor where it was. *)
Theorem editor_open_appends (name : list ascii) (lines : list (list ascii))
    (S : editor) :
  ∃ rows,
    row (core (editor_open name (Some lines) S)) = row (core S) ++ rows ∧
    Forall2 (λ line r, ∃ tail, line = r ++ tail ∧
                         Forall (λ c, is_eol c = true) tail ∧
                         ∀ c, last r = Some c → is_eol c = false) lines rows ∧
    dirty (core (editor_open name (Some lines) S)) = 0 ∧
    undo_stack (core (editor_open name (Some lines) S)) = [] ∧
    redo_stack (core (editor_open name (Some lines) S)) = [] ∧
    filename (editor_open name (Some lines) S) = Some name ∧
    cx (core (editor_open name (Some lines) S)) = cx (core S) ∧
    cy (core (editor_open name (Some lines) S)) = cy (core S).
Proof.
  exists ((λ l, bytes l (strip_eol l (length l))) <$> lines).
  destruct (editor_open_read name lines S) as (Hrow & Hd & Hu & Hr & Hf & Hx & Hy).
  split_and!; try done.
  apply Forall2_fmap_r, Forall_Forall2_diag, Forall_forall. intros l _.
  destruct (strip_eol_prefix l (length l)) as (Hk & Hz & Htail & Hlast); [done|].
  exists (drop (Z.to_nat (strip_eol l (length l))) l). unfold bytes.
  rewrite take_drop. split; [done|]. split; [|done].
  by rewrite take_ge in Htail by done.
Qed.

Lemma file_lines_line (r : erow) (rest : list ascii) :
  LF ∉ r → file_lines (r ++ LF :: rest) = (r ++ [LF]) :: file_lines rest.
Proof.
  induction r as [|c r IH]; intros Hr; cbn [app file_lines].
  - by rewrite decide_True.
  - apply not_elem_of_cons in Hr as [Hc Hr].
    rewrite decide_False by done. by rewrite IH.
Qed.

Lemma file_lines_saved (rows : list erow) :
  Forall (λ r, LF ∉ r) rows →
  file_lines (mjoin ((λ r : erow, r ++ [LF]) <$> rows))
  = (λ r : erow, r ++ [LF]) <$> rows.
Proof.
  induction 1 as [|r rows Hr _ IH]; [done|].
  rewrite fmap_cons.
  change (file_lines ((r ++ [LF]) ++ mjoin ((λ r : erow, r ++ [LF]) <$> rows))
          = (r ++ [LF]) :: ((λ r : erow, r ++ [LF]) <$> rows)).
  rewrite <- app_assoc. cbn [app].
  rewrite file_lines_line by done. by rewrite IH.
Qed.

(** X24.  Saving and reading back.  When no row holds a newline or ends in
    a carriage return, and the file can be written, [editor_save] succeeds,
    marks the buffer clean, and writes a file from which [editor_open], in
    an editor just started, reads the same rows. *)
Theorem editor_save_open_round_trip (fs : file_system) (name : list ascii)
    (S : editor) (maxy maxx : Z) :
  filename S = Some name →
  write_opens fs = true →
  Forall (λ r, (LF ∉ r) ∧ (∀ c, last r = Some c → c ≠ CR)) (row (core S)) →
  ∃ S1 out,
    editor_save fs S = (S1, Some out, 0) ∧
    dirty (core S1) = 0 ∧ row (core S1) = row (core S) ∧
    row (core (editor_open name (Some (file_lines out)) (init_editor maxy maxx)))
    = row (core S).
Proof.
  intros Hname Hopen Hrows. unfold editor_save. rewrite Hname, Hopen.
  eexists _, _. split; [done|]. split; [done|]. split; [done|].
  rewrite file_lines_saved by (eapply Forall_impl; [done|]; by intros r [? _]).
  unfold editor_open. cbn [core set_core set_filename init_editor].
  destruct (editor_open_rows ((λ r : erow, r ++ [LF]) <$> row (core S))
              (core (set_filename (Some name) (init_editor maxy maxx))))
    as (Hrow & _).
  cbn [core set_core set_filename init_editor] in Hrow.
  cbn [row set_redo_stack set_undo_stack set_dirty].
  rewrite Hrow. cbn [row app]. rewrite <- list_fmap_compose.
  transitivity (id <$> row (core S)); [|apply list_fmap_id].
  apply Forall_fmap_ext_1. eapply Forall_impl; [done|].
  intros r [Hlf Hcr]. unfold compose, id. apply strip_eol_terminated.
  intros c Hc. unfold is_eol. apply bool_decide_eq_false. intros [->| ->].
  - apply Hlf. apply last_Some in Hc as [l' ->].
    apply elem_of_app. right. by left.
  - by apply (Hcr CR).
Qed.

Lemma editor_save_open_round_trip_witness :
  ∃ S1 out,
    editor_save (FileSystem true "" (λ _, None))
      (Editor (session [str "ab"; str ""] 0 0) (Some (str "f")) 0 3 [] 0)
    = (S1, Some out, 0) ∧
    dirty (core S1) = 0 ∧ row (core S1) = [str "ab"; str ""] ∧
    row (core (editor_open (str "f") (Some (file_lines out)) (init_editor 24 80)))
    = [str "ab"; str ""].
Proof.
  apply (editor_save_open_round_trip (FileSystem true "" (λ _, None)) (str "f")
           (Editor (session [str "ab"; str ""] 0 0) (Some (str "f")) 0 3 [] 0)
           24 80); [reflexivity | reflexivity |].
  repeat constructor; try (by intros c [=]).
  - vm_compute. intros H. by repeat (apply elem_of_cons in H as [H|H]; [discriminate H|]); apply elem_of_nil in H.
  - vm_compute. intros c [= <-]. discriminate.
  - intros H. by apply elem_of_nil in H.
Defined.

(** ** Commands *)

(** Reduction of the fields of the whole state. *)
Ltac ed_fields :=
  cbn [core filename show_line_numbers font_size commandbuf commandlen
       set_core set_filename set_font_size set_commandbuf set_commandlen
       on_core snprintf_statusmsg] in *.

Lemma editor_save_result (fs : file_system) (S S' : editor)
    (written : option (list ascii)) (ret : Z) :
  editor_save fs S = (S', written, ret) →
  row (core S') = row (core S) ∧ mode (core S') = mode (core S) ∧
  cx (core S') = cx (core S) ∧ cy (core S') = cy (core S) ∧
  commandbuf S' = commandbuf S ∧ commandlen S' = commandlen S ∧
  (ret = 0 →
   dirty (core S') = 0 ∧
   written = Some (mjoin ((λ r : erow, r ++ [LF]) <$> row (core S)))) ∧
  (ret ≠ 0 → dirty (core S') = dirty (core S) ∧ written = None).
Proof.
  unfold editor_save. destruct (filename S) as [name|].
  - destruct (write_opens fs); intros [= <- <- <-]; ed_fields; fields;
      split_and!; (done || lia).
  - intros [= <- <- <-]. ed_fields; fields. split_and!; (done || lia).
Qed.

(** The string that the trim of [editor_process_command] leaves. *)
Lemma trim_end_head (c : ascii) (s : list ascii) (n : nat) :
  ∃ rest, trim_end (c :: s) n = c :: rest.
Proof.
  induction n as [|n IH]; cbn [trim_end].
  - by exists [].
  - destruct ((c :: s) !! S n) as [c'|]; [destruct (is_space c')|]; try done;
      by eexists.
Qed.

Lemma del_rows_down_frame (n : nat) (i : Z) (E : editor_config) :
  mode (del_rows_down n i E) = mode E ∧
  cx (del_rows_down n i E) = cx E ∧ cy (del_rows_down n i E) = cy E.
Proof.
  revert i E. induction n as [|n IH]; intros i E; simpl; [done|].
  destruct (IH (i - 1) (editor_del_row i E)) as (-> & -> & ->).
  destruct (editor_del_row_cursor i E) as [-> ->].
  split; [|done]. unfold editor_del_row. case_decide; [done|].
  by destruct (at_index _ _).
Qed.

Lemma editor_open_frame (name : list ascii) (fp : option (list (list ascii)))
    (S : editor) :
  mode (core (editor_open name fp S)) = mode (core S) ∧
  cx (core (editor_open name fp S)) = cx (core S) ∧
  cy (core (editor_open name fp S)) = cy (core S) ∧
  commandbuf (editor_open name fp S) = commandbuf S ∧
  commandlen (editor_open name fp S) = commandlen S.
Proof.
  unfold editor_open. destruct fp as [lines|]; [|done]. ed_fields. fields.
  split_and!; try done.
  - generalize (core S). induction lines as [|l lines IH]; intros E; [done|].
    simpl. rewrite IH. unfold editor_insert_row. by case_decide.
  - apply (editor_open_rows lines (core S)).
  - apply (editor_open_rows lines (core S)).
Qed.

Lemma del_all_rows_frame (E : editor_config) :
  mode (del_all_rows E) = mode E ∧
  cx (del_all_rows E) = cx E ∧ cy (del_all_rows E) = cy E.
Proof. apply del_rows_down_frame. Qed.

Lemma snprintf_statusmsg_frame (s : string) (S : editor) :
  row (core (snprintf_statusmsg s S)) = row (core S) ∧
  mode (core (snprintf_statusmsg s S)) = mode (core S) ∧
  dirty (core (snprintf_statusmsg s S)) = dirty (core S) ∧
  cx (core (snprintf_statusmsg s S)) = cx (core S) ∧
  cy (core (snprintf_statusmsg s S)) = cy (core S) ∧
  commandbuf (snprintf_statusmsg s S) = commandbuf S ∧
  commandlen (snprintf_statusmsg s S) = commandlen S.
Proof. done. Qed.

(** What the chain of comparisons of [editor_process_command] leaves. *)
Lemma dispatch_command_cases (fs : file_system) (cmd : list ascii)
    (S S' : editor) (written : option (list ascii))
    (should_quit force_quit preserve_position : Z) :
  dispatch_command fs cmd S
  = (S', written, should_quit, force_quit, preserve_position) →
  mode (core S') = mode (core S) ∧
  cx (core S') = cx (core S) ∧ cy (core S') = cy (core S) ∧
  commandbuf S' = commandbuf S ∧ commandlen S' = commandlen S ∧
  (should_quit = 0 ∨
   should_quit = 1 ∧ row (core S') = row (core S) ∧
   (force_quit ≠ 0 ∧
    cmd ∈ [str ":q!"; str ":quit!"; str "::q!"; str "::quit!"] ∨
    force_quit = 0 ∧ dirty (core S') = 0 ∧
    (dirty (core S) = 0 ∨
     written = Some (mjoin ((λ r : erow, r ++ [LF]) <$> row (core S)))))).
Proof.
  unfold dispatch_command. cbv zeta.
  pose proof (λ s, snprintf_statusmsg_frame s S) as Hmsg.
  assert (∀ name,
            let S2 := editor_open name (read_lines fs name)
                        (on_core del_all_rows S) in
            mode (core S2) = mode (core S) ∧ cx (core S2) = cx (core S) ∧
            cy (core S2) = cy (core S) ∧ commandbuf S2 = commandbuf S ∧
            commandlen S2 = commandlen S) as Hopen.
  { intros name. cbv zeta.
    destruct (editor_open_frame name (read_lines fs name) (on_core del_all_rows S))
      as (-> & -> & -> & -> & ->).
    destruct (del_all_rows_frame (core S)) as (Hm & Hx & Hy).
    unfold on_core. ed_fields. by rewrite Hm, Hx, Hy. }
  destruct (decide (cmd = str ":q" ∨ _)) as [_|_].
  { case_decide; intros [= <- <- <- <- <-].
    - split_and!; try apply Hmsg. by left.
    - split_and!; try done. right. split_and!; try done. right.
      split_and!; [done|lia|left; lia]. }
  destruct (decide (cmd = str ":q!" ∨ _)) as [Hforced|_].
  { intros [= <- <- <- <- <-]. split_and!; try done. right.
    split_and!; try done. left. split; [done|].
    rewrite !elem_of_cons. tauto. }
  destruct (decide (cmd = str ":w" ∨ _)) as [_|_].
  { destruct (editor_save fs S) as [[S1 out] ret] eqn:Hsave.
    intros [= <- <- <- <- <-].
    destruct (editor_save_result _ _ _ _ _ Hsave)
      as (_ & Hm & Hx & Hy & Hb & Hl & _).
    split_and!; try done. by left. }
  destruct (decide (cmd = str ":wq" ∨ _)) as [_|_].
  { destruct (editor_save fs S) as [[S1 out] ret] eqn:Hsave.
    intros [= <- <- <- <- <-].
    destruct (editor_save_result _ _ _ _ _ Hsave)
      as (Hrow & Hm & Hx & Hy & Hb & Hl & Hok & _).
    split_and!; try done. case_decide; [|by left]. right.
    destruct Hok as [Hd Hw]; [done|]. split_and!; try done. right.
    split_and!; try done. by right. }
  destruct (decide (take 3 cmd = str ":e " ∨ _)) as [_|_].
  { case_decide; intros [= <- <- <- <- <-].
    - split_and!; try apply Hmsg. by left.
    - match goal with |- context [editor_open ?n _ _] =>
        destruct (Hopen n) as (Hm & Hx & Hy & Hb & Hl) end.
      split_and!; try done. by left. }
  destruct (decide (take 4 cmd = str ":e! " ∨ _)) as [_|_].
  { intros [= <- <- <- <- <-].
    match goal with |- context [editor_open ?n _ _] =>
      destruct (Hopen n) as (Hm & Hx & Hy & Hb & Hl) end.
    split_and!; try done. by left. }
  intros [= <- <- <- <- <-]. split_and!; try apply Hmsg. by left.
Qed.

(** What a call of [editor_process_command] does, by the value of
    [process_command_prefix] on the terminated command line. *)
Lemma editor_process_command_cases (fs : file_system) (S S' : editor)
    (written : option (list ascii)) (end_ : outcome) :
  editor_process_command fs S = Some (S', written, end_) →
  let pre := process_command_prefix
               (take (Z.to_nat (Z.min (commandlen S) 255)) (commandbuf S)) in
  0 ≤ commandlen S ∧
  mode (core S') = mode (core S) ∧
  (pre.1 = 0 →
   end_ = Returns 0 ∧ written = None ∧ core S' = core S ∧
   commandbuf S' = pre.2) ∧
  (pre.1 ≠ 0 →
   commandbuf S' = trim_end pre.2 (length pre.2 - 1) ∧
   commandlen S' = size pre.2 ∧
   cx (core S') = cx (core S) ∧ cy (core S') = cy (core S) ∧
   (end_ = Returns 1 ∨ end_ = Exits) ∧
   (end_ = Exits →
    row (core S') = row (core S) ∧
    (commandbuf S' ∈ [str ":q!"; str ":quit!"; str "::q!"; str "::quit!"] ∨
     (dirty (core S') = 0 ∧
      (dirty (core S) = 0 ∨
       written = Some (mjoin ((λ r : erow, r ++ [LF]) <$> row (core S)))))))).
Proof.
  unfold editor_process_command. intros Hrun.
  assert (∃ S1, (if decide (commandlen S >= 256)
                 then Some (set_commandlen 255
                              (set_commandbuf (take 255 (commandbuf S)) S))
                 else terminate_commandbuf S) = Some S1 ∧
                0 ≤ commandlen S ∧ core S1 = core S ∧
                commandbuf S1 =
                  take (Z.to_nat (Z.min (commandlen S) 255)) (commandbuf S))
    as (S1 & HS1 & Hlen & Hcore1 & Hbuf1).
  { destruct (decide (commandlen S >= 256)).
    - eexists. split; [done|]. ed_fields. split_and!; [lia|done|].
      by replace (Z.to_nat (Z.min (commandlen S) 255)) with 255%nat by lia.
    - unfold terminate_commandbuf in *.
      destruct (decide (0 ≤ commandlen S < 256)); [|done].
      eexists. split; [done|]. ed_fields. split_and!; [lia|done|].
      by replace (Z.min (commandlen S) 255) with (commandlen S) by lia. }
  rewrite HS1 in Hrun. clear HS1.
  cbv beta iota delta [mbind option_bind] in Hrun.
  rewrite Hbuf1 in Hrun.
  pose proof (process_command_prefix_post
                (take (Z.to_nat (Z.min (commandlen S) 255)) (commandbuf S)))
    as (_ & Hbit & Hshape).
  { unfold size. rewrite length_take. lia. }
  cbv zeta.
  destruct (process_command_prefix _) as [valid buf]. cbn [fst snd] in *.
  split; [done|].
  destruct (decide (valid = 0)) as [Hv|Hv].
  { injection Hrun as <- <- <-. ed_fields. split_and!; try done.
    by rewrite Hcore1. }
  destruct Hshape as (c & rest & -> & Hc); [lia|].
  cbv zeta in Hrun. ed_fields.
  assert (skip_blanks (COLON :: c :: rest) = COLON :: c :: rest) as Hp
    by apply skip_blanks_head, is_blank_colon.
  rewrite Hp in Hrun. rewrite Nat.sub_diag, take_0 in Hrun. cbn [app] in Hrun.
  match type of Hrun with
  | context [dispatch_command fs ?cmd ?S4] =>
    destruct (dispatch_command fs cmd S4)
      as [[[[S5 w] should_quit] force_quit] preserve_position] eqn:Hd
  end.
  destruct (dispatch_command_cases _ _ _ _ _ _ _ _ Hd)
    as (Hm & Hx & Hy & Hb & Hl & Hquit).
  ed_fields. rewrite Hcore1 in *.
  assert (∀ S6, S6 = S5 ∨
            S6 = on_core (λ E, set_coloff (coloff (core S))
                                 (set_rowoff (rowoff (core S))
                                    (set_cy (cy (core S))
                                       (set_cx (cx (core S)) E)))) S5 →
            mode (core S6) = mode (core S) ∧ commandbuf S6 = commandbuf S5 ∧
            commandlen S6 = commandlen S5 ∧ row (core S6) = row (core S5) ∧
            dirty (core S6) = dirty (core S5) ∧
            cx (core S6) = cx (core S) ∧ cy (core S6) = cy (core S)) as Hrestore.
  { intros S6 [-> | ->]; [done|]. unfold on_core. ed_fields. fields. done. }
  set (S6 := if decide (preserve_position ≠ 0 ∧ should_quit = 0) then _ else _)
    in Hrun.
  destruct (Hrestore S6) as (Hm6 & Hb6 & Hl6 & Hr6 & Hd6 & Hx6 & Hy6).
  { unfold S6.
    destruct (decide (preserve_position ≠ 0 ∧ should_quit = 0));
      [by right|by left]. }
  clearbody S6. clear Hrestore.
  rewrite <- Hb in *. rewrite <- Hl in *.
  match type of Hrun with
  | (if decide ?Q then _ else _) = _ => destruct (decide Q) as [Hq|Hq]
  end; injection Hrun as <- <- <-.
  - split_and!; try done. intros _. split_and!; try done; [by right|].
    intros _. destruct Hquit as [?|(_ & Hrow & Hcase)]; [lia|].
    split; [congruence|].
    destruct Hcase as [[_ Hforced]|(_ & Hclean & Hsaved)].
    + left. by rewrite Hb6.
    + right. split; [congruence|done].
  - split_and!; try done. intros _. split_and!; try done. by left.
Qed.

(** X25.  Leaving through a command loses no text.  When
    [editor_process_command] ends the program, the rows are the ones before
    the call and either the command is a forced quit ([:q!], [:quit!]) or
    the buffer is clean: it already was, or [editor_save] has just written
    every row, each followed by a newline. *)
Theorem editor_process_command_exit (fs : file_system) (S S' : editor)
    (written : option (list ascii)) :
  editor_process_command fs S = Some (S', written, Exits) →
  row (core S') = row (core S) ∧
  (commandbuf S' ∈ [str ":q!"; str ":quit!"; str "::q!"; str "::quit!"] ∨
   (dirty (core S') = 0 ∧
    (dirty (core S) = 0 ∨
     written = Some (mjoin ((λ r : erow, r ++ [LF]) <$> row (core S)))))).
Proof.
  intros Hrun.
  destruct (editor_process_command_cases _ _ _ _ _ Hrun)
    as (_ & _ & Hzero & Hvalid).
  destruct (decide ((process_command_prefix
                       (take (Z.to_nat (Z.min (commandlen S) 255))
                          (commandbuf S))).1 = 0)) as [Hz|Hnz].
  - by destruct (Hzero Hz) as [[=] _].
  - destruct (Hvalid Hnz) as (_ & _ & _ & _ & _ & Hexit). by apply Hexit.
Qed.

Lemma editor_process_command_exit_witness :
  row (core (Editor (set_dirty 0 (set_statusmsg "1 lines written to f"
                                    (session [str "ab"] 0 0)))
               (Some (str "f")) 0 3 (str ":wq") 3))
  = row (core (Editor (set_dirty 1 (session [str "ab"] 0 0))
                 (Some (str "f")) 0 3 (str ":wq") 3)) ∧
  (str ":wq" ∈ [str ":q!"; str ":quit!"; str "::q!"; str "::quit!"] ∨
   (0 = 0 ∧
    (1 = 0 ∨
     Some (str "ab" ++ [LF])
     = Some (mjoin ((λ r : erow, r ++ [LF]) <$> [str "ab"]))))).
Proof.
  apply (editor_process_command_exit (FileSystem true "" (λ _, None))
           (Editor (set_dirty 1 (session [str "ab"] 0 0))
              (Some (str "f")) 0 3 (str ":wq") 3)
           (Editor (set_dirty 0 (set_statusmsg "1 lines written to f"
                                   (session [str "ab"] 0 0)))
              (Some (str "f")) 0 3 (str ":wq") 3)
           (Some (str "ab" ++ [LF]))).
  vm_compute. reflexivity.
Defined.

(** ** The keys of command mode *)

(** X26.  Enter in command mode.  A command line that
    [process_command_prefix] refuses sends the editor back to normal mode
    with an empty command line.  One that it accepts is run, and unless it
    ends the program the editor stays in the mode it was in, with the
    command, trimmed, still in the buffer. *)
Theorem command_key_enter (fs : file_system) (S S' : editor)
    (written : option (list ascii)) (end_ : outcome) :
  0 < commandlen S →
  command_key fs KEY_ENTER S = Some (S', written, end_) →
  let pre := process_command_prefix
               (take (Z.to_nat (Z.min (commandlen S) 255)) (commandbuf S)) in
  (pre.1 = 0 →
   end_ = Returns 0 ∧ mode (core S') = MODE_NORMAL ∧
   commandbuf S' = [] ∧ commandlen S' = 0) ∧
  (pre.1 ≠ 0 →
   end_ = Exits ∨
   end_ = Returns 0 ∧ mode (core S') = mode (core S) ∧
   commandbuf S' = trim_end pre.2 (length pre.2 - 1) ∧
   commandbuf S' ≠ [] ∧ commandlen S' = size pre.2).
Proof.
  intros Hlen. unfold command_key. rewrite decide_True by lia.
  destruct (editor_process_command fs S) as [[[S1 w] e]|] eqn:Hrun; [|done].
  cbn [mbind option_bind]. intros Hkey.
  destruct (editor_process_command_cases _ _ _ _ _ Hrun)
    as (_ & Hmode & Hzero & Hvalid).
  cbv zeta in *.
  set (pre := process_command_prefix
                (take (Z.to_nat (Z.min (commandlen S) 255)) (commandbuf S))) in *.
  split.
  - intros Hz. destruct (Hzero Hz) as (-> & _ & _ & _).
    rewrite decide_False in Hkey by lia. by injection Hkey as <- <- <-.
  - intros Hnz. destruct (Hvalid Hnz) as (Hbuf & Hl & _ & _ & Hend & _).
    destruct Hend as [-> | ->].
    + rewrite decide_True in Hkey by lia. injection Hkey as <- <- <-.
      right. split_and!; try done. rewrite Hbuf.
      pose proof (process_command_prefix_post
                    (take (Z.to_nat (Z.min (commandlen S) 255)) (commandbuf S)))
        as (_ & Hbit & Hshape).
      { unfold size. rewrite length_take. lia. }
      fold pre in Hbit, Hshape.
      destruct Hshape as (c & rest & -> & _); [lia|].
      by destruct (trim_end_head COLON (c :: rest) (length (COLON :: c :: rest) - 1))
        as [t ->].
    + injection Hkey as <- <- <-. by left.
Qed.

Lemma command_key_enter_witness :
  let pre := process_command_prefix (str ":w ") in
  (pre.1 = 0 →
   Returns 0 = Returns 0 ∧
   mode (set_mode MODE_COMMAND (set_statusmsg "Error: No filename" (session [] 0 0)))
   = MODE_NORMAL ∧
   str ":w" = [] ∧ 3 = 0) ∧
  (pre.1 ≠ 0 →
   Returns 0 = Exits ∨
   Returns 0 = Returns 0 ∧
   mode (set_mode MODE_COMMAND (set_statusmsg "Error: No filename" (session [] 0 0)))
   = MODE_COMMAND ∧
   str ":w" = trim_end pre.2 (length pre.2 - 1) ∧
   str ":w" ≠ [] ∧ 3 = size pre.2).
Proof.
  apply (command_key_enter (FileSystem true "" (λ _, None))
           (Editor (set_mode MODE_COMMAND (session [] 0 0)) None 0 3 (str ":w ") 3)
           (Editor (set_mode MODE_COMMAND
                      (set_statusmsg "Error: No filename" (session [] 0 0)))
              None 0 3 (str ":w") 3)
           None (Returns 0)).
  - reflexivity.
  - vm_compute. reflexivity.
Defined.

(** One key of command mode other than Enter, on a command line whose
    length field is the length of its string and whose only colon, if any,
    is its first byte. *)
Lemma command_key_typed (fs : file_system) (k : key) (S : editor) :
  k ≠ KEY_ENTER → k ≠ Ch CR →
  commandlen S = size (commandbuf S) → size (commandbuf S) ≤ 255 →
  COLON ∉ drop 1 (commandbuf S) →
  ∃ S', command_key fs k S = Some (S', None, Returns 0) ∧
        commandlen S' = size (commandbuf S') ∧ size (commandbuf S') ≤ 255 ∧
        (COLON ∉ drop 1 (commandbuf S')) ∧
        row (core S') = row (core S) ∧
        cx (core S') = cx (core S) ∧ cy (core S') = cy (core S).
Proof.
  intros Henter Hcr Hlen Hsize Hcolon. unfold command_key, size in *.
  assert (∀ S1 : editor, commandbuf S1 = [] → commandlen S1 = 0 →
            commandlen S1 = Z.of_nat (length (commandbuf S1)) ∧
            Z.of_nat (length (commandbuf S1)) ≤ 255 ∧
            COLON ∉ drop 1 (commandbuf S1)) as Hempty.
  { intros S1 -> ->. simpl. split_and!; [done|lia|]. apply not_elem_of_nil. }
  assert (∃ S', (if decide (commandlen S > 0)
                 then S1 ← terminate_commandbuf
                             (set_commandlen (commandlen S - 1) S);
                      Some (S1, @None (list ascii), Returns 0)
                 else Some (S, None, Returns 0)) = Some (S', None, Returns 0) ∧
                commandlen S' = Z.of_nat (length (commandbuf S')) ∧
                Z.of_nat (length (commandbuf S')) ≤ 255 ∧
                (COLON ∉ drop 1 (commandbuf S')) ∧
                row (core S') = row (core S) ∧
                cx (core S') = cx (core S) ∧ cy (core S') = cy (core S))
    as Hback.
  { case_decide; [|by exists S].
    unfold terminate_commandbuf. ed_fields. rewrite decide_True by lia.
    eexists. split; [done|]. ed_fields. rewrite length_take.
    split_and!; try done; [lia..|].
    intros Hin. apply Hcolon.
    destruct (commandbuf S) as [|c0 buf]; [by rewrite take_nil in Hin|].
    destruct (Z.to_nat (commandlen S - 1)) as [|m]; simpl in Hin.
    - by apply elem_of_nil in Hin.
    - rewrite drop_0 in Hin. simpl. rewrite drop_0. by eapply subseteq_take. }
  destruct k as [c| | |k|]; try done.
  - destruct (decide (c = COLON)) as [->|Hc].
    { eexists. split; [done|].
      destruct (Hempty (set_commandlen 0
                          (set_commandbuf [] (on_core (set_mode MODE_COMMAND) S))))
        as (? & ? & ?); [done..|].
      split_and!; done. }
    destruct (decide (c = ESC)) as [->|Hesc].
    { eexists. split; [done|].
      destruct (Hempty (on_core (set_statusmsg "") (command_done S)))
        as (? & ? & ?); [done..|].
      split_and!; done. }
    rewrite decide_False by congruence.
    destruct (decide (c = DEL)) as [->|Hdel]; [done|].
    unfold command_default.
    destruct (decide (32 ≤ code c ∧ code c ≤ 126 ∧ commandlen S < 256 - 1))
      as [(_ & _ & Hroom)|_]; [|by exists S].
    rewrite decide_False by done.
    unfold append_commandbuf. rewrite decide_True by lia.
    rewrite decide_True by (unfold size; lia).
    eexists. split; [done|]. ed_fields.
    rewrite Hlen, Nat2Z.id, firstn_all.
    rewrite length_app. simpl. split_and!; try done; [lia..|].
    destruct (commandbuf S) as [|c0 buf]; [apply not_elem_of_nil|].
    simpl in *. rewrite drop_0 in *. rewrite not_elem_of_app.
    split; [done|]. apply not_elem_of_cons. split; [congruence|apply not_elem_of_nil].
  - by exists S.
  - by exists S.
Qed.

(** X27.  The command line as it can be typed.  After [:] in normal mode
    and any sequence of printable bytes, Backspace and keys that command
    mode ignores (none of which the tests before the switch on the mode
    handle), the length field is the length of the string, the string has
    at most 255 bytes, and it holds no colon after its first byte: a colon
    typed in command mode clears the line.  The text and the cursor are
    the ones before. *)
Theorem command_keys_typed (fs : file_system) (ks : list key) (S : editor) :
  Forall (λ k, match k with
               | Ch c => 32 ≤ code c ≤ 126 ∨ c = DEL
               | KEY_ENTER => False
               | KEY_BACKSPACE | Cursor _ | KEY_OTHER => True
               end) ks →
  ∃ S', command_keys fs ks (normal_colon S) = Some S' ∧
        commandlen S' = size (commandbuf S') ∧ size (commandbuf S') ≤ 255 ∧
        (COLON ∉ drop 1 (commandbuf S')) ∧
        row (core S') = row (core S) ∧
        cx (core S') = cx (core S) ∧ cy (core S') = cy (core S).
Proof.
  intros Hks.
  assert (∀ S0, commandlen S0 = size (commandbuf S0) →
            size (commandbuf S0) ≤ 255 → COLON ∉ drop 1 (commandbuf S0) →
            ∃ S', command_keys fs ks S0 = Some S' ∧
                  commandlen S' = size (commandbuf S') ∧
                  size (commandbuf S') ≤ 255 ∧
                  (COLON ∉ drop 1 (commandbuf S')) ∧
                  row (core S') = row (core S0) ∧
                  cx (core S') = cx (core S0) ∧ cy (core S') = cy (core S0))
    as Hgen.
  { induction Hks as [|k ks Hk _ IH]; intros S0 Hlen Hsize Hcolon.
    - by exists S0.
    - assert (k ≠ KEY_ENTER ∧ k ≠ Ch CR) as [Henter Hcr].
      { destruct k as [c| | | |]; try done. split; [done|].
        intros [= ->]. destruct Hk as [Hk|Hk]; [|done].
        vm_compute in Hk. destruct Hk as [Hk _]. by apply Hk. }
      destruct (command_key_typed fs k S0 Henter Hcr Hlen Hsize Hcolon)
        as (S1 & Hkey & Hlen1 & Hsize1 & Hcolon1 & Hrow & Hx & Hy).
      destruct (IH S1 Hlen1 Hsize1 Hcolon1)
        as (S' & Hrun & ? & ? & ? & Hrow' & Hx' & Hy').
      exists S'. cbn [command_keys]. rewrite Hkey. cbn [mbind option_bind].
      split_and!; try done; congruence. }
  destruct (Hgen (normal_colon S)) as (S' & ? & ? & ? & ? & ? & ? & ?).
  - done.
  - by compute.
  - apply not_elem_of_nil.
  - by exists S'.
Qed.

Lemma command_keys_typed_witness :
  ∃ S', command_keys (FileSystem true "" (λ _, None))
          [Ch "w"%char; Ch ":"%char; Ch "q"%char; KEY_BACKSPACE]
          (normal_colon (init_editor 24 80)) = Some S' ∧
        commandlen S' = size (commandbuf S') ∧ size (commandbuf S') ≤ 255 ∧
        (COLON ∉ drop 1 (commandbuf S')) ∧
        row (core S') = row (core (init_editor 24 80)) ∧
        cx (core S') = cx (core (init_editor 24 80)) ∧
        cy (core S') = cy (core (init_editor 24 80)).
Proof.
  apply (command_keys_typed (FileSystem true "" (λ _, None))
           [Ch "w"%char; Ch ":"%char; Ch "q"%char; KEY_BACKSPACE]
           (init_editor 24 80)).
  repeat (apply Forall_cons; split;
            [first [exact I | left; vm_compute; split; discriminate]|]).
  by apply Forall_nil.
Defined.

(** ** Opening a file from the command line *)

Lemma trim_end_id (s : list ascii) (c : ascii) :
  last s = Some c → is_space c = false → trim_end s (length s - 1) = s.
Proof.
  intros [s' ->]%last_Some Hc. rewrite length_app. simpl length.
  replace (length s' + 1 - 1)%nat with (length s') by lia.
  destruct (length s') as [|n] eqn:Hn.
  - apply nil_length_inv in Hn as ->. done.
  - cbn [trim_end]. rewrite <- Hn.
    rewrite lookup_app_r, Nat.sub_diag by done. simpl. rewrite Hc.
    apply take_ge. rewrite length_app. simpl. lia.
Qed.

Lemma del_rows_down_all (n : nat) (E : editor_config) :
  numrows E = Z.of_nat n →
  row (del_rows_down n (Z.of_nat n - 1) E) = [].
Proof.
  revert E. induction n as [|n IH]; intros E Hn.
  - simpl. unfold numrows in Hn. by destruct (row E).
  - cbn [del_rows_down].
    destruct (editor_del_row_in_range (Z.of_nat (S n) - 1) E)
      as (r & Hr & Hrow & _); [lia|].
    replace (Z.of_nat (S n) - 1 - 1) with (Z.of_nat n - 1) by lia.
    apply IH. unfold numrows in *. rewrite Hrow. unfold delete_at.
    rewrite length_app, length_take, length_drop. lia.
Qed.

Lemma del_all_rows_row (E : editor_config) : row (del_all_rows E) = [].
Proof.
  unfold del_all_rows.
  rewrite <- (Z2Nat.id (numrows E)) at 2 by (unfold numrows; lia).
  apply del_rows_down_all. unfold numrows. lia.
Qed.

Lemma dispatch_command_edit_force (fs : file_system) (name : list ascii)
    (S : editor) :
  dispatch_command fs (str ":e! " ++ name) S
  = (snprintf_statusmsg ("Opened " +:+ string_of_list_ascii name)
       (editor_open name (read_lines fs name) (on_core del_all_rows S)),
     None, 0, 0, 0).
Proof.
  unfold dispatch_command. cbv zeta.
  rewrite decide_False
    by (intros Hx; repeat destruct Hx as [Hx|Hx]; cbv in Hx; discriminate Hx).
  rewrite decide_False
    by (intros Hx; repeat destruct Hx as [Hx|Hx]; cbv in Hx; discriminate Hx).
  rewrite decide_False
    by (intros Hx; repeat destruct Hx as [Hx|Hx]; cbv in Hx; discriminate Hx).
  rewrite decide_False
    by (intros Hx; repeat destruct Hx as [Hx|Hx]; cbv in Hx; discriminate Hx).
  rewrite decide_False
    by (intros Hx; repeat destruct Hx as [Hx|Hx]; cbv in Hx; discriminate Hx).
  rewrite decide_True by (by left).
  rewrite decide_False by (intros Hx; cbv in Hx; discriminate Hx).
  done.
Qed.

Lemma snprintf_statusmsg_log (s : string) (S : editor) :
  undo_stack (core (snprintf_statusmsg s S)) = undo_stack (core S) ∧
  redo_stack (core (snprintf_statusmsg s S)) = redo_stack (core S) ∧
  filename (snprintf_statusmsg s S) = filename S.
Proof. done. Qed.

(** X28.  Reading a file with [:e!].  For a command line [:e! name] whose
    name does not end in a space, and a file of that name that can be
    read, [editor_process_command] returns 1 and leaves as rows exactly
    the lines of the file without their line terminators, a clean buffer,
    empty undo and redo stacks and the name as file name; the cursor stays
    where it was. *)
Theorem edit_command_reads_file (fs : file_system) (S : editor)
    (name : list ascii) (c : ascii) (lines : list (list ascii)) :
  commandbuf S = str ":e! " ++ name →
  commandlen S = size (commandbuf S) →
  size (commandbuf S) < 256 →
  last name = Some c → is_space c = false →
  read_lines fs name = Some lines →
  ∃ S',
    editor_process_command fs S = Some (S', None, Returns 1) ∧
    row (core S') = (λ l, bytes l (strip_eol l (length l))) <$> lines ∧
    dirty (core S') = 0 ∧
    undo_stack (core S') = [] ∧ redo_stack (core S') = [] ∧
    filename S' = Some name ∧
    cx (core S') = cx (core S) ∧ cy (core S') = cy (core S).
Proof.
  intros Hbuf Hlen Hsize Hlast Hc Hread.
  set (cmd := str ":e! " ++ name) in *.
  assert (process_command_prefix cmd = (1, cmd)) as Hpre.
  { unfold process_command_prefix. rewrite decide_False by done.
    rewrite decide_False by (rewrite <- Hbuf; lia).
    assert (skip_blanks cmd = cmd) as -> by done.
    assert (count_colons cmd = 1) as -> by done.
    rewrite decide_False by (unfold size, cmd; simpl; lia).
    rewrite decide_False by lia. rewrite decide_False by lia.
    assert (take 1 cmd ++ skip_blanks (drop 1 cmd) = cmd) as -> by done.
    rewrite decide_True; [done|]. unfold size, cmd. simpl. lia. }
  assert (trim_end cmd (length cmd - 1) = cmd) as Htrim.
  { apply (trim_end_id cmd c); [|done]. unfold cmd.
    apply last_Some in Hlast as [name' ->]. by rewrite app_assoc, last_snoc. }
  unfold editor_process_command.
  rewrite decide_False by lia. unfold terminate_commandbuf.
  rewrite decide_True by (unfold size in *; lia).
  cbv beta iota delta [mbind option_bind]. ed_fields.
  rewrite Hlen, Hbuf. unfold size at 1. rewrite Nat2Z.id, firstn_all.
  rewrite Hpre. cbv zeta. rewrite decide_False by done. ed_fields.
  assert (skip_blanks cmd = cmd) as -> by done.
  rewrite Nat.sub_diag, take_0. cbn [app].
  change (match cmd with [] => [] | _ :: _ => trim_end cmd (length cmd - 1) end)
    with (trim_end cmd (length cmd - 1)).
  rewrite Htrim. unfold cmd at 1. rewrite dispatch_command_edit_force.
  rewrite decide_False by lia. rewrite decide_False by lia.
  eexists. split; [done|].
  match goal with |- context [editor_open name ?fp ?S0] =>
    rewrite Hread;
    destruct (editor_open_read name lines S0) as (Hrow & Hd & Hu & Hr & Hf & Hx & Hy)
  end.
  match goal with |- context [snprintf_statusmsg ?m ?S1] =>
    destruct (snprintf_statusmsg_frame m S1) as (-> & _ & -> & -> & -> & _);
    destruct (snprintf_statusmsg_log m S1) as (-> & -> & ->)
  end.
  rewrite Hrow, Hd, Hu, Hr, Hf, Hx, Hy. unfold on_core. ed_fields.
  rewrite del_all_rows_row.
  destruct (del_all_rows_frame (core S)) as (_ & -> & ->). done.
Qed.

Lemma edit_command_reads_file_witness :
  ∃ S',
    editor_process_command (FileSystem true "" (λ _, Some [str "x" ++ [CR; LF]]))
      (Editor (session [str "ab"] 1 0) None 0 3 (str ":e! f") 5)
    = Some (S', None, Returns 1) ∧
    row (core S') = [str "x"] ∧
    dirty (core S') = 0 ∧
    undo_stack (core S') = [] ∧ redo_stack (core S') = [] ∧
    filename S' = Some (str "f") ∧
    cx (core S') = 1 ∧ cy (core S') = 0.
Proof.
  apply (edit_command_reads_file (FileSystem true "" (λ _, Some [str "x" ++ [CR; LF]]))
           (Editor (session [str "ab"] 1 0) None 0 3 (str ":e! f") 5)
           (str "f") "f" [str "x" ++ [CR; LF]]); by vm_compute.
Defined.
